(** * The resilient API client of heritage-ai ([mvp_ai/gemini_client.py])

    A shallow embedding of the [GeminiClient] class: credential rotation,
    the error classifier [_handle_error], the retry wrapper
    [_make_request_with_retry], the three request functions, the
    resumable-upload sub-protocol and the MIME table, followed by the
    properties of the specification that concern them.  Around the
    client: its construction from the environment, the callers
    [generate_pattern_image] ([imagegen_gemini.py]) and
    [generate_cultural_note] ([gemini_notes.py]), the font generator of
    [ai_culture_generator.py] with its JSON extraction,
    [extract_palette] ([color_palette.py]) and the colour filter of
    [export_formats.py].

    Conventions of the embedding.
    - Python [str] values are [string]s of ASCII characters; a character
      above 127 has no case and is not white space.
    - Python [int] values are [Z].
    - A method that reads or mutates the client, performs HTTP, sleeps or
      touches the file system is a computation in the monad [M]: it maps a
      state to an outcome (a value or a raised exception) and a new state.
      The effects made before an exception is raised are kept.
    - Calls to [logger] have no effect on any value and are left out.
    - What lies outside the program (the HTTP transport, the base64
      decoder, [json.loads], ColorThief, the opening of files, the clock)
      is a parameter of the functions that use it. *)

From Stdlib Require Import String Ascii List ZArith Lia Bool Arith.
From Stdlib Require Import DecimalString DecimalZ.
From Stdlib Require HexadecimalString HexadecimalZ.
Import ListNotations.

Local Open Scope string_scope.
Local Open Scope Z_scope.

(* ================================================================== *)
(** ** Python string operations *)
(* ================================================================== *)

Module PyStr.

Definition is_upper (c : ascii) : bool :=
  let n := nat_of_ascii c in (65 <=? n)%nat && (n <=? 90)%nat.

Definition is_lower (c : ascii) : bool :=
  let n := nat_of_ascii c in (97 <=? n)%nat && (n <=? 122)%nat.

Definition lower_char (c : ascii) : ascii :=
  if is_upper c then ascii_of_nat (nat_of_ascii c + 32) else c.

Definition upper_char (c : ascii) : ascii :=
  if is_lower c then ascii_of_nat (nat_of_ascii c - 32) else c.

(** [s.lower()] *)
Fixpoint lower (s : string) : string :=
  match s with
  | EmptyString => EmptyString
  | String c t => String (lower_char c) (lower t)
  end.

(** [s.title()] on a string of ASCII characters ([is_ascii] below):
    the first letter of every run of letters in upper case, the others
    in lower case.  A character above 127 is taken for one without
    case, which it need not be in Python; the properties that show
    the title of an input assume the input ASCII. *)
Fixpoint title_from (prev_cased : bool) (s : string) : string :=
  match s with
  | EmptyString => EmptyString
  | String c t =>
      if is_lower c then
        String (if prev_cased then c else upper_char c) (title_from true t)
      else if is_upper c then
        String (if prev_cased then lower_char c else c) (title_from true t)
      else String c (title_from false t)
  end.

Definition title (s : string) : string := title_from false s.

(** White space as [str.strip()] sees it, within ASCII. *)
Definition is_space (c : ascii) : bool :=
  let n := nat_of_ascii c in
  ((9 <=? n)%nat && (n <=? 13)%nat)
  || ((28 <=? n)%nat && (n <=? 32)%nat).

Definition is_empty (s : string) : bool :=
  match s with EmptyString => true | String _ _ => false end.

(** Strip from the left, resp. the right, while [p] holds. *)
Fixpoint lstrip_by (p : ascii -> bool) (s : string) : string :=
  match s with
  | EmptyString => EmptyString
  | String c t => if p c then lstrip_by p t else s
  end.

Fixpoint rstrip_by (p : ascii -> bool) (s : string) : string :=
  match s with
  | EmptyString => EmptyString
  | String c t =>
      let t' := rstrip_by p t in
      if is_empty t' && p c then EmptyString else String c t'
  end.

(** [s.strip()] *)
Definition strip (s : string) : string :=
  rstrip_by is_space (lstrip_by is_space s).

Fixpoint mem_char (c : ascii) (set : string) : bool :=
  match set with
  | EmptyString => false
  | String d t => Ascii.eqb c d || mem_char c t
  end.

(** [s.rstrip(chars)]: [chars] is a set of characters, not a suffix. *)
Definition rstrip_chars (chars s : string) : string :=
  rstrip_by (fun c => mem_char c chars) s.

(** [s.startswith(p)] *)
Fixpoint startswith (p s : string) : bool :=
  match p, s with
  | EmptyString, _ => true
  | String a p', String b s' => Ascii.eqb a b && startswith p' s'
  | String _ _, EmptyString => false
  end.

(** [needle in s] *)
Fixpoint contains (needle s : string) : bool :=
  startswith needle s ||
  match s with
  | EmptyString => false
  | String _ t => contains needle t
  end.

Fixpoint last_char (s : string) : option ascii :=
  match s with
  | EmptyString => None
  | String c EmptyString => Some c
  | String _ t => last_char t
  end.

(** [s.endswith("/")] and the like, for one character. *)
Definition endswith_char (c : ascii) (s : string) : bool :=
  match last_char s with
  | Some d => Ascii.eqb d c
  | None => false
  end.

(** [s.rfind(c)] for one character; [None] stands for [-1]. *)
Fixpoint rfind (c : ascii) (s : string) : option nat :=
  match s with
  | EmptyString => None
  | String a t =>
      match rfind c t with
      | Some i => Some (S i)
      | None => if Ascii.eqb a c then Some O else None
      end
  end.

Definition index_of (o : option nat) : Z :=
  match o with Some i => Z.of_nat i | None => -1 end.

(** [s[:n]] and [s[n:]] for [0 <= n]. *)
Fixpoint take (n : nat) (s : string) : string :=
  match n, s with
  | S n', String c t => String c (take n' t)
  | _, _ => EmptyString
  end.

Fixpoint drop (n : nat) (s : string) : string :=
  match n, s with
  | S n', String _ t => drop n' t
  | _, _ => s
  end.

(** [str(n)] and [f"{n}"] for an integer. *)
Definition str_of_Z (n : Z) : string := NilZero.string_of_int (Z.to_int n).

(** [s.isascii()] *)
Fixpoint is_ascii (s : string) : bool :=
  match s with
  | EmptyString => true
  | String c t => (nat_of_ascii c <? 128)%nat && is_ascii t
  end.

End PyStr.

(* ================================================================== *)
(** ** [os.path] (posixpath) *)
(* ================================================================== *)

Module PosixPath.
Import PyStr.

Definition sep : ascii := "/"%char.
Definition extsep : ascii := "."%char.

(** The loop of [genericpath._splitext] that skips the leading dots of
    the file name: [n] iterations are left before [filenameIndex]
    reaches [dotIndex]; [true] when a character other than a dot is
    met. *)
Fixpoint name_before_dot (p : string) (filenameIndex n : nat) : bool :=
  match n with
  | O => false
  | S n' =>
      match String.get filenameIndex p with
      | Some c =>
          if Ascii.eqb c extsep
          then name_before_dot p (S filenameIndex) n'
          else true
      | None => true
      end
  end.

(** [os.path.splitext(p)] *)
Definition splitext (p : string) : string * string :=
  let sepIndex := index_of (rfind sep p) in
  let dotIndex := index_of (rfind extsep p) in
  if (dotIndex >? sepIndex)
     && name_before_dot p (Z.to_nat (sepIndex + 1))
          (Z.to_nat (dotIndex - (sepIndex + 1)))
  then (take (Z.to_nat dotIndex) p, drop (Z.to_nat dotIndex) p)
  else (p, EmptyString).

(** [os.path.basename(p)] *)
Definition basename (p : string) : string :=
  drop (Z.to_nat (index_of (rfind sep p) + 1)) p.

(** One step of [os.path.join]. *)
Definition join2 (path b : string) : string :=
  if startswith "/" b then b
  else if is_empty path || endswith_char sep path then path ++ b
  else path ++ "/" ++ b.

(** [os.path.join(a, *p)] *)
Definition join (a : string) (p : list string) : string :=
  fold_left join2 p a.

(** [sep * n] *)
Fixpoint seps (n : nat) : string :=
  match n with
  | O => EmptyString
  | S n' => String sep (seps n')
  end.

(** [os.path.dirname(p)] *)
Definition dirname (p : string) : string :=
  let i := index_of (rfind sep p) + 1 in
  let head := take (Z.to_nat i) p in
  if negb (is_empty head) && negb (String.eqb head (seps (String.length head)))
  then rstrip_chars "/" head
  else head.

End PosixPath.

(* ================================================================== *)
(** ** Exceptions, JSON values and HTTP messages *)
(* ================================================================== *)

(** An exception: its class and [str(e)]. *)
Record exn : Type := Exn { exn_class : string; exn_msg : string }.

Inductive outcome (A : Type) : Type :=
| Return (a : A)
| Raise (e : exn).
Arguments Return {A} a.
Arguments Raise {A} e.

(** A parsed JSON value ([response.json()]); an object is the list of
    its members, each key once. *)
#[warnings="-register-all"]
Inductive json : Type :=
| JNull
| JBool (b : bool)
| JInt (n : Z)
| JStr (s : string)
| JArr (l : list json)
| JObj (members : list (string * json)).

Module Py.
Import PyStr.

Definition type_name (j : json) : string :=
  match j with
  | JNull => "NoneType"
  | JBool _ => "bool"
  | JInt _ => "int"
  | JStr _ => "str"
  | JArr _ => "list"
  | JObj _ => "dict"
  end.

Definition KeyError (key_repr : string) : exn := Exn "KeyError" key_repr.
Definition IndexError (what : string) : exn :=
  Exn "IndexError" (what ++ " index out of range").
Definition TypeError (msg : string) : exn := Exn "TypeError" msg.
Definition AttributeError (j : json) (attr : string) : exn :=
  Exn "AttributeError"
      ("'" ++ type_name j ++ "' object has no attribute '" ++ attr ++ "'").
Definition not_subscriptable (j : json) : exn :=
  TypeError ("'" ++ type_name j ++ "' object is not subscriptable").

Fixpoint assoc {V : Type} (k : string) (l : list (string * V)) : option V :=
  match l with
  | [] => None
  | (k', v) :: t => if String.eqb k k' then Some v else assoc k t
  end.

(** Truth value of a JSON value ([if x:], [not x]). *)
Definition truthy (j : json) : bool :=
  match j with
  | JNull => false
  | JBool b => b
  | JInt n => negb (n =? 0)
  | JStr s => negb (is_empty s)
  | JArr l => match l with [] => false | _ => true end
  | JObj m => match m with [] => false | _ => true end
  end.

(** [j[key]] with a string key. *)
Definition getitem (j : json) (key : string) : outcome json :=
  match j with
  | JObj m =>
      match assoc key m with
      | Some v => Return v
      | None => Raise (KeyError ("'" ++ key ++ "'"))
      end
  | JArr _ => Raise (TypeError "list indices must be integers or slices, not str")
  | JStr _ => Raise (TypeError "string indices must be integers, not 'str'")
  | _ => Raise (not_subscriptable j)
  end.

(** [j[0]] *)
Definition getitem0 (j : json) : outcome json :=
  match j with
  | JArr (x :: _) => Return x
  | JArr [] => Raise (IndexError "list")
  | JStr (String c _) => Return (JStr (String c EmptyString))
  | JStr EmptyString => Raise (IndexError "string")
  | JObj _ => Raise (KeyError "0")
  | _ => Raise (not_subscriptable j)
  end.

(** [j.get(key, default)] *)
Definition dict_get (j : json) (key : string) (default : json) : outcome json :=
  match j with
  | JObj m =>
      match assoc key m with
      | Some v => Return v
      | None => Return default
      end
  | _ => Raise (AttributeError j "get")
  end.

(** [j.strip()] *)
Definition str_strip (j : json) : outcome string :=
  match j with
  | JStr s => Return (strip s)
  | _ => Raise (AttributeError j "strip")
  end.

Fixpoint chars (s : string) : list json :=
  match s with
  | EmptyString => []
  | String c t => JStr (String c EmptyString) :: chars t
  end.

(** The items [for x in j] goes through. *)
Definition iterate (j : json) : outcome (list json) :=
  match j with
  | JArr l => Return l
  | JObj m => Return (map (fun kv => JStr (fst kv)) m)
  | JStr s => Return (chars s)
  | _ => Raise (TypeError ("'" ++ type_name j ++ "' object is not iterable"))
  end.

(** [l[i]] on a list, negative indices counting from the end. *)
Definition list_getitem {A : Type} (l : list A) (i : Z) : outcome A :=
  let n := Z.of_nat (length l) in
  let pos := if i <? 0 then i + n else i in
  if (0 <=? pos) && (pos <? n) then
    match nth_error l (Z.to_nat pos) with
    | Some a => Return a
    | None => Raise (IndexError "list")
    end
  else Raise (IndexError "list").

End Py.

Inductive Body : Type :=
| BodyJson (j : json)      (* [json=...] *)
| BodyData (d : string).   (* [data=...] *)

(** The arguments of one [requests.post]. *)
Record Request : Type := mkRequest {
  req_url : string;
  req_headers : list (string * string);
  req_params : list (string * string);
  req_body : Body;
  req_timeout : option Z
}.

(** A response that passed [raise_for_status()]: its headers and what
    [response.json()] gives or raises. *)
Record Response : Type := mkResponse {
  resp_headers : list (string * string);
  resp_json : outcome json
}.

(** [response.headers.get(name)]: header names compare without case. *)
Fixpoint headers_get (name : string) (h : list (string * string)) : option string :=
  match h with
  | [] => None
  | (k, v) :: t =>
      if String.eqb (PyStr.lower k) (PyStr.lower name) then Some v
      else headers_get name t
  end.

(* ================================================================== *)
(** ** Client object, program state and the monad of effects *)
(* ================================================================== *)

(** The attributes of a [GeminiClient] that are read after
    construction. *)
Record GeminiClient : Type := mkClient {
  api_keys : list string;
  current_key_index : Z;
  max_retries : Z;
  retry_delay_429 : Z;
  retry_delay_503 : Z;
  retry_delay_500 : Z
}.

Definition imagen_url : string :=
  "https://generativelanguage.googleapis.com/v1beta/models/imagen-3.0-generate-002:predict".
Definition text_url : string :=
  "https://generativelanguage.googleapis.com/v1beta/models/gemini-2.5-flash:generateContent".
Definition image_url : string :=
  "https://generativelanguage.googleapis.com/v1beta/models/gemini-2.0-flash:generateContent".
Definition upload_url : string :=
  "https://generativelanguage.googleapis.com/upload/v1beta/files".

(** What a run can observe and change:
    - [self]: the client object;
    - [http_log]: the requests posted so far, oldest first;
    - [sleep_log]: the durations slept so far, in milliseconds;
    - [files]: the regular files of the file system with their bytes,
      latest write first;
    - [dirs]: its directories with the size [stat] gives for them; a
      path is a regular file when [files] has it, else a directory when
      [dirs] has it, else it does not exist;
    - [calls]: the call counter of an instrumented request function
      (see [counted]); the client never touches it. *)
Record St : Type := mkSt {
  self : GeminiClient;
  http_log : list Request;
  sleep_log : list Z;
  files : list (string * string);
  dirs : list (string * Z);
  calls : nat
}.

Definition M (A : Type) : Type := St -> outcome A * St.

Definition ret {A} (a : A) : M A := fun st => (Return a, st).

Definition raise {A} (e : exn) : M A := fun st => (Raise e, st).

Definition bind {A B} (m : M A) (k : A -> M B) : M B :=
  fun st =>
    match m st with
    | (Return a, st') => k a st'
    | (Raise e, st') => (Raise e, st')
    end.

(** [try: m except Exception as e: h e] *)
Definition try_except {A} (m : M A) (h : exn -> M A) : M A :=
  fun st =>
    match m st with
    | (Return a, st') => (Return a, st')
    | (Raise e, st') => h e st'
    end.

(** A computation without effect that may raise. *)
Definition lift {A} (o : outcome A) : M A := fun st => (o, st).

Declare Scope py_scope.
Delimit Scope py_scope with py.
Notation "x <- c ;; k" := (bind c (fun x => k))
  (at level 61, c at next level, right associativity) : py_scope.
Notation "c ;; k" := (bind c (fun _ => k))
  (at level 61, right associativity) : py_scope.
Local Open Scope py_scope.

(** State updates. *)
Definition with_index (i : Z) (st : St) : St :=
  let c := self st in
  mkSt (mkClient (api_keys c) i (max_retries c) (retry_delay_429 c)
                 (retry_delay_503 c) (retry_delay_500 c))
       (http_log st) (sleep_log st) (files st) (dirs st) (calls st).

Definition with_sleep (ms : Z) (st : St) : St :=
  mkSt (self st) (http_log st) (sleep_log st ++ [ms]) (files st) (dirs st)
       (calls st).

Definition with_post (req : Request) (st : St) : St :=
  mkSt (self st) (http_log st ++ [req]) (sleep_log st) (files st) (dirs st)
       (calls st).

Definition with_file (path data : string) (st : St) : St :=
  mkSt (self st) (http_log st) (sleep_log st) ((path, data) :: files st)
       (dirs st) (calls st).

Definition get_self : M GeminiClient := fun st => (Return (self st), st).

Definition set_current_key_index (i : Z) : M unit :=
  fun st => (Return tt, with_index i st).

(** [time.sleep(ms / 1000)].  The quotient is a float: a quotient
    beyond the largest float makes the division raise [OverflowError].
    [time.sleep] converts the seconds to nanoseconds, which must fit a
    signed integer of 64 bits, or it raises [OverflowError] (the text of
    that message differs between versions of CPython); then it raises
    [ValueError] on a negative duration.  The float nearest to
    [ms / 1000], times [1e9], is within a few thousand nanoseconds of
    [ms * 10^6], and the multiples of [10^6] nearest to [2^63] are more
    than 200000 away from it, so the comparison is that of the
    integers. *)
Definition OverflowError (msg : string) : exn := Exn "OverflowError" msg.

Definition float_fits (ms : Z) : bool :=
  Z.abs ms <? 1000 * (2 ^ 1024 - 2 ^ 970).

Definition nanoseconds_fit (ms : Z) : bool :=
  (- 2 ^ 63 <=? ms * 1000000) && (ms * 1000000 <? 2 ^ 63).

Definition time_sleep_ms (ms : Z) : M unit :=
  fun st =>
    if negb (float_fits ms) then
      (Raise (OverflowError "integer division result too large for a float"), st)
    else if negb (nanoseconds_fit ms) then
      (Raise (OverflowError "timestamp too large to convert to C _PyTime_t"), st)
    else if ms <? 0 then
      (Raise (Exn "ValueError" "sleep length must be non-negative"), st)
    else (Return tt, with_sleep ms st).

(** [os.path.getsize(path)] and [open(path, 'rb').read()]: the size of
    a directory is that of its entry, and a directory cannot be
    opened. *)
Definition FileNotFoundError (path : string) : exn :=
  Exn "FileNotFoundError" ("[Errno 2] No such file or directory: '" ++ path ++ "'").

Definition IsADirectoryError (path : string) : exn :=
  Exn "IsADirectoryError" ("[Errno 21] Is a directory: '" ++ path ++ "'").

Definition os_path_getsize (path : string) : M Z :=
  fun st =>
    match Py.assoc path (files st) with
    | Some d => (Return (Z.of_nat (String.length d)), st)
    | None =>
        match Py.assoc path (dirs st) with
        | Some size => (Return size, st)
        | None => (Raise (FileNotFoundError path), st)
        end
    end.

Definition read_file (path : string) : M string :=
  fun st =>
    match Py.assoc path (files st) with
    | Some d => (Return d, st)
    | None =>
        match Py.assoc path (dirs st) with
        | Some _ => (Raise (IsADirectoryError path), st)
        | None => (Raise (FileNotFoundError path), st)
        end
    end.

(** [os.path.exists(path)] *)
Definition os_path_exists (path : string) : M bool :=
  fun st =>
    (Return (match Py.assoc path (files st), Py.assoc path (dirs st) with
             | None, None => false
             | _, _ => true
             end),
     st).

(** An instrumented request function: counts its invocations, as a mock
    with a call counter does. *)
Definition tick (st : St) : St :=
  mkSt (self st) (http_log st) (sleep_log st) (files st) (dirs st)
       (S (calls st)).

Definition counted {A} (f : M A) : M A := fun st => f (tick st).

(* ================================================================== *)
(** ** The methods of [GeminiClient] *)
(* ================================================================== *)

Definition obind {A B} (o : outcome A) (k : A -> outcome B) : outcome B :=
  match o with
  | Return a => k a
  | Raise e => Raise e
  end.

(** [GeminiClient.__init__], given the keys [_load_api_keys] found in
    the environment and the four integers read from it. *)
Definition __init__ (keys : list string) (mr d429 d503 d500 : Z)
  : outcome GeminiClient :=
  match keys with
  | [] => Raise (Exn "ValueError" "No Gemini API keys found in environment variables")
  | _ => Return (mkClient keys 0 mr d429 d503 d500)
  end.

(** [_get_mime_type] *)
Definition mime_types : list (string * string) :=
  [ (".jpg", "image/jpeg");
    (".jpeg", "image/jpeg");
    (".png", "image/png");
    (".gif", "image/gif");
    (".webp", "image/webp") ].

Definition _get_mime_type (image_path : string) : string :=
  let ext := PyStr.lower (snd (PosixPath.splitext image_path)) in
  match Py.assoc ext mime_types with
  | Some m => m
  | None => "image/jpeg"
  end.

(** [result['candidates'][0]['content']['parts'][0]['text'].strip()] *)
Definition first_candidate_text (result : json) : outcome string :=
  obind (Py.getitem result "candidates") (fun candidates =>
  obind (Py.getitem0 candidates) (fun candidate =>
  obind (Py.getitem candidate "content") (fun content =>
  obind (Py.getitem content "parts") (fun parts =>
  obind (Py.getitem0 parts) (fun part =>
  obind (Py.getitem part "text") (fun text =>
  Py.str_strip text)))))).

Definition text_request (key prompt : string) : Request :=
  mkRequest text_url
    [("Content-Type", "application/json")]
    [("key", key)]
    (BodyJson (JObj [("contents",
       JArr [JObj [("parts", JArr [JObj [("text", JStr prompt)]])]])]))
    (Some 30).

Definition image_request (key prompt : string) (sample_count : Z)
                         (aspect_ratio : string) : Request :=
  mkRequest imagen_url
    [("Content-Type", "application/json"); ("x-goog-api-key", key)]
    []
    (BodyJson (JObj
       [("instances", JArr [JObj [("prompt", JStr prompt)]]);
        ("parameters", JObj [("sampleCount", JInt sample_count);
                             ("aspectRatio", JStr aspect_ratio)])]))
    (Some 60).

Definition upload_start_request (key : string) (num_bytes : Z)
                                (mime_type display_name : string) : Request :=
  mkRequest upload_url
    [("x-goog-api-key", key);
     ("X-Goog-Upload-Protocol", "resumable");
     ("X-Goog-Upload-Command", "start");
     ("X-Goog-Upload-Header-Content-Length", PyStr.str_of_Z num_bytes);
     ("X-Goog-Upload-Header-Content-Type", mime_type);
     ("Content-Type", "application/json")]
    []
    (BodyJson (JObj [("file", JObj [("display_name", JStr display_name)])]))
    None.

Definition upload_transfer_request (target key : string) (num_bytes : Z)
                                   (file_data : string) : Request :=
  mkRequest target
    [("x-goog-api-key", key);
     ("Content-Length", PyStr.str_of_Z num_bytes);
     ("X-Goog-Upload-Offset", "0");
     ("X-Goog-Upload-Command", "upload, finalize")]
    []
    (BodyData file_data)
    None.

Definition analysis_request (key mime_type : string) (file_uri : json)
                            (prompt : string) : Request :=
  mkRequest image_url
    [("x-goog-api-key", key); ("Content-Type", "application/json")]
    []
    (BodyJson (JObj [("contents",
       JArr [JObj [("parts",
         JArr [JObj [("file_data",
                      JObj [("mime_type", JStr mime_type);
                            ("file_uri", file_uri)])];
               JObj [("text", JStr prompt)]])]])]))
    None.

(** The failures the client makes itself. *)
Definition ExhaustedRetries (limit : Z) : exn :=
  Exn "Exception" ("Failed after " ++ PyStr.str_of_Z limit ++ " retry attempts").

Definition UploadFailed : exn :=
  Exn "Exception" "Failed to upload image to Gemini".

(** What [generate_image] returns: one path when [sample_count == 1],
    the list of paths otherwise. *)
Inductive image_result : Type :=
| OnePath (p : string)
| Paths (l : list string).

Definition nl : string := String (ascii_of_nat 10) EmptyString.

Definition culture_prompt (culture : string) : string :=
  "For the " ++ PyStr.title culture ++ " culture, provide:" ++ nl ++
  "- 3 to 5 of the most iconic textile motifs or symbols (with names and meanings if possible)" ++ nl ++
  "- The traditional color palette (with color names or hex codes)" ++ nl ++
  "- The typical arrangement style of motifs (e.g., rows, bands, all-over, grid)" ++ nl ++
  "- Notable textile techniques or materials" ++ nl ++
  "- One or two 'do's and don'ts' for authentic design" ++ nl ++
  "Return your answer as a concise, richly descriptive paragraph.".

(* ================================================================== *)
(** ** The environment *)
(* ================================================================== *)

(** [os.getenv(name)], the environment being the list of its
    bindings. *)
Definition os_getenv (env : list (string * string)) (name : string)
  : option string :=
  Py.assoc name env.

(** The [while True] loop of [_load_api_keys] from the index [i] on,
    [keys] being the keys found so far.  The loop ends at the first
    index whose variable is missing or empty; [fuel] bounds its
    iterations, and [numbered_keys_scan] shows that one more than the
    number of bindings is enough. *)
Fixpoint load_numbered_keys (env : list (string * string)) (fuel : nat)
         (i : Z) (keys : list string) : list string :=
  match fuel with
  | O => keys
  | S fuel' =>
      match os_getenv env ("GEMINI_API_KEY_" ++ PyStr.str_of_Z i) with
      | Some (String c t) =>
          load_numbered_keys env fuel' (i + 1) (keys ++ [String c t])
      | _ => keys
      end
  end.

(** [_load_api_keys] *)
Definition _load_api_keys (env : list (string * string)) : list string :=
  match load_numbered_keys env (S (length env)) 1 [] with
  | [] =>
      match os_getenv env "GEMINI_API_KEY" with
      | Some (String c t) => [String c t]
      | _ => []
      end
  | keys => keys
  end.

(** A variable that [if not key] takes for missing: not set, or set to
    the empty string. *)
Definition unset (env : list (string * string)) (name : string) : Prop :=
  os_getenv env name = None \/ os_getenv env name = Some EmptyString.

(** The variable of the numbered credential [i]. *)
Definition key_variable (i : Z) : string :=
  "GEMINI_API_KEY_" ++ PyStr.str_of_Z i.

(** The variables numbered from [i] on hold the strings of [keys], none
    of them empty, and the next one is unset. *)
Fixpoint numbered_from (env : list (string * string)) (i : Z)
         (keys : list string) : Prop :=
  match keys with
  | [] => unset env (key_variable i)
  | k :: rest =>
      k <> EmptyString /\ os_getenv env (key_variable i) = Some k
      /\ numbered_from env (i + 1) rest
  end.

(** The variables numbered from [i] on hold the strings of [keys], none
    of them empty. *)
Fixpoint set_from (env : list (string * string)) (i : Z)
         (keys : list string) : Prop :=
  match keys with
  | [] => True
  | k :: rest =>
      k <> EmptyString /\ os_getenv env (key_variable i) = Some k
      /\ set_from env (i + 1) rest
  end.

(** What [_load_api_keys] falls back to: the single credential. *)
Definition single_key (env : list (string * string)) : list string :=
  match os_getenv env "GEMINI_API_KEY" with
  | Some (String c t) => [String c t]
  | _ => []
  end.

(* ================================================================== *)
(** ** The culture generator *)
(* ================================================================== *)

(** [ai_culture_generator.py].  [json.loads] is a parameter of the
    functions that call it: it returns a value or raises, with
    [JSONDecodeError] on a text that is no JSON document. *)

Definition dq : string := String (ascii_of_nat 34) EmptyString.

(** The suffix of [s] that starts at its first [c]. *)
Fixpoint from_first (c : ascii) (s : string) : option string :=
  match s with
  | EmptyString => None
  | String a t => if Ascii.eqb a c then Some s else from_first c t
  end.

(** The prefix of [s] that ends at its last [c]. *)
Fixpoint upto_last (c : ascii) (s : string) : option string :=
  match s with
  | EmptyString => None
  | String a t =>
      match upto_last c t with
      | Some r => Some (String a r)
      | None => if Ascii.eqb a c then Some (String a EmptyString) else None
      end
  end.

(** [re.search(o + '.*' + c, text, re.DOTALL)] for two distinct
    characters [o] and [c], and [match.group()] when there is a match:
    the search is leftmost and [.*] is greedy and, with [re.DOTALL],
    runs over line ends, so the match starts at the first [o] that has
    a [c] after it, which is the first [o] of the text, and ends at
    the last [c]. *)
Definition re_search_span (o c : ascii) (text : string) : option string :=
  match from_first o text with
  | Some (String a rest) =>
      match upto_last c rest with
      | Some r => Some (String a r)
      | None => None
      end
  | _ => None
  end.

(** [_extract_json_array]: [None] of Python is [None] here. *)
Definition _extract_json_array (json_loads : string -> outcome json)
           (text : string) : outcome (option json) :=
  match re_search_span "[" "]" text with
  | Some group =>
      match json_loads group with
      | Return v => Return (Some v)
      | Raise e =>
          if String.eqb (exn_class e) "JSONDecodeError" then Return None
          else Raise e
      end
  | None => Return None
  end.

Definition _get_fallback_fonts (culture : string) : json :=
  JArr [JStr "Nunito"; JStr "Open Sans"; JStr "Roboto"; JStr "Lato"].

(** The prompt of [generate_culture_fonts]. *)
Definition fonts_prompt (culture : string) : string :=
  nl ++
  "        Analyze this " ++ culture ++ " cultural design image and identify 4-6 appropriate fonts that would complement the visual style." ++ nl ++
  "        " ++ nl ++
  "        Consider:" ++ nl ++
  "        - The overall aesthetic and mood of the design" ++ nl ++
  "        - Cultural authenticity and respect" ++ nl ++
  "        - Readability and modern usability" ++ nl ++
  "        - Font availability on common platforms" ++ nl ++
  "        " ++ nl ++
  "        Return ONLY a JSON array of font names, like:" ++ nl ++
  "        [" ++ dq ++ "Font Name 1" ++ dq ++ ", " ++ dq ++ "Font Name 2" ++ dq ++ ", " ++ dq ++ "Font Name 3" ++ dq ++ "]" ++ nl ++
  "        " ++ nl ++
  "        Focus on fonts that would work well with this specific design style." ++ nl ++
  "        ".

(* ================================================================== *)
(** ** The colour palette *)
(* ================================================================== *)

(** [color_palette.py].  The palette of ColorThief is a parameter of
    [extract_palette]: a function of the bytes of the image and of the
    number of colours asked for, which returns a list of triples of
    integers or raises. *)

(** [format(n, 'x')] for an integer. *)
Definition hex_of_Z (n : Z) : string :=
  HexadecimalString.NilZero.string_of_int (Z.to_hex_int n).

(** ['%02x' % n]: the width counts the sign. *)
Definition percent_02x (n : Z) : string :=
  let s := hex_of_Z n in
  if (String.length s <? 2)%nat then "0" ++ s else s.

(** ["#%02x%02x%02x" % color] *)
Definition hex_color (color : Z * Z * Z) : string :=
  let '(r, g, b) := color in
  "#" ++ percent_02x r ++ percent_02x g ++ percent_02x b.

(** The lines of the items of a list under [json.dump(..., indent=2)],
    one level inside an object; the strings are those of [hex_color],
    which need no escape. *)
Fixpoint dump_items (items : list string) : string :=
  match items with
  | [] => EmptyString
  | [s] => "    " ++ dq ++ s ++ dq ++ nl
  | s :: rest => "    " ++ dq ++ s ++ dq ++ "," ++ nl ++ dump_items rest
  end.

(** [json.dump({"palette": hex_palette}, f, indent=2)] *)
Definition dump_palette (hex_palette : list string) : string :=
  "{" ++ nl ++ "  " ++ dq ++ "palette" ++ dq ++ ": " ++
  match hex_palette with
  | [] => "[]"
  | _ => "[" ++ nl ++ dump_items hex_palette ++ "  ]"
  end ++ nl ++ "}".

Definition ImageNotFound (image_path : string) : exn :=
  Exn "FileNotFoundError" ("Image not found: " ++ image_path).

(** [open(path, 'w')] and the write of [data]; [open_w] tells the
    error of the open, if any. *)
Definition write_text (open_w : string -> option exn) (path data : string)
  : M unit :=
  fun st =>
    match open_w path with
    | Some e => (Raise e, st)
    | None => (Return tt, with_file path data st)
    end.

Definition extract_palette
           (color_thief : string -> Z -> outcome (list (Z * Z * Z)))
           (open_w : string -> option exn)
           (image_path : string) (palette_size : Z) (output_name : option string)
  : M (list string * string) :=
  found <- os_path_exists image_path ;;
  if negb found then raise (ImageNotFound image_path)
  else
    image <- read_file image_path ;;
    palette <- lift (color_thief image palette_size) ;;
    let hex_palette := map hex_color palette in
    let assets_dir := PosixPath.dirname image_path in
    let output_name :=
      match output_name with
      | Some (String c t) => String c t
      | _ => fst (PosixPath.splitext (PosixPath.basename image_path))
             ++ "_palette.json"
      end in
    let output_path := PosixPath.join assets_dir [output_name] in
    write_text open_w output_path (dump_palette hex_palette) ;;
    ret (hex_palette, output_path).

(** Reading a colour back: [int(s[1:3], 16)] and so on. *)
Definition int_16 (s : string) : option Z :=
  option_map Z.of_hex_int (HexadecimalString.NilZero.int_of_string s).

Definition parse_hex_color (s : string) : option (Z * Z * Z) :=
  match s with
  | String "#" rest =>
      match int_16 (PyStr.take 2 rest),
            int_16 (PyStr.take 2 (PyStr.drop 2 rest)),
            int_16 (PyStr.drop 4 rest) with
      | Some r, Some g, Some b => Some (r, g, b)
      | _, _, _ => None
      end
  | _ => None
  end.

Definition channel (n : Z) : bool := (0 <=? n) && (n <? 256).

Definition rgb (color : Z * Z * Z) : bool :=
  let '(r, g, b) := color in channel r && channel g && channel b.

Definition hex_digit (c : ascii) : bool := PyStr.mem_char c "0123456789abcdef".

Fixpoint all_chars (p : ascii -> bool) (s : string) : bool :=
  match s with
  | EmptyString => true
  | String c t => p c && all_chars p t
  end.

(* ================================================================== *)
(** ** The export formats *)
(* ================================================================== *)

(** [export_formats.py].  What a value is in a [set]: two values are
    the same element when they are equal and have the same hash, so
    [True] is [1] and [False] is [0]; lists and dicts cannot be
    hashed. *)
Inductive hashed : Type :=
| HNone
| HNum (n : Z)
| HStr (s : string).

Definition hashed_eqb (a b : hashed) : bool :=
  match a, b with
  | HNone, HNone => true
  | HNum n, HNum m => n =? m
  | HStr s, HStr t => String.eqb s t
  | _, _ => false
  end.

Definition py_hash (j : json) : outcome hashed :=
  match j with
  | JNull => Return HNone
  | JBool b => Return (HNum (if b then 1 else 0))
  | JInt n => Return (HNum n)
  | JStr s => Return (HStr s)
  | _ => Raise (Py.TypeError ("unhashable type: '" ++ Py.type_name j ++ "'"))
  end.

(** The loop of [create_figma_plugin_data] and of
    [create_canva_template_data] over the colours collected from the
    palettes: [seen] is the set, [unique_colors] the list. *)
Fixpoint unique_loop (colors : list json) (seen : list hashed)
         (unique_colors : list json) : outcome (list json) :=
  match colors with
  | [] => Return unique_colors
  | color :: rest =>
      obind (py_hash color) (fun k =>
        if negb (existsb (hashed_eqb k) seen)
        then unique_loop rest (k :: seen) (unique_colors ++ [color])
        else unique_loop rest seen unique_colors)
  end.

(** [seen = set(); unique_colors = []] and the loop. *)
Definition unique_colors (colors : list json) : outcome (list json) :=
  unique_loop colors [] [].

(** [u] is [l] with some elements left out. *)
Inductive subsequence {A} : list A -> list A -> Prop :=
| sub_nil : subsequence [] []
| sub_keep a u l : subsequence u l -> subsequence (a :: u) (a :: l)
| sub_skip a u l : subsequence u l -> subsequence u (a :: l).

(* ================================================================== *)
(** ** Concrete worlds *)
(* ================================================================== *)

Module Scenarios.

(** A client with three credentials and the default retry policy, in
    a state where nothing happened yet and one image is on disk. *)
Definition client : GeminiClient :=
  mkClient ["AIza-first"; "AIza-second"; "AIza-third"] 0 3 2000 3000 2000.

Definition st0 : St :=
  mkSt client [] [] [("uploads/kente.PNG", "PNG-bytes")] [("uploads", 4096)] 0.



Definition http_503 : exn :=
  Exn "HTTPError" "503 Server Error: Service Unavailable for url: https://generativelanguage.googleapis.com/".


Definition foo : exn := Exn "Exception" "foo".

(** A transport that raises [e] on every post. *)
Definition always (e : exn) : nat -> Request -> exn + Response :=
  fun _ _ => inl e.


(** A transport that answers [r] to every post. *)
Definition answers (r : Response) : nat -> Request -> exn + Response :=
  fun _ _ => inr r.


Definition text_answer (text : string) : Response :=
  mkResponse []
    (Return (JObj [("candidates",
       JArr [JObj [("content",
         JObj [("parts", JArr [JObj [("text", JStr text)]])])]])])).

Definition with_image (b64 : string) : json :=
  JObj [("bytesBase64Encoded", JStr b64); ("mimeType", JStr "image/png")].

Definition filtered : json :=
  JObj [("raiFilteredReason", JStr "blocked by the safety filter")].

Definition image_answer (predictions : list json) : Response :=
  mkResponse [] (Return (JObj [("predictions", JArr predictions)])).

(** An upload-start response without the upload-target header. *)
Definition start_without_target : Response :=
  mkResponse [("Content-Type", "application/json")] (Return (JObj [])).

(** Stand-ins for the decoder, the file system and the clock. *)
Definition decode : string -> outcome string := fun s => Return s.
Definition writable : string -> option exn := fun _ => None.
Definition clock : Z := 1700000000.
Definition dir : string := "/srv/mvp_ai".


(** The endpoints of an upload: the start post is answered with the
    target of the transfer, the post to that target with [transfer],
    and any other post with [analysis]. *)
Definition upload_target : string := "https://upload.example/1".

Definition start_answer : Response :=
  mkResponse [("x-goog-upload-url", upload_target)] (Return JNull).

Definition file_answer : Response :=
  mkResponse [] (Return (JObj [("file", JObj [("uri", JStr "files/abc")])])).

Definition no_file_answer : Response := mkResponse [] (Return (JObj [])).

Definition by_url (transfer : Response) (analysis : exn + Response)
  : nat -> Request -> exn + Response :=
  fun _ req =>
    if String.eqb (req_url req) upload_url then inr start_answer
    else if String.eqb (req_url req) upload_target then inr transfer
    else analysis.

(** A stand-in for [json.loads] that knows one document. *)
Definition loads (s : string) : outcome json :=
  if String.eqb s "[1, 2]" then Return (JArr [JInt 1; JInt 2])
  else Raise (Exn "JSONDecodeError" "Expecting value: line 1 column 1 (char 0)").

End Scenarios.

Section Client.

(** The world outside the program:
    - [transport n req]: what the [n]-th [requests.post] of the run,
      followed by [raise_for_status()], does on [req];
    - [b64decode]: [base64.b64decode] on a string;
    - [open_wb path]: the error [open(path, "wb")] raises, if any;
    - [now]: [int(time.time())];
    - [module_dir]: [os.path.dirname(__file__)]. *)
Variable transport : nat -> Request -> exn + Response.
Variable b64decode : string -> outcome string.
Variable open_wb : string -> option exn.
Variable now : Z.
Variable module_dir : string.

Definition requests_post (req : Request) : M Response :=
  fun st =>
    match transport (length (http_log st)) req with
    | inl e => (Raise e, with_post req st)
    | inr r => (Return r, with_post req st)
    end.

Definition base64_b64decode (image_data : json) : outcome string :=
  match image_data with
  | JStr s => b64decode s
  | _ => Raise (Py.TypeError
           ("argument should be a bytes-like object or ASCII string, not '"
            ++ Py.type_name image_data ++ "'"))
  end.

(** [with open(path, "wb") as f: f.write(data)] *)
Definition write_file (path data : string) : M unit :=
  fun st =>
    match open_wb path with
    | Some e => (Raise e, st)
    | None => (Return tt, with_file path data st)
    end.

Definition _get_current_api_key : M string :=
  c <- get_self ;;
  lift (Py.list_getitem (api_keys c) (current_key_index c)).

Definition _switch_api_key : M unit :=
  c <- get_self ;;
  let n := Z.of_nat (length (api_keys c)) in
  if n =? 0 then raise (Exn "ZeroDivisionError" "integer modulo by zero")
  else set_current_key_index ((current_key_index c + 1) mod n).

Definition _handle_error (error : exn) (retry_count max_retries : Z) : M bool :=
  let error_msg := PyStr.lower (exn_msg error) in
  if retry_count >=? max_retries then ret false
  else if PyStr.contains "429" error_msg
          || PyStr.contains "too many requests" error_msg then
    _switch_api_key ;;
    c <- get_self ;;
    time_sleep_ms (retry_delay_429 c) ;;
    ret true
  else if PyStr.contains "503" error_msg
          || PyStr.contains "service unavailable" error_msg then
    c <- get_self ;;
    time_sleep_ms (retry_delay_503 c) ;;
    ret true
  else if PyStr.contains "500" error_msg
          || PyStr.contains "internal server error" error_msg then
    c <- get_self ;;
    time_sleep_ms (retry_delay_500 c) ;;
    ret true
  else if PyStr.contains "timeout" error_msg then
    time_sleep_ms 2000 ;;
    ret true
  else ret false.

(** The [for retry_count in range(...)] loop of
    [_make_request_with_retry] with [n] iterations left, and the
    [raise] that follows it. *)
Fixpoint retry_loop {A} (request_func : M A) (n : nat) (retry_count : Z) : M A :=
  match n with
  | O =>
      c <- get_self ;;
      raise (ExhaustedRetries (max_retries c))
  | S n' =>
      try_except request_func (fun e =>
        c <- get_self ;;
        again <- _handle_error e retry_count (max_retries c) ;;
        if negb again then raise e
        else retry_loop request_func n' (retry_count + 1))
  end.

Definition _make_request_with_retry {A} (request_func : M A) : M A :=
  c <- get_self ;;
  retry_loop request_func (Z.to_nat (max_retries c + 1)) 0.

Definition _generate_text_request (prompt : string) : M string :=
  key <- _get_current_api_key ;;
  response <- requests_post (text_request key prompt) ;;
  result <- lift (resp_json response) ;;
  lift (first_candidate_text result).

Definition generate_text (prompt : string) : M string :=
  _make_request_with_retry (_generate_text_request prompt).

(** The body of the loop over [enumerate(predictions)]: [idx] is the
    position of the head of [preds], [filename] and [image_paths] are
    the variables of that name. *)
Fixpoint save_images (sample_count : Z) (preds : list json) (idx : Z)
         (filename : option string) (image_paths : list string)
  : M (list string) :=
  match preds with
  | [] => ret image_paths
  | img_obj :: rest =>
      image_data <- lift (Py.dict_get img_obj "bytesBase64Encoded" JNull) ;;
      if Py.truthy image_data then
        image_bytes <- lift (base64_b64decode image_data) ;;
        let filename' :=
          match filename with
          | Some (String c t) => String c t
          | _ => "generated_image_" ++ PyStr.str_of_Z now ++ ".png"
          end in
        let out_name :=
          if sample_count =? 1 then filename'
          else PyStr.rstrip_chars ".png" filename'
               ++ "_" ++ PyStr.str_of_Z (idx + 1) ++ ".png" in
        let image_path := PosixPath.join module_dir ["assets"; out_name] in
        write_file image_path image_bytes ;;
        save_images sample_count rest (idx + 1) (Some filename')
                    (image_paths ++ [image_path])
      else save_images sample_count rest (idx + 1) filename image_paths
  end.

Definition _generate_image_request (prompt : string) (sample_count : Z)
           (filename : option string) (aspect_ratio : string)
  : M image_result :=
  key <- _get_current_api_key ;;
  response <- requests_post (image_request key prompt sample_count aspect_ratio) ;;
  result <- lift (resp_json response) ;;
  predictions <- lift (Py.dict_get result "predictions" (JArr [])) ;;
  items <- lift (Py.iterate predictions) ;;
  image_paths <- save_images sample_count items 0 filename [] ;;
  if sample_count =? 1 then
    p <- lift (Py.list_getitem image_paths 0) ;;
    ret (OnePath p)
  else ret (Paths image_paths).

Definition generate_image (prompt : string) (sample_count : Z)
           (filename : option string) (aspect_ratio : string)
  : M image_result :=
  _make_request_with_retry
    (_generate_image_request prompt sample_count filename aspect_ratio).

(** [_upload_image_to_gemini]: the file reference, or [JNull] for
    [None]. *)
Definition _upload_image_to_gemini (image_path : string) : M json :=
  try_except
    (let mime_type := _get_mime_type image_path in
     num_bytes <- os_path_getsize image_path ;;
     let display_name := PosixPath.basename image_path in
     key <- _get_current_api_key ;;
     response <- requests_post
                   (upload_start_request key num_bytes mime_type display_name) ;;
     match headers_get "X-Goog-Upload-URL" (resp_headers response) with
     | Some (String c t) =>
         let target := String c t in
         file_data <- read_file image_path ;;
         key' <- _get_current_api_key ;;
         upload_response <- requests_post
                   (upload_transfer_request target key' num_bytes file_data) ;;
         file_info <- lift (resp_json upload_response) ;;
         file <- lift (Py.dict_get file_info "file" (JObj [])) ;;
         lift (Py.dict_get file "uri" JNull)
     | _ => raise (Exn "Exception" "No upload URL received")
     end)
    (fun _ => ret JNull).

Definition _analyze_image_with_prompt_request (image_path prompt : string)
  : M string :=
  file_uri <- _upload_image_to_gemini image_path ;;
  if negb (Py.truthy file_uri) then raise UploadFailed
  else
    let mime_type := _get_mime_type image_path in
    key <- _get_current_api_key ;;
    response <- requests_post (analysis_request key mime_type file_uri prompt) ;;
    result <- lift (resp_json response) ;;
    lift (first_candidate_text result).

Definition analyze_image_with_prompt (image_path prompt : string) : M string :=
  _make_request_with_retry
    (_analyze_image_with_prompt_request image_path prompt).

Definition generate_culture_details (culture : string) : M string :=
  let prompt := culture_prompt culture in
  try_except
    (details <- generate_text prompt ;;
     ret (if PyStr.is_empty details then EmptyString else PyStr.strip details))
    (fun _ => ret EmptyString).


(* ---------------------------------------------------------------- *)
(** *** Vocabulary of the properties *)
(* ---------------------------------------------------------------- *)

(** The classes of the retry table, in its order of precedence, as a
    function of the message of the error. *)
Inductive error_class : Type :=
| RateLimit | ServiceUnavailable | InternalError | TimedOut | Unclassified.

Definition has_signal (a b msg : string) : bool :=
  PyStr.contains a (PyStr.lower msg) || PyStr.contains b (PyStr.lower msg).

Definition classify (msg : string) : error_class :=
  if has_signal "429" "too many requests" msg then RateLimit
  else if has_signal "503" "service unavailable" msg then ServiceUnavailable
  else if has_signal "500" "internal server error" msg then InternalError
  else if PyStr.contains "timeout" (PyStr.lower msg) then TimedOut
  else Unclassified.

(** The credential pool is not empty and the current index is a
    position of it. *)
Definition valid_index (c : GeminiClient) : Prop :=
  0 <= current_key_index c < Z.of_nat (length (api_keys c)).

Definition wf_client (c : GeminiClient) : Prop :=
  api_keys c <> [] /\ valid_index c.

(** A duration [time.sleep] accepts: not negative, and its nanoseconds
    fit 63 bits (at most 9223372036854 ms, some 292 years). *)
Definition sleepable (ms : Z) : Prop := 0 <= ms /\ ms * 1000000 < 2 ^ 63.

(** [rotate(i) = (i + 1) mod size] *)
Definition rotate (size i : Z) : Z := (i + 1) mod size.

(** The client after [c] in which nothing but the current index may
    differ, and the index is a position of the pool if it was. *)
Definition same_pool (c c' : GeminiClient) : Prop :=
  api_keys c' = api_keys c
  /\ max_retries c' = max_retries c
  /\ retry_delay_429 c' = retry_delay_429 c
  /\ retry_delay_503 c' = retry_delay_503 c
  /\ retry_delay_500 c' = retry_delay_500 c
  /\ (valid_index c -> valid_index c').

(** [m] relates every state to the state it leaves. *)
Definition preserves (R : St -> St -> Prop) {A} (m : M A) : Prop :=
  forall st, R st (snd (m st)).

Definition pool_step (st st' : St) : Prop := same_pool (self st) (self st').

Definition keeps_pool {A} (m : M A) : Prop := preserves pool_step m.

(** A request function that leaves the client, the sleep log and the
    call counter as they are. *)
Definition quiet_step (st st' : St) : Prop :=
  self st' = self st
  /\ sleep_log st' = sleep_log st
  /\ calls st' = calls st.

Definition quiet {A} (f : M A) : Prop := preserves quiet_step f.

(** The message of an error carries one of the signals of the retry
    table. *)
Definition recognized (msg : string) : bool :=
  has_signal "429" "too many requests" msg
  || has_signal "503" "service unavailable" msg
  || has_signal "500" "internal server error" msg
  || PyStr.contains "timeout" (PyStr.lower msg).

(** The table of the specification: extension, in lower case and
    with its dot, to MIME type. *)
Definition mime_of_extension (ext : string) : string :=
  if String.eqb ext ".jpg" then "image/jpeg"
  else if String.eqb ext ".jpeg" then "image/jpeg"
  else if String.eqb ext ".png" then "image/png"
  else if String.eqb ext ".gif" then "image/gif"
  else if String.eqb ext ".webp" then "image/webp"
  else "image/jpeg".

(** A prediction of an image response without a usable payload. *)
Definition no_payload (img_obj : json) : bool :=
  match Py.dict_get img_obj "bytesBase64Encoded" JNull with
  | Return d => negb (Py.truthy d)
  | Raise _ => false
  end.

(** A prediction whose payload is a string that decodes. *)
Definition has_payload (img_obj : json) : bool :=
  match Py.dict_get img_obj "bytesBase64Encoded" JNull with
  | Return (JStr (String c t)) =>
      match b64decode (String c t) with
      | Return _ => true
      | Raise _ => false
      end
  | _ => false
  end.

(** The path of the image saved under the name [out_name]. *)
Definition asset_path (out_name : string) : string :=
  PosixPath.join module_dir ["assets"; out_name].

(** The paths the specification names for a request of several
    images: one per prediction with a payload, in the order of the
    response, the name being [base], [_], the position of the
    prediction counted from 1, and [.png]. *)
Fixpoint indexed_paths (base : string) (preds : list json) (idx : Z)
  : list string :=
  match preds with
  | [] => []
  | img_obj :: rest =>
      if has_payload img_obj then
        asset_path (base ++ "_" ++ PyStr.str_of_Z (idx + 1) ++ ".png")
        :: indexed_paths base rest (idx + 1)
      else indexed_paths base rest (idx + 1)
  end.

(** The upload-start request for the file [path] of content [data],
    and the transfer request that follows it. *)
Definition start_request_of (path key data : string) : Request :=
  upload_start_request key (Z.of_nat (String.length data))
                       (_get_mime_type path) (PosixPath.basename path).

Definition transfer_request_of (target key data : string) : Request :=
  upload_transfer_request target key (Z.of_nat (String.length data)) data.

(** The next post, the image request made with [key], is answered by
    a response whose predictions are [items]. *)
Definition answers_with_predictions (st : St) (key prompt : string)
           (sample_count : Z) (aspect_ratio : string) (items : list json) : Prop :=
  exists resp result predictions,
    transport (length (http_log st))
              (image_request key prompt sample_count aspect_ratio) = inr resp
    /\ resp_json resp = Return result
    /\ Py.dict_get result "predictions" (JArr []) = Return predictions
    /\ Py.iterate predictions = Return items.

(** A prediction the loop of [_generate_image_request] goes through
    without raising. *)
Definition usable (img_obj : json) : bool :=
  has_payload img_obj || no_payload img_obj.


(** [s] is empty or starts with a character outside [p]. *)
Definition clean_start (p : ascii -> bool) (s : string) : Prop :=
  match s with
  | EmptyString => True
  | String c _ => p c = false
  end.

(** [base] is empty or ends with a character that
    [rstrip('.png')] keeps. *)
Definition keeps_end (base : string) : Prop :=
  match PyStr.last_char base with
  | Some c => PyStr.mem_char c ".png" = false
  | None => True
  end.

(** [s] has no white space at either end. *)
Definition trimmed (s : string) : Prop :=
  clean_start PyStr.is_space s
  /\ match PyStr.last_char s with
     | Some c => PyStr.is_space c = false
     | None => True
     end.

(** [text] is [raw] without the white space at its two ends. *)
Definition trims_to (raw text : string) : Prop :=
  exists l r,
    raw = l ++ text ++ r
    /\ all_chars PyStr.is_space l = true
    /\ all_chars PyStr.is_space r = true
    /\ trimmed text.

(** [result['candidates'][0]['content']['parts'][0]['text']], before
    it is trimmed. *)
Definition candidate_text (result : json) : outcome json :=
  obind (Py.getitem result "candidates") (fun candidates =>
  obind (Py.getitem0 candidates) (fun candidate =>
  obind (Py.getitem candidate "content") (fun content =>
  obind (Py.getitem content "parts") (fun parts =>
  obind (Py.getitem0 parts) (fun part =>
  Py.getitem part "text"))))).

(* ---------------------------------------------------------------- *)
(** *** Vocabulary of the further properties *)
(* ---------------------------------------------------------------- *)

(** A duration the retry policy of [c] allows for a sleep. *)
Definition policy_delay (c : GeminiClient) (d : Z) : Prop :=
  d = retry_delay_429 c \/ d = retry_delay_503 c
  \/ d = retry_delay_500 c \/ d = 2000.







(** The file reference [_upload_image_to_gemini] reads off the
    response to the transfer post; [JNull] when there is none. *)
Definition file_uri_of (upload_response : Response) : json :=
  match resp_json upload_response with
  | Return file_info =>
      match Py.dict_get file_info "file" (JObj []) with
      | Return file =>
          match Py.dict_get file "uri" JNull with
          | Return uri => uri
          | Raise _ => JNull
          end
      | Raise _ => JNull
      end
  | Raise _ => JNull
  end.

(** [int(os.getenv(name, default))] with an integer default, [py_int]
    being [int] on a string. *)
Definition getenv_int (py_int : string -> outcome Z)
           (env : list (string * string)) (name : string)
           (default : Z) : outcome Z :=
  match os_getenv env name with
  | Some s => py_int s
  | None => Return default
  end.

(** [GeminiClient()] in the environment [env]: the keys are loaded,
    the four integers are read, then the pool is checked. *)
Definition gemini_client (py_int : string -> outcome Z)
           (env : list (string * string)) : outcome GeminiClient :=
  let keys := _load_api_keys env in
  obind (getenv_int py_int env "MAX_RETRIES" 3) (fun mr =>
  obind (getenv_int py_int env "RETRY_DELAY_429" 2000) (fun d429 =>
  obind (getenv_int py_int env "RETRY_DELAY_503" 3000) (fun d503 =>
  obind (getenv_int py_int env "RETRY_DELAY_500" 2000) (fun d500 =>
  __init__ keys mr d429 d503 d500)))).

(** *** Callers of the client *)

(** The prompt of [generate_pattern_image]. *)
Definition pattern_prompt (culture details : string) : string :=
  "Generate a seamless " ++ PyStr.title culture ++ " textile pattern. "
  ++ "Include the most iconic motifs, symbols, and artistic elements associated with "
  ++ PyStr.title culture ++ " culture. " ++ details ++ " "
  ++ "Use a color palette that is traditional for this culture. "
  ++ "Arrange motifs in a style typical of this culture's textiles (e.g., rows, bands, grids, or all-over). "
  ++ "Reference traditional techniques (e.g., weaving, resist-dyeing, embroidery) if relevant. "
  ++ "The design must fill the entire square canvas, with no borders, white space, or empty areas at the edges. "
  ++ "Do not include any text, watermarks, signatures, or logos. "
  ++ "The pattern should be highly detailed, vibrant, and culturally authentic, with consistent spacing and no blank or plain areas. "
  ++ "Avoid modern or anachronistic elements; reference real artifacts or museum pieces where possible. "
  ++ "The style should be professional, visually balanced, museum-quality, and suitable for use in high-end design applications. "
  ++ "Create the pattern as if by a professional textile designer.".

(** The name [generate_pattern_image] saves under: the one given, or
    the default when none or an empty one is given. *)
Definition pattern_filename (culture : string) (filename : option string) : string :=
  match filename with
  | Some (String c t) => String c t
  | _ => PyStr.title culture ++ "_pattern_imagen4.png"
  end.

(** The end of [generate_pattern_image], once the details are known:
    [None] when the generation raises. *)
Definition pattern_image_of (culture details : string) (filename : option string)
           (sample_count : Z) (aspect_ratio : string)
  : M (option image_result) :=
  try_except
    (result <- generate_image (pattern_prompt culture details) sample_count
                              (Some (pattern_filename culture filename))
                              aspect_ratio ;;
     ret (Some result))
    (fun _ => ret None).

(** [generate_pattern_image] of [imagegen_gemini.py].  The dictionary
    [_dynamic_culture_details_cache] kept on the function object is
    passed in as [cache], latest entry first, and returned with the
    result. *)
Definition generate_pattern_image (cache : list (string * string))
           (culture : string) (filename : option string)
           (sample_count : Z) (aspect_ratio : string)
  : M (option image_result * list (string * string)) :=
  let culture_key := PyStr.lower culture in
  found <- match Py.assoc culture_key cache with
           | Some details => ret (details, cache)
           | None =>
               details <- generate_culture_details culture ;;
               ret (details, (culture_key, details) :: cache)
           end ;;
  result <- pattern_image_of culture (fst found) filename sample_count aspect_ratio ;;
  ret (result, snd found).

(** [generate_cultural_note] of [gemini_notes.py]. *)
Definition note_prompt (culture : string) : string :=
  "Provide a short, respectful cultural note (2-3 sentences) about the "
  ++ PyStr.title culture
  ++ " culture, focusing on its visual art, patterns, or symbolism. The note should be suitable for designers using generated assets.".

Definition generate_cultural_note (culture : string) : M string :=
  try_except
    (generate_text (note_prompt culture))
    (fun e =>
       ret ("[Gemini API error: " ++ exn_msg e ++ "] Placeholder note for "
            ++ PyStr.title culture ++ ".")).

(** The posts made from [st] to [st'] all satisfy [P]. *)
Definition posts_only (P : Request -> Prop) (st st' : St) : Prop :=
  exists l, http_log st' = (http_log st ++ l)%list /\ Forall P l.

Definition to_imagen (req : Request) : Prop := req_url req = imagen_url.

(** [generate_culture_fonts] of [AICultureGenerator], whose
    [gemini_client] is the client of the state. *)
Definition generate_culture_fonts (json_loads : string -> outcome json)
           (culture image_path : string) : M json :=
  let prompt := fonts_prompt culture in
  try_except
    (response <- analyze_image_with_prompt image_path prompt ;;
     if negb (PyStr.is_empty response) then
       fonts <- lift (_extract_json_array json_loads response) ;;
       ret (match fonts with
            | Some v => if Py.truthy v then v else _get_fallback_fonts culture
            | None => _get_fallback_fonts culture
            end)
     else ret (_get_fallback_fonts culture))
    (fun _ => ret (_get_fallback_fonts culture)).

(** [get_culture_specific_fonts] of [export_formats.py]. *)
Definition get_culture_specific_fonts (json_loads : string -> outcome json)
           (culture : string) (image_path : option string) : M json :=
  try_except
    (match image_path with
     | Some (String c t) =>
         found <- os_path_exists (String c t) ;;
         if found then generate_culture_fonts json_loads culture (String c t)
         else ret (JArr [JStr "Nunito"; JStr "Open Sans"; JStr "Roboto"; JStr "Lato"])
     | _ => ret (JArr [JStr "Nunito"; JStr "Open Sans"; JStr "Roboto"; JStr "Lato"])
     end)
    (fun _ => ret (JArr [JStr "Nunito"; JStr "Open Sans"; JStr "Roboto"; JStr "Lato"])).


(** [path] names nothing: neither a regular file nor a directory. *)
Definition missing (st : St) (path : string) : Prop :=
  Py.assoc path (files st) = None /\ Py.assoc path (dirs st) = None.

(** A separator, as [rstrip(sep)] tests it. *)
Definition is_sep (c : ascii) : bool := PyStr.mem_char c "/".

(** The directory that [dirname] returns is made of separators only
    (or empty), or does not end with one. *)
Definition closed_dir (d : string) : Prop :=
  all_chars is_sep d = true
  \/ all_chars is_sep d = false /\ PyStr.endswith_char PosixPath.sep d = false.

(** The name of the palette file when none is given. *)
Definition palette_name (image_path : string) : string :=
  fst (PosixPath.splitext (PosixPath.basename image_path)) ++ "_palette.json".

(* ================================================================ *)
(** ** Properties *)
(* ================================================================ *)

(** *** Strings and paths *)

Lemma append_assoc (s t u : string) : (s ++ t) ++ u = s ++ (t ++ u).
Proof. induction s as [|a s IH]; simpl; [reflexivity | now rewrite IH]. Qed.

Lemma append_nil_r (s : string) : s ++ "" = s.
Proof. induction s as [|a s IH]; simpl; [reflexivity | now rewrite IH]. Qed.

Lemma length_append (s t : string) :
  String.length (s ++ t) = (String.length s + String.length t)%nat.
Proof. induction s as [|a s IH]; simpl; [reflexivity | now rewrite IH]. Qed.

Lemma rfind_lt c s i : PyStr.rfind c s = Some i -> (i < String.length s)%nat.
Proof.
  revert i; induction s as [|a t IH]; intros i H; simpl in *.
  - discriminate.
  - destruct (PyStr.rfind c t) as [j|].
    + inversion H; subst. specialize (IH j eq_refl). lia.
    + destruct (Ascii.eqb a c); inversion H; lia.
Qed.

Lemma rfind_app_none c s t :
  PyStr.rfind c t = None -> PyStr.rfind c (s ++ t) = PyStr.rfind c s.
Proof.
  intros Ht; induction s as [|a s IH]; simpl.
  - exact Ht.
  - rewrite IH. reflexivity.
Qed.

Lemma rfind_app_some c s t i :
  PyStr.rfind c t = Some i ->
  PyStr.rfind c (s ++ t) = Some (String.length s + i)%nat.
Proof.
  intros Ht; induction s as [|a s IH]; simpl.
  - exact Ht.
  - rewrite IH. reflexivity.
Qed.

Lemma take_app s t : PyStr.take (String.length s) (s ++ t) = s.
Proof. induction s as [|a s IH]; simpl; [destruct t; reflexivity | now rewrite IH]. Qed.

Lemma drop_app s t : PyStr.drop (String.length s) (s ++ t) = t.
Proof. induction s as [|a s IH]; simpl; [reflexivity | exact IH]. Qed.

Lemma get_app_here s c t : String.get (String.length s) (s ++ String c t) = Some c.
Proof. induction s as [|a s IH]; simpl; [reflexivity | exact IH]. Qed.

Lemma name_before_dot_found p j c :
  String.get j p = Some c -> Ascii.eqb c PosixPath.extsep = false ->
  forall n i, (i <= j < i + n)%nat -> PosixPath.name_before_dot p i n = true.
Proof.
  intros Hj Hc; induction n as [|n IH]; intros i Hi; simpl.
  - lia.
  - destruct (String.get i p) as [d|] eqn:Hd; [|reflexivity].
    destruct (Ascii.eqb d PosixPath.extsep) eqn:Hdot; [|reflexivity].
    apply IH. assert (i <> j) by (intros ->; congruence). lia.
Qed.

(** [splitext] on a path whose last component has a character other
    than a dot before its last dot. *)
Lemma splitext_stem_ext dir c name e :
  Ascii.eqb c PosixPath.extsep = false ->
  Ascii.eqb c PosixPath.sep = false ->
  PyStr.rfind PosixPath.sep name = None ->
  PyStr.rfind PosixPath.sep e = None ->
  PyStr.rfind PosixPath.extsep e = None ->
  PosixPath.splitext (dir ++ String c name ++ String "." e)
  = (dir ++ String c name, String "." e).
Proof.
  intros Hc1 Hc2 Hname He1 He2.
  set (stem := dir ++ String c name).
  assert (Hp : dir ++ String c name ++ String "." e = stem ++ String "." e).
  { unfold stem. rewrite append_assoc. reflexivity. }
  rewrite Hp.
  assert (Hdot : PyStr.rfind PosixPath.extsep (stem ++ String "." e)
                 = Some (String.length stem)).
  { rewrite (rfind_app_some _ _ _ 0%nat).
    - f_equal; lia.
    - simpl. rewrite He2. reflexivity. }
  assert (Hsep : PyStr.rfind PosixPath.sep (stem ++ String "." e)
                 = PyStr.rfind PosixPath.sep dir).
  { rewrite rfind_app_none by (simpl; rewrite He1; reflexivity).
    unfold stem. apply rfind_app_none.
    simpl. rewrite Hname, Hc2. reflexivity. }
  assert (Hlen : String.length stem = (String.length dir + S (String.length name))%nat).
  { unfold stem. rewrite length_append. reflexivity. }
  unfold PosixPath.splitext. rewrite Hdot, Hsep.
  assert (Hlt : PyStr.index_of (PyStr.rfind PosixPath.sep dir)
                < Z.of_nat (String.length dir)).
  { destruct (PyStr.rfind PosixPath.sep dir) as [i|] eqn:Hr; simpl.
    - apply rfind_lt in Hr. lia.
    - lia. }
  assert (-1 <= PyStr.index_of (PyStr.rfind PosixPath.sep dir)).
  { destruct (PyStr.rfind PosixPath.sep dir); simpl; lia. }
  cbn [PyStr.index_of].
  replace (Z.of_nat (String.length stem) >? PyStr.index_of (PyStr.rfind PosixPath.sep dir))
    with true by (symmetry; apply Z.gtb_lt; lia).
  rewrite (name_before_dot_found _ (String.length dir) c).
  - simpl. rewrite Nat2Z.id, take_app, drop_app. reflexivity.
  - rewrite <- Hp. apply get_app_here.
  - exact Hc1.
  - lia.
Qed.

Lemma lower_char_keeps (c a : ascii) :
  PyStr.is_upper c = false -> PyStr.is_lower c = false ->
  Ascii.eqb (PyStr.lower_char a) c = Ascii.eqb a c.
Proof.
  intros Hu Hl.
  destruct (Ascii.eqb a c) eqn:E.
  - apply Ascii.eqb_eq in E; subst a. unfold PyStr.lower_char. rewrite Hu.
    apply Ascii.eqb_refl.
  - unfold PyStr.lower_char. destruct (PyStr.is_upper a) eqn:Ua; [|exact E].
    apply Ascii.eqb_neq. intros <-.
    revert Ua Hl. clear.
    destruct a as [[] [] [] [] [] [] [] []]; vm_compute; congruence.
Qed.

Lemma rfind_lower c s :
  PyStr.is_upper c = false -> PyStr.is_lower c = false ->
  PyStr.rfind c (PyStr.lower s) = PyStr.rfind c s.
Proof.
  intros Hu Hl; induction s as [|a s IH]; simpl; [reflexivity|].
  rewrite IH, lower_char_keeps by assumption. reflexivity.
Qed.


Lemma mime_table_lookup ext :
  match Py.assoc ext mime_types with
  | Some m => m
  | None => "image/jpeg"
  end = mime_of_extension ext.
Proof.
  unfold mime_of_extension, mime_types; simpl.
  repeat (destruct (String.eqb ext _); [reflexivity|]). reflexivity.
Qed.

Lemma no_sep_in_lower e s :
  PyStr.lower e = s ->
  PyStr.rfind PosixPath.sep s = None -> PyStr.rfind PosixPath.extsep s = None ->
  PyStr.rfind PosixPath.sep e = None /\ PyStr.rfind PosixPath.extsep e = None.
Proof.
  intros <- H1 H2. rewrite rfind_lower in H1, H2 by reflexivity. now split.
Qed.

(** C8. The MIME type of a path is the entry of the fixed table for
    its extension ([os.path.splitext]) in lower case, [image/jpeg]
    when the table has none.  For a path [stem.ext] whose file name
    has a character other than a dot before the last dot, the
    extension is [.ext]; so [.png] written in any case gives
    [image/png], and [.bmp] gives the default [image/jpeg]. *)
Theorem mime_type_by_extension :
  (forall path,
      _get_mime_type path
      = mime_of_extension (PyStr.lower (snd (PosixPath.splitext path))))
  /\ (forall dir c name e,
        Ascii.eqb c PosixPath.extsep = false ->
        Ascii.eqb c PosixPath.sep = false ->
        PyStr.rfind PosixPath.sep name = None ->
        PyStr.rfind PosixPath.sep e = None ->
        PyStr.rfind PosixPath.extsep e = None ->
        let path := dir ++ String c name ++ String "." e in
        snd (PosixPath.splitext path) = String "." e
        /\ _get_mime_type path = mime_of_extension (String "." (PyStr.lower e))
        /\ (PyStr.lower e = "png" -> _get_mime_type path = "image/png")
        /\ (PyStr.lower e = "jpg" \/ PyStr.lower e = "jpeg" ->
            _get_mime_type path = "image/jpeg")
        /\ (PyStr.lower e = "gif" -> _get_mime_type path = "image/gif")
        /\ (PyStr.lower e = "webp" -> _get_mime_type path = "image/webp")
        /\ (PyStr.lower e <> "png" -> PyStr.lower e <> "gif" ->
            PyStr.lower e <> "webp" -> _get_mime_type path = "image/jpeg")).
Proof.
  assert (A : forall path,
             _get_mime_type path
             = mime_of_extension (PyStr.lower (snd (PosixPath.splitext path)))).
  { intros path. unfold _get_mime_type. apply mime_table_lookup. }
  split; [exact A|].
  intros dir c name e Hc1 Hc2 Hn He1 He2 path.
  assert (S : PosixPath.splitext path = (dir ++ String c name, String "." e))
    by (apply splitext_stem_ext; assumption).
  assert (B : _get_mime_type path = mime_of_extension (String "." (PyStr.lower e))).
  { rewrite A, S. reflexivity. }
  split; [rewrite S; reflexivity|].
  split; [exact B|].
  rewrite B.
  repeat split.
  - intros ->. reflexivity.
  - intros [-> | ->]; reflexivity.
  - intros ->. reflexivity.
  - intros ->. reflexivity.
  - intros N1 N2 N3. unfold mime_of_extension.
    repeat match goal with
           | |- context [String.eqb ?a ?b] =>
               let E := fresh "E" in
               destruct (String.eqb a b) eqn:E;
               [apply String.eqb_eq in E; inversion E; try congruence; try reflexivity|]
           end; reflexivity.
Qed.




(** *** The error classifier *)


Lemma handle_error_unclassified e rc mx st :
  classify (exn_msg e) = Unclassified ->
  _handle_error e rc mx st = (Return false, st).
Proof.
  unfold classify, has_signal, _handle_error. intros H.
  destruct (rc >=? mx); [reflexivity|].
  destruct (_ || _); [discriminate|].
  destruct (_ || _); [discriminate|].
  destruct (_ || _); [discriminate|].
  destruct (PyStr.contains "timeout" _); [discriminate|].
  reflexivity.
Qed.

Lemma switch_api_key_run st :
  api_keys (self st) <> [] ->
  _switch_api_key st
  = (Return tt,
     with_index (rotate (Z.of_nat (length (api_keys (self st))))
                        (current_key_index (self st))) st).
Proof.
  intros H. unfold _switch_api_key, bind, get_self.
  destruct (api_keys (self st)) as [|k ks] eqn:E; [congruence|].
  replace (Z.of_nat (length (k :: ks)) =? 0) with false
    by (symmetry; apply Z.eqb_neq; simpl length; lia).
  reflexivity.
Qed.


Lemma sleepable_2000 : sleepable 2000.
Proof. split; [lia | vm_compute; reflexivity]. Qed.


(** *** The retry loop *)

Lemma retry_loop_return {A} (f : M A) n rc st a st1 :
  f st = (Return a, st1) -> retry_loop f (S n) rc st = (Return a, st1).
Proof. intros H. simpl. unfold try_except. rewrite H. reflexivity. Qed.

Lemma retry_loop_raise {A} (f : M A) n rc st e st1 :
  f st = (Raise e, st1) ->
  retry_loop f (S n) rc st
  = match _handle_error e rc (max_retries (self st1)) st1 with
    | (Return true, st2) => retry_loop f n (rc + 1) st2
    | (Return false, st2) => (Raise e, st2)
    | (Raise e', st2) => (Raise e', st2)
    end.
Proof.
  intros H. simpl. unfold try_except. rewrite H.
  unfold bind at 1. unfold get_self. unfold bind.
  destruct (_handle_error e rc (max_retries (self st1)) st1) as [[[|]|e'] st2];
    reflexivity.
Qed.

Lemma make_request_unfold {A} (f : M A) st :
  0 <= max_retries (self st) ->
  _make_request_with_retry f st
  = retry_loop f (S (Z.to_nat (max_retries (self st)))) 0 st.
Proof.
  intros H. unfold _make_request_with_retry, bind, get_self.
  replace (Z.to_nat (max_retries (self st) + 1))
    with (S (Z.to_nat (max_retries (self st)))) by lia.
  reflexivity.
Qed.


(** *** What the request functions leave untouched *)

Section Preservation.

Variable R : St -> St -> Prop.
Hypothesis R_refl : forall st, R st st.
Hypothesis R_trans : forall a b c, R a b -> R b c -> R a c.
Hypothesis R_post : forall st req, R st (with_post req st).
Hypothesis R_file : forall st path data, R st (with_file path data st).

Lemma preserves_ret {A} (a : A) : preserves R (ret a).
Proof. intros st. apply R_refl. Qed.

Lemma preserves_raise {A} e : preserves R (@raise A e).
Proof. intros st. apply R_refl. Qed.

Lemma preserves_lift {A} (o : outcome A) : preserves R (lift o).
Proof. intros st. apply R_refl. Qed.

Lemma preserves_get_self : preserves R get_self.
Proof. intros st. apply R_refl. Qed.

Lemma preserves_bind {A B} (m : M A) (k : A -> M B) :
  preserves R m -> (forall a, preserves R (k a)) -> preserves R (bind m k).
Proof.
  intros Hm Hk st. unfold bind. specialize (Hm st).
  destruct (m st) as [[a|e] st1]; simpl in *.
  - eapply R_trans; [exact Hm | apply Hk].
  - exact Hm.
Qed.

Lemma preserves_try {A} (m : M A) (h : exn -> M A) :
  preserves R m -> (forall e, preserves R (h e)) -> preserves R (try_except m h).
Proof.
  intros Hm Hh st. unfold try_except. specialize (Hm st).
  destruct (m st) as [[a|e] st1]; simpl in *.
  - exact Hm.
  - eapply R_trans; [exact Hm | apply Hh].
Qed.

Lemma preserves_post req : preserves R (requests_post req).
Proof.
  intros st. unfold requests_post.
  destruct (transport _ _); apply R_post.
Qed.

Lemma preserves_write path data : preserves R (write_file path data).
Proof.
  intros st. unfold write_file.
  destruct (open_wb path); [apply R_refl | apply R_file].
Qed.

Lemma preserves_getsize path : preserves R (os_path_getsize path).
Proof.
  intros st. unfold os_path_getsize.
  destruct (Py.assoc path (files st));
    [|destruct (Py.assoc path (dirs st))]; apply R_refl.
Qed.

Lemma preserves_read path : preserves R (read_file path).
Proof.
  intros st. unfold read_file.
  destruct (Py.assoc path (files st));
    [|destruct (Py.assoc path (dirs st))]; apply R_refl.
Qed.

Lemma preserves_current_key : preserves R _get_current_api_key.
Proof.
  apply preserves_bind; [apply preserves_get_self|].
  intros c. apply preserves_lift.
Qed.

Hint Resolve preserves_ret preserves_raise preserves_lift preserves_get_self
     preserves_post preserves_write preserves_getsize preserves_read
     preserves_current_key : core.

Ltac step := first [ apply preserves_bind; [auto|intro] | apply preserves_try; [|intro] | auto ].

Lemma preserves_text_request prompt : preserves R (_generate_text_request prompt).
Proof. unfold _generate_text_request. repeat step. Qed.

Lemma preserves_save_images sc preds :
  forall idx filename paths, preserves R (save_images sc preds idx filename paths).
Proof.
  induction preds as [|img rest IH]; intros idx filename paths; simpl.
  - auto.
  - step. destruct (Py.truthy _); [|apply IH].
    step. step. apply IH.
Qed.

Lemma preserves_image_request prompt sc filename ar :
  preserves R (_generate_image_request prompt sc filename ar).
Proof.
  unfold _generate_image_request. do 5 step.
  apply preserves_bind; [apply preserves_save_images|]. intros paths.
  destruct (sc =? 1); repeat step.
Qed.

Lemma preserves_upload path : preserves R (_upload_image_to_gemini path).
Proof.
  unfold _upload_image_to_gemini. step; [|auto].
  do 3 step.
  destruct (headers_get _ _) as [[|c t]|]; repeat step.
Qed.

Lemma preserves_analyze_request path prompt :
  preserves R (_analyze_image_with_prompt_request path prompt).
Proof.
  unfold _analyze_image_with_prompt_request.
  apply preserves_bind; [apply preserves_upload|]. intros uri.
  destruct (negb _); repeat step.
Qed.

(** The wrapper adds to a request function only rotations and
    sleeps. *)
Hypothesis R_sleep : forall st ms, R st (with_sleep ms st).
Hypothesis R_rotate :
  forall st, api_keys (self st) <> [] ->
    R st (with_index (rotate (Z.of_nat (length (api_keys (self st))))
                             (current_key_index (self st))) st).

Lemma preserves_sleep ms : preserves R (time_sleep_ms ms).
Proof.
  intros st. unfold time_sleep_ms.
  destruct (negb (float_fits ms)); [apply R_refl|].
  destruct (negb (nanoseconds_fit ms)); [apply R_refl|].
  destruct (ms <? 0); [apply R_refl | apply R_sleep].
Qed.

Lemma preserves_switch : preserves R _switch_api_key.
Proof.
  intros st. destruct (api_keys (self st)) as [|k ks] eqn:E.
  - unfold _switch_api_key, bind, get_self. rewrite E. apply R_refl.
  - rewrite switch_api_key_run by congruence. apply R_rotate. congruence.
Qed.

Hint Resolve preserves_sleep preserves_switch : core.

Lemma preserves_handle_error e rc mx : preserves R (_handle_error e rc mx).
Proof.
  unfold _handle_error.
  destruct (rc >=? mx); [auto|].
  destruct (_ || _); [repeat step|].
  destruct (_ || _); [repeat step|].
  destruct (_ || _); [repeat step|].
  destruct (PyStr.contains "timeout" _); repeat step.
Qed.

Lemma preserves_retry_loop {A} (f : M A) :
  preserves R f -> forall n rc, preserves R (retry_loop f n rc).
Proof.
  intros Hf; induction n as [|n IH]; intros rc; simpl.
  - repeat step.
  - apply preserves_try; [exact Hf|]. intros e.
    step. apply preserves_bind; [apply preserves_handle_error|].
    intros again. destruct (negb again); [auto | apply IH].
Qed.

Lemma preserves_make_request {A} (f : M A) :
  preserves R f -> preserves R (_make_request_with_retry f).
Proof.
  intros Hf. unfold _make_request_with_retry. step.
  apply preserves_retry_loop, Hf.
Qed.

Lemma preserves_generate_culture_details culture :
  preserves R (generate_culture_details culture).
Proof.
  unfold generate_culture_details, generate_text.
  apply preserves_try; [|auto].
  apply preserves_bind; [|auto].
  apply preserves_make_request, preserves_text_request.
Qed.

End Preservation.


Lemma quiet_step_refl st : quiet_step st st.
Proof. repeat split. Qed.

Lemma quiet_step_trans a b c : quiet_step a b -> quiet_step b c -> quiet_step a c.
Proof. unfold quiet_step. intros (H1 & H2 & H3) (H4 & H5 & H6). repeat split; congruence. Qed.

Lemma quiet_step_post st req : quiet_step st (with_post req st).
Proof. repeat split. Qed.

Lemma quiet_step_file st path data : quiet_step st (with_file path data st).
Proof. repeat split. Qed.

Lemma quiet_text_request prompt : quiet (_generate_text_request prompt).
Proof.
  apply preserves_text_request;
    first [ exact quiet_step_refl | exact quiet_step_trans
          | exact quiet_step_post | exact quiet_step_file ].
Qed.

Lemma quiet_image_request prompt sc filename ar :
  quiet (_generate_image_request prompt sc filename ar).
Proof.
  apply preserves_image_request;
    first [ exact quiet_step_refl | exact quiet_step_trans
          | exact quiet_step_post | exact quiet_step_file ].
Qed.

Lemma quiet_analyze_request path prompt :
  quiet (_analyze_image_with_prompt_request path prompt).
Proof.
  apply preserves_analyze_request;
    first [ exact quiet_step_refl | exact quiet_step_trans
          | exact quiet_step_post | exact quiet_step_file ].
Qed.

Lemma same_pool_refl c : same_pool c c.
Proof. unfold same_pool. tauto. Qed.

Lemma pool_step_refl st : pool_step st st.
Proof. apply same_pool_refl. Qed.

Lemma pool_step_trans a b c : pool_step a b -> pool_step b c -> pool_step a c.
Proof.
  unfold pool_step, same_pool.
  intros (H1 & H2 & H3 & H4 & H5 & H6) (K1 & K2 & K3 & K4 & K5 & K6).
  do 5 (split; [congruence|]). auto.
Qed.

Lemma pool_step_post st req : pool_step st (with_post req st).
Proof. apply same_pool_refl. Qed.

Lemma pool_step_file st path data : pool_step st (with_file path data st).
Proof. apply same_pool_refl. Qed.

Lemma pool_step_sleep st ms : pool_step st (with_sleep ms st).
Proof. apply same_pool_refl. Qed.

Lemma rotate_valid size i : 0 < size -> 0 <= rotate size i < size.
Proof. intros H. unfold rotate. apply Z.mod_pos_bound. exact H. Qed.

Lemma pool_step_rotate st :
  api_keys (self st) <> [] ->
  pool_step st (with_index (rotate (Z.of_nat (length (api_keys (self st))))
                                   (current_key_index (self st))) st).
Proof.
  intros H. unfold pool_step, same_pool. simpl.
  do 5 (split; [reflexivity|]). intros _.
  unfold valid_index; simpl. apply rotate_valid.
  destruct (api_keys (self st)); [congruence | simpl; lia].
Qed.

Lemma keeps_pool_make_request {A} (f : M A) :
  keeps_pool f -> keeps_pool (_make_request_with_retry f).
Proof.
  apply preserves_make_request;
    first [ exact pool_step_refl | exact pool_step_trans
          | exact pool_step_sleep | exact pool_step_rotate ].
Qed.

Lemma keeps_pool_generate_text prompt : keeps_pool (generate_text prompt).
Proof.
  apply keeps_pool_make_request, preserves_text_request;
    first [ exact pool_step_refl | exact pool_step_trans
          | exact pool_step_post | exact pool_step_file ].
Qed.

Lemma keeps_pool_generate_image prompt sc filename ar :
  keeps_pool (generate_image prompt sc filename ar).
Proof.
  apply keeps_pool_make_request, preserves_image_request;
    first [ exact pool_step_refl | exact pool_step_trans
          | exact pool_step_post | exact pool_step_file ].
Qed.

Lemma keeps_pool_analyze_image path prompt :
  keeps_pool (analyze_image_with_prompt path prompt).
Proof.
  apply keeps_pool_make_request, preserves_analyze_request;
    first [ exact pool_step_refl | exact pool_step_trans
          | exact pool_step_post | exact pool_step_file ].
Qed.

Lemma keeps_pool_culture_details culture :
  keeps_pool (generate_culture_details culture).
Proof.
  apply preserves_generate_culture_details;
    first [ exact pool_step_refl | exact pool_step_trans
          | exact pool_step_post | exact pool_step_file
          | exact pool_step_sleep | exact pool_step_rotate ].
Qed.

(** *** Credential rotation *)

(** C7. In a pool of at least one credential, from a valid index [i]
    one rotation succeeds and sets the index to [(i + 1) mod size],
    again a valid index, and leaves the pool as it is.  The
    constructor refuses an empty pool and starts at index 0, and
    every public operation leaves the pool as it is and a valid index
    valid. *)
Theorem rotation_lands_on_valid_index :
  (forall st,
      (1 <= length (api_keys (self st)))%nat ->
      valid_index (self st) ->
      let size := Z.of_nat (length (api_keys (self st))) in
      let i := current_key_index (self st) in
      exists st',
        _switch_api_key st = (Return tt, st')
        /\ current_key_index (self st') = (i + 1) mod size
        /\ valid_index (self st')
        /\ api_keys (self st') = api_keys (self st))
  /\ (forall keys mr d1 d2 d3 c,
        __init__ keys mr d1 d2 d3 = Return c ->
        api_keys c = keys /\ wf_client c)
  /\ (forall mr d1 d2 d3, exists e, __init__ [] mr d1 d2 d3 = Raise e)
  /\ (forall prompt, keeps_pool (generate_text prompt))
  /\ (forall prompt sc filename ar, keeps_pool (generate_image prompt sc filename ar))
  /\ (forall path prompt, keeps_pool (analyze_image_with_prompt path prompt))
  /\ (forall culture, keeps_pool (generate_culture_details culture)).
Proof.
  split; [|split; [|split; [|split; [|split; [|split]]]]].
  - intros st Hsize Hi size i.
    assert (Hne : api_keys (self st) <> []).
    { destruct (api_keys (self st)); [simpl in Hsize; lia | congruence]. }
    eexists. split; [apply switch_api_key_run; exact Hne|].
    split; [reflexivity|].
    pose proof (pool_step_rotate st Hne) as (Hk & _ & _ & _ & _ & Hv).
    split; [apply Hv, Hi | exact Hk].
  - intros keys mr d1 d2 d3 c H. unfold __init__ in H.
    destruct keys as [|k ks]; [discriminate|]. inversion H; subst c; clear H.
    split; [reflexivity|]. split; [simpl; congruence|].
    unfold valid_index; simpl length; simpl current_key_index. lia.
  - intros. eexists. reflexivity.
  - apply keeps_pool_generate_text.
  - apply keeps_pool_generate_image.
  - apply keeps_pool_analyze_image.
  - apply keeps_pool_culture_details.
Qed.


(** *** The retry wrapper on the classes of errors *)

Lemma classify_unclassified msg :
  recognized msg = false -> classify msg = Unclassified.
Proof.
  unfold recognized, classify. intros H.
  apply orb_false_iff in H as [H H4].
  apply orb_false_iff in H as [H H3].
  apply orb_false_iff in H as [H1 H2].
  rewrite H1, H2, H3, H4. reflexivity.
Qed.





Lemma make_request_fails_fast {A} (request_func : M A) st e st1 :
  0 <= max_retries (self st) ->
  request_func st = (Raise e, st1) ->
  recognized (exn_msg e) = false ->
  _make_request_with_retry request_func st = (Raise e, st1).
Proof.
  intros Hm Hf Hu.
  rewrite make_request_unfold by exact Hm.
  rewrite (retry_loop_raise request_func _ _ st e st1 Hf).
  rewrite handle_error_unclassified by (apply classify_unclassified, Hu).
  reflexivity.
Qed.

(** C5. An error of the request function whose message, in lower
    case, contains none of the signals of the retry table ends the
    operation at once: the wrapper raises that same error, and the
    state it leaves is the state the single attempt left, that is the
    request function ran exactly once, nothing slept and the client
    is as it was.  The request functions of the three operations are
    quiet, so this covers each of them. *)
Theorem unclassified_error_fails_fast :
  (forall A (request_func : M A) st e st1,
      0 <= max_retries (self st) ->
      quiet request_func ->
      request_func (tick st) = (Raise e, st1) ->
      recognized (exn_msg e) = false ->
      _make_request_with_retry (counted request_func) st = (Raise e, st1)
      /\ calls st1 = S (calls st)
      /\ sleep_log st1 = sleep_log st
      /\ self st1 = self st)
  /\ (forall A (request_func : M A) st e st1,
        0 <= max_retries (self st) ->
        request_func st = (Raise e, st1) ->
        recognized (exn_msg e) = false ->
        _make_request_with_retry request_func st = (Raise e, st1))
  /\ (forall prompt, quiet (_generate_text_request prompt))
  /\ (forall prompt sc filename ar,
        quiet (_generate_image_request prompt sc filename ar))
  /\ (forall path prompt, quiet (_analyze_image_with_prompt_request path prompt)).
Proof.
  split; [|split; [intros; apply make_request_fails_fast; assumption
                  |split; [|split]]].
  - intros A f st e st1 Hm Hq Hf Hu.
    split; [apply make_request_fails_fast; assumption|].
    destruct (Hq (tick st)) as (Q1 & Q2 & Q3).
    rewrite Hf in Q1, Q2, Q3. simpl in Q1, Q2, Q3. auto.
  - apply quiet_text_request.
  - apply quiet_image_request.
  - apply quiet_analyze_request.
Qed.







(** *** Text generation against a scripted transport *)

Lemma text_request_return prompt st key resp result text :
  _get_current_api_key st = (Return key, st) ->
  transport (length (http_log st)) (text_request key prompt) = inr resp ->
  resp_json resp = Return result ->
  first_candidate_text result = Return text ->
  _generate_text_request prompt st
  = (Return text, with_post (text_request key prompt) st).
Proof.
  intros Hk Ht Hj Hf. unfold _generate_text_request, bind. rewrite Hk.
  unfold requests_post. rewrite Ht. unfold lift. rewrite Hj, Hf. reflexivity.
Qed.





(** *** Image analysis and the upload sub-protocol *)

Lemma upload_start_raises path st key data e :
  _get_current_api_key st = (Return key, st) ->
  Py.assoc path (files st) = Some data ->
  transport (length (http_log st)) (start_request_of path key data) = inl e ->
  _upload_image_to_gemini path st
  = (Return JNull, with_post (start_request_of path key data) st).
Proof.
  intros Hk Hd Ht.
  unfold _upload_image_to_gemini, try_except, bind, os_path_getsize.
  rewrite Hd, Hk. unfold requests_post. unfold start_request_of in Ht.
  rewrite Ht. reflexivity.
Qed.

Lemma upload_no_target path st key data resp :
  _get_current_api_key st = (Return key, st) ->
  Py.assoc path (files st) = Some data ->
  transport (length (http_log st)) (start_request_of path key data) = inr resp ->
  headers_get "X-Goog-Upload-URL" (resp_headers resp) = None
  \/ headers_get "X-Goog-Upload-URL" (resp_headers resp) = Some "" ->
  _upload_image_to_gemini path st
  = (Return JNull, with_post (start_request_of path key data) st).
Proof.
  intros Hk Hd Ht Hh.
  unfold _upload_image_to_gemini, try_except, bind, os_path_getsize.
  rewrite Hd, Hk. unfold requests_post. unfold start_request_of in Ht.
  rewrite Ht. destruct Hh as [-> | ->]; reflexivity.
Qed.

Lemma upload_transfer_raises path st key data resp c t e :
  _get_current_api_key st = (Return key, st) ->
  Py.assoc path (files st) = Some data ->
  transport (length (http_log st)) (start_request_of path key data) = inr resp ->
  headers_get "X-Goog-Upload-URL" (resp_headers resp) = Some (String c t) ->
  transport (S (length (http_log st)))
            (transfer_request_of (String c t) key data) = inl e ->
  _upload_image_to_gemini path st
  = (Return JNull,
     with_post (transfer_request_of (String c t) key data)
       (with_post (start_request_of path key data) st)).
Proof.
  intros Hk Hd Ht Hh Hu.
  unfold _upload_image_to_gemini, try_except, bind, os_path_getsize.
  rewrite Hd, Hk. unfold requests_post at 1.
  unfold start_request_of, transfer_request_of in *.
  rewrite Ht, Hh. unfold read_file. cbn [files with_post]. rewrite Hd.
  unfold _get_current_api_key, bind, get_self, lift in Hk |- *.
  cbn [self with_post].
  destruct (Py.list_getitem (api_keys (self st)) (current_key_index (self st)))
    as [key'|e']; inversion Hk; subst key'.
  unfold requests_post. cbn [http_log with_post].
  rewrite length_app, Nat.add_1_r. rewrite Hu. reflexivity.
Qed.

Lemma analyze_request_upload_failed path prompt st st1 :
  _upload_image_to_gemini path st = (Return JNull, st1) ->
  _analyze_image_with_prompt_request path prompt st = (Raise UploadFailed, st1).
Proof.
  intros H. unfold _analyze_image_with_prompt_request, bind. rewrite H. reflexivity.
Qed.

Lemma analyze_upload_failed path prompt st st1 :
  0 <= max_retries (self st) ->
  _upload_image_to_gemini path st = (Return JNull, st1) ->
  analyze_image_with_prompt path prompt st = (Raise UploadFailed, st1).
Proof.
  intros Hm H. apply make_request_fails_fast;
    [exact Hm | apply analyze_request_upload_failed, H | reflexivity].
Qed.

(** C6. When the response to the upload-start request has no
    upload-target header (or an empty one), [analyze_image_with_prompt]
    fails with [UploadFailed]; the start request is the only request
    of the call, so the content-analysis request is never issued. *)
Theorem missing_upload_url_fails_without_analysis
        path prompt st key data resp :
  0 <= max_retries (self st) ->
  _get_current_api_key st = (Return key, st) ->
  Py.assoc path (files st) = Some data ->
  transport (length (http_log st)) (start_request_of path key data) = inr resp ->
  headers_get "X-Goog-Upload-URL" (resp_headers resp) = None
  \/ headers_get "X-Goog-Upload-URL" (resp_headers resp) = Some "" ->
  exists st',
    analyze_image_with_prompt path prompt st = (Raise UploadFailed, st')
    /\ http_log st' = (http_log st ++ [start_request_of path key data])%list
    /\ (forall req, In req (http_log st') ->
          In req (http_log st) \/ req_url req <> image_url)
    /\ sleep_log st' = sleep_log st
    /\ self st' = self st.
Proof.
  intros Hm Hk Hd Ht Hh.
  exists (with_post (start_request_of path key data) st).
  split.
  - apply analyze_upload_failed; [exact Hm|].
    eapply upload_no_target; eassumption.
  - repeat split. intros req Hin. simpl in Hin.
    apply in_app_or in Hin as [Hin | [<- | []]]; [left; exact Hin | right].
    simpl. discriminate.
Qed.


(** C2 (as amended).  An HTTP failure in the start or in the transfer
    phase of the upload is caught inside [_upload_image_to_gemini]:
    the sub-protocol posts nothing more, and the single attempt of
    the request function raises [UploadFailed].  The message of
    [UploadFailed] carries no signal of the retry table, so the
    wrapper does not retry either: [analyze_image_with_prompt] fails
    with [UploadFailed] after that one attempt, without sleep or
    rotation, whatever the class of the HTTP failure. *)
Theorem upload_failure_surfaces_once path prompt st key data :
  0 <= max_retries (self st) ->
  _get_current_api_key st = (Return key, st) ->
  Py.assoc path (files st) = Some data ->
  let start := start_request_of path key data in
  (forall e,
      transport (length (http_log st)) start = inl e ->
      exists st',
        _analyze_image_with_prompt_request path prompt st = (Raise UploadFailed, st')
        /\ analyze_image_with_prompt path prompt st = (Raise UploadFailed, st')
        /\ http_log st' = (http_log st ++ [start])%list
        /\ sleep_log st' = sleep_log st
        /\ self st' = self st)
  /\ (forall resp c t e,
        transport (length (http_log st)) start = inr resp ->
        headers_get "X-Goog-Upload-URL" (resp_headers resp) = Some (String c t) ->
        let transfer := transfer_request_of (String c t) key data in
        transport (S (length (http_log st))) transfer = inl e ->
        exists st',
          _analyze_image_with_prompt_request path prompt st = (Raise UploadFailed, st')
          /\ analyze_image_with_prompt path prompt st = (Raise UploadFailed, st')
          /\ http_log st' = (http_log st ++ [start; transfer])%list
          /\ sleep_log st' = sleep_log st
          /\ self st' = self st).
Proof.
  intros Hm Hk Hd start. split.
  - intros e He.
    pose proof (upload_start_raises path st key data e Hk Hd He) as Hu.
    eexists. split; [apply analyze_request_upload_failed, Hu|].
    split; [apply analyze_upload_failed; [exact Hm | exact Hu]|].
    repeat split.
  - intros resp c t e Hr Hh transfer He.
    pose proof (upload_transfer_raises path st key data resp c t e Hk Hd Hr Hh He) as Hu.
    eexists. split; [apply analyze_request_upload_failed, Hu|].
    split; [apply analyze_upload_failed; [exact Hm | exact Hu]|].
    simpl. rewrite <- app_assoc. repeat split.
Qed.

(** *** Image generation *)

Lemma image_request_run prompt sc filename ar st key items :
  _get_current_api_key st = (Return key, st) ->
  answers_with_predictions st key prompt sc ar items ->
  _generate_image_request prompt sc filename ar st
  = bind (save_images sc items 0 filename [])
         (fun image_paths =>
            if sc =? 1 then
              bind (lift (Py.list_getitem image_paths 0)) (fun p => ret (OnePath p))
            else ret (Paths image_paths))
         (with_post (image_request key prompt sc ar) st).
Proof.
  intros Hk (resp & result & predictions & Ht & Hj & Hp & Hi).
  unfold _generate_image_request. unfold bind at 1. rewrite Hk.
  unfold bind at 1. unfold requests_post. rewrite Ht.
  unfold bind at 1. unfold lift at 1. rewrite Hj.
  unfold bind at 1. unfold lift at 1. rewrite Hp.
  unfold bind at 1. unfold lift at 1. rewrite Hi.
  reflexivity.
Qed.

Lemma save_images_no_payload sc preds :
  forallb no_payload preds = true ->
  forall idx filename paths st,
    save_images sc preds idx filename paths st = (Return paths, st).
Proof.
  induction preds as [|img rest IH]; intros H idx filename paths st; simpl.
  - reflexivity.
  - simpl in H. apply andb_true_iff in H as [H1 H2].
    unfold no_payload in H1. unfold bind at 1. unfold lift.
    destruct (Py.dict_get img "bytesBase64Encoded" JNull) as [d|e]; [|discriminate].
    apply negb_true_iff in H1. rewrite H1. apply IH, H2.
Qed.

(** C9. With [sample_count = 1], a successful response whose
    predictions are empty, or of which none carries a payload, makes
    [generate_image] raise [IndexError] ([list index out of range])
    from its only attempt: no path is returned. *)
Theorem single_image_without_payload_raises
        prompt filename ar st key items :
  0 <= max_retries (self st) ->
  _get_current_api_key st = (Return key, st) ->
  answers_with_predictions st key prompt 1 ar items ->
  forallb no_payload items = true ->
  generate_image prompt 1 filename ar st
  = (Raise (Py.IndexError "list"), with_post (image_request key prompt 1 ar) st)
  /\ exn_msg (Py.IndexError "list") = "list index out of range".
Proof.
  intros Hm Hk Ha Hn. split; [|reflexivity].
  apply make_request_fails_fast; [exact Hm | | reflexivity].
  rewrite (image_request_run _ _ _ _ _ _ _ Hk Ha).
  unfold bind at 1. rewrite save_images_no_payload by exact Hn.
  reflexivity.
Qed.


Lemma has_payload_inv img :
  has_payload img = true ->
  exists c t bytes,
    Py.dict_get img "bytesBase64Encoded" JNull = Return (JStr (String c t))
    /\ b64decode (String c t) = Return bytes.
Proof.
  unfold has_payload. intros H.
  destruct (Py.dict_get img "bytesBase64Encoded" JNull) as [[| | |[|c t]| |]|];
    try discriminate.
  destruct (b64decode (String c t)) as [bytes|] eqn:E; [|discriminate].
  exists c, t, bytes. split; [reflexivity | exact E].
Qed.

Lemma no_payload_inv img :
  no_payload img = true ->
  exists d, Py.dict_get img "bytesBase64Encoded" JNull = Return d
            /\ Py.truthy d = false.
Proof.
  unfold no_payload. intros H.
  destruct (Py.dict_get img "bytesBase64Encoded" JNull) as [d|]; [|discriminate].
  exists d. split; [reflexivity | now apply negb_true_iff].
Qed.

Lemma no_payload_excludes img : no_payload img = true -> has_payload img = false.
Proof.
  intros H. destruct (no_payload_inv img H) as (d & Hd & Ht).
  unfold has_payload. rewrite Hd.
  destruct d as [| | |[|c t]| |]; try reflexivity. discriminate.
Qed.

Lemma rstrip_by_app p s t :
  PyStr.rstrip_by p t = "" -> PyStr.rstrip_by p (s ++ t) = PyStr.rstrip_by p s.
Proof.
  intros Ht. induction s as [|a s IH]; simpl.
  - exact Ht.
  - rewrite IH. reflexivity.
Qed.

Lemma rstrip_by_keeps p s :
  match PyStr.last_char s with
  | Some c => p c = false
  | None => True
  end ->
  PyStr.rstrip_by p s = s.
Proof.
  induction s as [|a s IH]; intros H; [reflexivity|].
  cbn [PyStr.rstrip_by]. destruct s as [|b s].
  - simpl in *. rewrite H. reflexivity.
  - rewrite IH by exact H. reflexivity.
Qed.

(** [rstrip('.png')] undoes the suffix when the base ends well. *)
Lemma rstrip_png base :
  keeps_end base -> PyStr.rstrip_chars ".png" (base ++ ".png") = base.
Proof.
  intros H. unfold PyStr.rstrip_chars.
  rewrite rstrip_by_app by reflexivity.
  apply rstrip_by_keeps. exact H.
Qed.

Lemma last_char_app s c t :
  PyStr.last_char (s ++ String c t) = PyStr.last_char (String c t).
Proof.
  induction s as [|a s IH]; [reflexivity|].
  cbn [append]. cbn [PyStr.last_char].
  destruct (s ++ String c t) eqn:E.
  - destruct s; discriminate.
  - exact IH.
Qed.

Lemma startswith_sep_none hint :
  PyStr.rfind PosixPath.sep hint = None -> PyStr.startswith "/" hint = false.
Proof.
  destruct hint as [|a t]; [reflexivity|].
  cbn [PyStr.rfind PyStr.startswith]. intros H.
  destruct (PyStr.rfind PosixPath.sep t); [discriminate|].
  rewrite Ascii.eqb_sym. fold PosixPath.sep.
  destruct (Ascii.eqb a PosixPath.sep); [discriminate | reflexivity].
Qed.

(** The file name of a saved image is the name it was saved under,
    when that name has no separator. *)
Lemma basename_asset_path out_name :
  PyStr.rfind PosixPath.sep out_name = None ->
  PosixPath.basename (asset_path out_name) = out_name.
Proof.
  intros H. unfold asset_path, PosixPath.join. simpl fold_left.
  set (X := PosixPath.join2 module_dir "assets").
  assert (HX : exists Y, X = Y ++ "assets").
  { unfold X, PosixPath.join2. simpl PyStr.startswith. cbv iota.
    destruct (_ || _).
    - exists module_dir. reflexivity.
    - exists (module_dir ++ "/"). rewrite append_assoc. reflexivity. }
  destruct HX as (Y & HY).
  assert (HJ : PosixPath.join2 X out_name = X ++ String "/" out_name).
  { unfold PosixPath.join2. rewrite startswith_sep_none by exact H.
    assert (E1 : PyStr.is_empty X = false).
    { rewrite HY. destruct Y; reflexivity. }
    assert (E2 : PyStr.endswith_char PosixPath.sep X = false).
    { unfold PyStr.endswith_char. rewrite HY.
      change "assets" with (String "a" "ssets").
      rewrite last_char_app. reflexivity. }
    rewrite E1, E2. reflexivity. }
  rewrite HJ. unfold PosixPath.basename.
  rewrite (rfind_app_some _ _ _ 0%nat) by (simpl; rewrite H; reflexivity).
  cbn [PyStr.index_of].
  replace (Z.to_nat (Z.of_nat (String.length X + 0) + 1))
    with (String.length (X ++ "/")) by (rewrite length_append; simpl; lia).
  replace (X ++ String "/" out_name) with ((X ++ "/") ++ out_name)
    by (rewrite append_assoc; reflexivity).
  apply drop_app.
Qed.


Lemma save_images_step_payload sc img rest idx c t paths st :
  has_payload img = true ->
  let filename := String c t in
  let out_name :=
    if sc =? 1 then filename
    else PyStr.rstrip_chars ".png" filename
         ++ "_" ++ PyStr.str_of_Z (idx + 1) ++ ".png" in
  open_wb (asset_path out_name) = None ->
  exists bytes,
    save_images sc (img :: rest) idx (Some filename) paths st
    = save_images sc rest (idx + 1) (Some filename)
                  (paths ++ [asset_path out_name])
                  (with_file (asset_path out_name) bytes st).
Proof.
  intros H filename out_name Hw. subst filename out_name.
  unfold asset_path in *.
  destruct (has_payload_inv img H) as (c' & t' & bytes & Hd & Hb).
  exists bytes. cbn [save_images].
  unfold bind at 1. unfold lift at 1. rewrite Hd.
  cbn [Py.truthy PyStr.is_empty negb].
  unfold bind at 1. unfold lift at 1. cbn [base64_b64decode]. rewrite Hb.
  unfold bind at 1. unfold write_file. rewrite Hw.
  reflexivity.
Qed.

Lemma save_images_step_skip sc img rest idx filename paths st :
  no_payload img = true ->
  save_images sc (img :: rest) idx filename paths st
  = save_images sc rest (idx + 1) filename paths st.
Proof.
  intros H. destruct (no_payload_inv img H) as (d & Hd & Ht).
  cbn [save_images]. unfold bind at 1. unfold lift at 1. rewrite Hd, Ht.
  reflexivity.
Qed.

(** One image asked for: every payload is saved under the name of
    the hint. *)
Lemma save_images_single c t preds :
  open_wb (asset_path (String c t)) = None ->
  forallb usable preds = true ->
  forall idx paths st,
  exists st',
    save_images 1 preds idx (Some (String c t)) paths st
    = (Return (paths ++ repeat (asset_path (String c t))
                               (length (filter has_payload preds)))%list, st')
    /\ quiet_step st st'
    /\ http_log st' = http_log st.
Proof.
  intros Hw. induction preds as [|img rest IH]; intros Hu idx paths st.
  - exists st. simpl. rewrite app_nil_r. repeat split.
  - simpl in Hu. apply andb_true_iff in Hu as [Hi Hr].
    unfold usable in Hi. destruct (has_payload img) eqn:Hp.
    + destruct (save_images_step_payload 1 img rest idx c t paths st Hp Hw)
        as (bytes & E).
      rewrite E. cbn [Z.eqb Pos.eqb].
      destruct (IH Hr (idx + 1) (paths ++ [asset_path (String c t)])%list
                   (with_file (asset_path (String c t)) bytes st))
        as (st' & R & Q & L).
      exists st'. rewrite R. cbn [filter]. rewrite Hp. simpl.
      rewrite <- app_assoc. simpl. repeat split; apply Q || exact L.
    + simpl in Hi. rewrite save_images_step_skip by exact Hi.
      destruct (IH Hr (idx + 1) paths st) as (st' & R & Q & L).
      exists st'. rewrite R. cbn [filter]. rewrite Hp. auto.
Qed.

(** Several images asked for: one name per payload, numbered by the
    position of its prediction. *)
Lemma save_images_indexed sc c t base preds :
  sc <> 1 ->
  PyStr.rstrip_chars ".png" (String c t) = base ->
  forallb usable preds = true ->
  forall idx paths st,
    (forall p, In p (indexed_paths base preds idx) -> open_wb p = None) ->
    exists st',
      save_images sc preds idx (Some (String c t)) paths st
      = (Return (paths ++ indexed_paths base preds idx)%list, st')
      /\ quiet_step st st'
      /\ http_log st' = http_log st.
Proof.
  intros Hsc Hb. induction preds as [|img rest IH]; intros Hu idx paths st Hw.
  - exists st. simpl. rewrite app_nil_r. repeat split.
  - simpl in Hu. apply andb_true_iff in Hu as [Hi Hr].
    unfold usable in Hi. cbn [indexed_paths] in Hw |- *.
    destruct (has_payload img) eqn:Hp.
    + pose proof (save_images_step_payload sc img rest idx c t paths st Hp) as E.
      cbv zeta in E.
      replace (sc =? 1) with false in E by (symmetry; apply Z.eqb_neq; exact Hsc).
      rewrite Hb in E.
      destruct E as (bytes & E); [apply Hw; left; reflexivity|].
      rewrite E.
      match goal with
      | |- context [with_file ?p bytes st] =>
          destruct (IH Hr (idx + 1) (paths ++ [p])%list (with_file p bytes st))
            as (st' & R & Q & L)
      end.
      { intros p Hin. apply Hw. right. exact Hin. }
      exists st'. rewrite R. rewrite <- app_assoc. simpl.
      repeat split; apply Q || exact L.
    + simpl in Hi. rewrite save_images_step_skip by exact Hi.
      destruct (IH Hr (idx + 1) paths st) as (st' & R & Q & L); [exact Hw|].
      exists st'. rewrite R. auto.
Qed.

Lemma make_request_returns {A} (f : M A) st a st1 :
  0 <= max_retries (self st) ->
  f st = (Return a, st1) ->
  _make_request_with_retry f st = (Return a, st1).
Proof.
  intros Hm Hf. rewrite make_request_unfold by exact Hm.
  apply retry_loop_return, Hf.
Qed.

Lemma filter_has_payload_pos preds :
  existsb has_payload preds = true ->
  exists n, length (filter has_payload preds) = S n.
Proof.
  induction preds as [|img rest IH]; simpl; [discriminate|].
  destruct (has_payload img); simpl; [eexists; reflexivity | exact IH].
Qed.

(** C3 (as amended).  For a response all of whose predictions are
    usable (no payload, or a string payload that decodes) and whose
    images can be written:
    - with [sample_count = 1], a hint that is not empty and at least
      one payload, [generate_image] returns one path, not a list, and
      its file name is the hint;
    - with another [sample_count] and a hint [base.png] whose [base]
      does not end in one of [.], [p], [n], [g], it returns the list
      of one path per prediction with a payload, in the order of the
      response, named [base_<position>.png]; for three predictions
      with payloads these are [base_1.png], [base_2.png],
      [base_3.png]. *)
Theorem image_paths_follow_hint prompt ar st key items :
  0 <= max_retries (self st) ->
  _get_current_api_key st = (Return key, st) ->
  forallb usable items = true ->
  (forall c t,
      answers_with_predictions st key prompt 1 ar items ->
      existsb has_payload items = true ->
      open_wb (asset_path (String c t)) = None ->
      (exists st',
          generate_image prompt 1 (Some (String c t)) ar st
          = (Return (OnePath (asset_path (String c t))), st')
          /\ self st' = self st)
      /\ (PyStr.rfind PosixPath.sep (String c t) = None ->
          PosixPath.basename (asset_path (String c t)) = String c t))
  /\ (forall sc base,
        sc <> 1 ->
        answers_with_predictions st key prompt sc ar items ->
        keeps_end base ->
        (forall p, In p (indexed_paths base items 0) -> open_wb p = None) ->
        exists st',
          generate_image prompt sc (Some (base ++ ".png")) ar st
          = (Return (Paths (indexed_paths base items 0)), st')
          /\ length (indexed_paths base items 0)
             = length (filter has_payload items)
          /\ self st' = self st)
  /\ (forall base a b c,
        has_payload a = true -> has_payload b = true -> has_payload c = true ->
        indexed_paths base [a; b; c] 0
        = [asset_path (base ++ "_1.png");
           asset_path (base ++ "_2.png");
           asset_path (base ++ "_3.png")]).
Proof.
  intros Hm Hk Hu. split; [|split].
  - intros c t Ha He Hw. split; [|apply basename_asset_path].
    destruct (save_images_single c t items Hw Hu 0 []
                (with_post (image_request key prompt 1 ar) st))
      as (st' & R & Q & L).
    destruct (filter_has_payload_pos items He) as (n & Hn).
    exists st'. split; [|apply Q].
    apply make_request_returns; [exact Hm|].
    rewrite (image_request_run _ _ _ _ _ _ _ Hk Ha).
    unfold bind at 1. rewrite R. rewrite Hn. reflexivity.
  - intros sc base Hsc Ha Hb Hw.
    assert (Hhint : exists c t, base ++ ".png" = String c t).
    { destruct base; simpl; eauto. }
    destruct Hhint as (c & t & Hhint).
    destruct (save_images_indexed sc c t base items Hsc
                (eq_trans (f_equal _ (eq_sym Hhint)) (rstrip_png base Hb))
                Hu 0 [] (with_post (image_request key prompt sc ar) st) Hw)
      as (st' & R & Q & L).
    exists st'. split; [|split; [|apply Q]].
    + apply make_request_returns; [exact Hm|].
      rewrite (image_request_run _ _ _ _ _ _ _ Hk Ha).
      rewrite Hhint. unfold bind at 1. rewrite R.
      replace (sc =? 1) with false by (symmetry; apply Z.eqb_neq; exact Hsc).
      reflexivity.
    + clear. generalize 0. induction items as [|img rest IH]; intros idx; simpl.
      * reflexivity.
      * destruct (has_payload img); simpl; rewrite IH; reflexivity.
  - intros base a b c Ha Hb Hc. cbn [indexed_paths]. rewrite Ha, Hb, Hc.
    reflexivity.
Qed.


(** *** Culture details *)

Lemma rstrip_by_idempotent p s :
  PyStr.rstrip_by p (PyStr.rstrip_by p s) = PyStr.rstrip_by p s.
Proof.
  induction s as [|a s IH]; [reflexivity|].
  cbn [PyStr.rstrip_by].
  destruct (PyStr.is_empty (PyStr.rstrip_by p s) && p a) eqn:E; [reflexivity|].
  cbn [PyStr.rstrip_by]. rewrite IH, E. reflexivity.
Qed.

Lemma lstrip_by_clean p s : clean_start p (PyStr.lstrip_by p s).
Proof.
  induction s as [|a s IH]; simpl; [exact I|].
  destruct (p a) eqn:E; [exact IH | exact E].
Qed.

Lemma rstrip_by_clean p s : clean_start p s -> clean_start p (PyStr.rstrip_by p s).
Proof.
  destruct s as [|a s]; intros H; [exact I|].
  simpl in H. cbn [PyStr.rstrip_by]. rewrite H, andb_false_r. exact H.
Qed.

Lemma lstrip_by_id p s : clean_start p s -> PyStr.lstrip_by p s = s.
Proof. destruct s as [|a s]; simpl; [reflexivity|]. intros ->. reflexivity. Qed.

Lemma strip_idempotent s : PyStr.strip (PyStr.strip s) = PyStr.strip s.
Proof.
  unfold PyStr.strip.
  rewrite (lstrip_by_id _ (PyStr.rstrip_by _ _))
    by apply rstrip_by_clean, lstrip_by_clean.
  apply rstrip_by_idempotent.
Qed.

Lemma first_candidate_text_stripped result text :
  first_candidate_text result = Return text -> exists raw, text = PyStr.strip raw.
Proof.
  unfold first_candidate_text, obind. intros H.
  repeat match type of H with
         | match ?o with Return _ => _ | Raise _ => _ end = _ =>
             destruct o; [|discriminate]
         end.
  unfold Py.str_strip in H.
  match type of H with
  | match ?j with JStr _ => _ | _ => _ end = _ => destruct j; try discriminate
  end.
  inversion H. eexists. reflexivity.
Qed.

Lemma text_request_stripped prompt st text st1 :
  _generate_text_request prompt st = (Return text, st1) ->
  exists raw, text = PyStr.strip raw.
Proof.
  unfold _generate_text_request, bind, lift, requests_post. intros H.
  destruct (_get_current_api_key st) as [[key|] s0]; [|discriminate].
  destruct (transport _ _) as [|resp]; [discriminate|].
  destruct (resp_json resp) as [result|]; [|discriminate].
  destruct (first_candidate_text result) as [t|] eqn:E; [|discriminate].
  inversion H; subst. eapply first_candidate_text_stripped, E.
Qed.

(** What the loop returns, the request function returned. *)
Lemma retry_loop_returns {A} (f : M A) n :
  forall rc st a st1,
    retry_loop f n rc st = (Return a, st1) ->
    exists s s1, f s = (Return a, s1).
Proof.
  induction n as [|n IH]; intros rc st a st1 H.
  - discriminate.
  - cbn [retry_loop] in H. unfold try_except in H.
    destruct (f st) as [[a0|e] s1] eqn:E.
    + inversion H; subst. eauto.
    + unfold bind at 1 in H. unfold get_self in H. unfold bind in H.
      destruct (_handle_error e rc (max_retries (self s1)) s1) as [[[|]|] s2];
        try discriminate.
      eapply IH. exact H.
Qed.

Lemma generate_text_stripped prompt st text st1 :
  generate_text prompt st = (Return text, st1) ->
  PyStr.strip text = text.
Proof.
  unfold generate_text, _make_request_with_retry, bind, get_self. intros H.
  apply retry_loop_returns in H as (s & s1 & H).
  apply text_request_stripped in H as (raw & ->).
  apply strip_idempotent.
Qed.

Lemma all_chars_app p s t : all_chars p (s ++ t) = all_chars p s && all_chars p t.
Proof.
  induction s as [|a s IH]; simpl; [reflexivity|].
  rewrite IH, andb_assoc. reflexivity.
Qed.

Lemma rstrip_by_all p s : all_chars p s = true -> PyStr.rstrip_by p s = EmptyString.
Proof.
  induction s as [|a s IH]; simpl; [reflexivity|].
  intros H. apply andb_true_iff in H as [Ha Hs].
  rewrite (IH Hs), Ha. reflexivity.
Qed.

Lemma rstrip_by_not_all p s :
  all_chars p s = false ->
  all_chars p (PyStr.rstrip_by p s) = false
  /\ match PyStr.last_char (PyStr.rstrip_by p s) with
     | Some c => p c = false
     | None => False
     end.
Proof.
  induction s as [|a s IH]; simpl; [discriminate|].
  intros H. destruct (all_chars p s) eqn:A.
  - rewrite andb_true_r in H. rewrite (rstrip_by_all p s A), H. simpl.
    rewrite H. auto.
  - destruct (IH eq_refl) as [I1 I2].
    destruct (PyStr.rstrip_by p s) as [|b u] eqn:R; [contradiction|].
    simpl. rewrite andb_false_iff. split; [right; exact I1 | exact I2].
Qed.

Lemma lstrip_by_split p s :
  exists l, s = l ++ PyStr.lstrip_by p s /\ all_chars p l = true.
Proof.
  induction s as [|a s (l & E & H)]; simpl.
  - exists EmptyString. split; reflexivity.
  - destruct (p a) eqn:Pa.
    + exists (String a l). simpl. rewrite Pa, H, <- E. split; reflexivity.
    + exists EmptyString. split; reflexivity.
Qed.

Lemma rstrip_by_split p s :
  exists r, s = PyStr.rstrip_by p s ++ r /\ all_chars p r = true.
Proof.
  induction s as [|a s (r & E & H)]; simpl.
  - exists EmptyString. split; reflexivity.
  - destruct (PyStr.rstrip_by p s) as [|b u] eqn:R; simpl.
    + destruct (p a) eqn:Pa.
      * exists (String a s). simpl in E. subst r. simpl. rewrite Pa, H.
        split; reflexivity.
      * exists s. simpl in E. subst r. split; [reflexivity | exact H].
    + exists r. split; [simpl; f_equal; exact E | exact H].
Qed.

Lemma rstrip_by_end p s :
  match PyStr.last_char (PyStr.rstrip_by p s) with
  | Some c => p c = false
  | None => True
  end.
Proof.
  destruct (all_chars p s) eqn:A.
  - rewrite (rstrip_by_all p s A). exact I.
  - destruct (rstrip_by_not_all p s A) as [_ H].
    destruct (PyStr.last_char _); [exact H | exact I].
Qed.

Lemma strip_trimmed raw : trimmed (PyStr.strip raw).
Proof.
  unfold trimmed, PyStr.strip. split.
  - apply rstrip_by_clean, lstrip_by_clean.
  - apply rstrip_by_end.
Qed.

(** [strip] takes the white space off the two ends and nothing else. *)
Lemma strip_trims raw : trims_to raw (PyStr.strip raw).
Proof.
  unfold trims_to, PyStr.strip.
  destruct (lstrip_by_split PyStr.is_space raw) as (l & El & Hl).
  destruct (rstrip_by_split PyStr.is_space (PyStr.lstrip_by PyStr.is_space raw))
    as (r & Er & Hr).
  exists l, r. split; [|split; [exact Hl | split; [exact Hr | apply strip_trimmed]]].
  rewrite <- Er. exact El.
Qed.

Lemma generate_text_trimmed prompt st text st1 :
  generate_text prompt st = (Return text, st1) -> trimmed text.
Proof.
  unfold generate_text, _make_request_with_retry, bind, get_self. intros H.
  apply retry_loop_returns in H as (s & s1 & H).
  apply text_request_stripped in H as (raw & ->).
  apply strip_trimmed.
Qed.

Lemma first_candidate_text_of_raw result raw :
  candidate_text result = Return (JStr raw) ->
  first_candidate_text result = Return (PyStr.strip raw).
Proof.
  unfold candidate_text, first_candidate_text, obind. intros H.
  repeat match type of H with
         | match ?o with Return _ => _ | Raise _ => _ end = _ =>
             destruct o; [|discriminate]
         end.
  rewrite H. reflexivity.
Qed.

(** C10. [generate_culture_details] returns on every culture and in
    every state, whatever the text generation does: the text it got,
    trimmed (which it already is), when [generate_text] returns, and
    the empty string when [generate_text] raises, be it with the last
    error of an exhausted retry or with an unclassified one.  The text
    it returns has no white space at either end; when the first post
    is answered with a candidate text (in ASCII), it is that text
    without the white space at its two ends. *)
Theorem culture_details_never_raises culture st :
  exists text,
    generate_culture_details culture st
    = (Return text, snd (generate_text (culture_prompt culture) st))
    /\ match fst (generate_text (culture_prompt culture) st) with
       | Return details => text = PyStr.strip details /\ text = details
       | Raise _ => text = EmptyString
       end
    /\ trimmed text
    /\ (forall key resp result raw,
          0 <= max_retries (self st) ->
          _get_current_api_key st = (Return key, st) ->
          transport (length (http_log st)) (text_request key (culture_prompt culture))
          = inr resp ->
          resp_json resp = Return result ->
          candidate_text result = Return (JStr raw) ->
          PyStr.is_ascii raw = true ->
          trims_to raw text).
Proof.
  assert (Main : exists text,
    generate_culture_details culture st
    = (Return text, snd (generate_text (culture_prompt culture) st))
    /\ match fst (generate_text (culture_prompt culture) st) with
       | Return details => text = PyStr.strip details /\ text = details
       | Raise _ => text = EmptyString
       end
    /\ trimmed text).
  { unfold generate_culture_details, try_except, bind.
    destruct (generate_text (culture_prompt culture) st) as [[details|e] st1] eqn:E.
    - pose proof (generate_text_trimmed _ _ _ _ E) as T.
      apply generate_text_stripped in E. unfold ret. simpl.
      destruct details as [|c t]; simpl PyStr.is_empty; cbv iota.
      + exists EmptyString. repeat split.
      + exists (PyStr.strip (String c t)). rewrite E. repeat split; apply T.
    - exists EmptyString. unfold ret. simpl. repeat split. }
  destruct Main as (text & H1 & H2 & H3).
  exists text. split; [exact H1|]. split; [exact H2|]. split; [exact H3|].
  intros key resp result raw Hm Hk Ht Hj Hc _.
  assert (G : generate_text (culture_prompt culture) st
              = (Return (PyStr.strip raw),
                 with_post (text_request key (culture_prompt culture)) st)).
  { apply make_request_returns; [exact Hm|].
    eapply text_request_return; try eassumption.
    apply first_candidate_text_of_raw, Hc. }
  rewrite G in H2. cbn [fst] in H2. destruct H2 as [_ ->]. apply strip_trims.
Qed.

(* ================================================================ *)
(** ** Further properties of the retry wrapper *)
(* ================================================================ *)

(** Every way [_handle_error] can end: no retry and nothing changed; a
    retry, below the limit, after one sleep of the policy; or an error
    of its own (a delay that [time.sleep] refuses, an empty pool)
    without a sleep.  The
    pool and the call counter are kept in each case. *)
Lemma handle_error_cases e rc mx st :
  let r := _handle_error e rc mx st in
  pool_step st (snd r)
  /\ calls (snd r) = calls st
  /\ ((fst r = Return false /\ snd r = st)
      \/ (fst r = Return true /\ rc < mx
          /\ exists d, sleep_log (snd r) = (sleep_log st ++ [d])%list
                       /\ policy_delay (self st) d)
      \/ ((exists e', fst r = Raise e') /\ sleep_log (snd r) = sleep_log st)).
Proof.
  cbv zeta. split; [apply preserves_handle_error;
                    first [ exact pool_step_refl | exact pool_step_trans
                          | exact pool_step_sleep | exact pool_step_rotate ]|].
  unfold _handle_error, _switch_api_key, bind, get_self, time_sleep_ms,
    set_current_key_index, ret, raise.
  destruct (rc >=? mx) eqn:Hrc.
  { split; [reflexivity|]. left. split; reflexivity. }
  assert (Hlt : rc < mx).
  { rewrite Z.geb_leb in Hrc. apply Z.leb_gt in Hrc. exact Hrc. }
  repeat match goal with
         | |- context [if ?b then _ else _] => destruct b
         end;
    simpl; (split; [reflexivity|]);
    first [ left; split; reflexivity
          | right; right; split; [eexists; reflexivity | reflexivity]
          | right; left; split; [reflexivity|]; split; [exact Hlt|];
            eexists; split; [reflexivity|]; unfold policy_delay;
            first [ left; reflexivity | right; left; reflexivity
                  | right; right; left; reflexivity
                  | right; right; right; reflexivity ] ].
Qed.

Lemma policy_delay_same_pool c c' d :
  same_pool c c' -> policy_delay c' d -> policy_delay c d.
Proof.
  unfold same_pool, policy_delay. intros (_ & _ & H1 & H2 & H3 & _).
  rewrite H1, H2, H3. tauto.
Qed.

Lemma retry_loop_bounded {A} (f : M A) :
  quiet f ->
  forall n rc st,
    n = O \/ rc + Z.of_nat n = max_retries (self st) + 1 ->
    let st' := snd (retry_loop (counted f) n rc st) in
    pool_step st st'
    /\ exists l,
        sleep_log st' = (sleep_log st ++ l)%list
        /\ Forall (policy_delay (self st)) l
        /\ (calls st <= calls st')%nat
        /\ (calls st' - calls st <= n)%nat
        /\ (length l <= calls st' - calls st - 1)%nat
        /\ ((1 <= n)%nat -> (calls st < calls st')%nat).
Proof.
  intros Hq. induction n as [|n IH]; intros rc st Hn; cbv zeta.
  - simpl. split; [apply pool_step_refl|]. exists [].
    rewrite app_nil_r. repeat split; first [apply Forall_nil | assumption | lia | simpl; lia | reflexivity].
  - destruct Hn as [Hn | Hn]; [discriminate|].
    destruct (counted f st) as [[a | e] st1] eqn:E.
    + rewrite (retry_loop_return _ _ _ _ _ _ E). simpl.
      destruct (Hq (tick st)) as (Q1 & Q2 & Q3).
      unfold counted in E. rewrite E in Q1, Q2, Q3. simpl in Q1, Q2, Q3.
      split; [unfold pool_step; rewrite Q1; apply same_pool_refl|].
      exists []. rewrite app_nil_r, Q3. repeat split; first [apply Forall_nil | assumption | lia | simpl; lia | reflexivity].
    + rewrite (retry_loop_raise _ _ _ _ _ _ E).
      destruct (Hq (tick st)) as (Q1 & Q2 & Q3).
      unfold counted in E. rewrite E in Q1, Q2, Q3. simpl in Q1, Q2, Q3.
      pose proof (handle_error_cases e rc (max_retries (self st1)) st1) as H.
      cbv zeta in H.
      destruct (_handle_error e rc (max_retries (self st1)) st1) as [o st2].
      simpl in H. destruct H as (P & C & [(Ho & Hs) | [(Ho & Hlt & d & Hd & Hp) | ((e' & Ho) & Hs)]]).
      * subst o st2. simpl.
        split; [unfold pool_step; rewrite Q1; apply same_pool_refl|].
        exists []. rewrite app_nil_r, Q3. repeat split; first [apply Forall_nil | assumption | lia | simpl; lia | reflexivity].
      * subst o.
        assert (Pst : pool_step st st2).
        { unfold pool_step in *. rewrite <- Q1. exact P. }
        destruct (IH (rc + 1) st2) as (P' & l & L1 & L2 & L3 & L4 & L5 & L6).
        { right. destruct Pst as (_ & Hm & _). rewrite Hm. lia. }
        assert (Hn1 : (1 <= n)%nat) by (rewrite Q1 in Hlt; lia).
        specialize (L6 Hn1).
        split; [eapply pool_step_trans; eassumption|].
        exists (d :: l). rewrite L1, Hd, Q2, <- app_assoc. simpl.
        split; [reflexivity|].
        split.
        { constructor.
          - rewrite <- Q1. exact Hp.
          - eapply Forall_impl; [|exact L2].
            intros x Hx. eapply policy_delay_same_pool; eassumption. }
        rewrite C, Q3 in *. simpl. repeat split; try lia.
      * subst o. simpl.
        split; [unfold pool_step in *; rewrite <- Q1; exact P|].
        exists []. rewrite app_nil_r, Hs, Q2, C, Q3. repeat split; first [apply Forall_nil | assumption | lia | simpl; lia | reflexivity].
Qed.

(** X1.  Whatever a quiet request function does, one operation of the
    wrapper calls it at most [max_retries + 1] times, sleeps at most
    once between two calls (so fewer times than it calls), only for
    durations of the retry policy, and leaves the pool as it is. *)
Theorem retries_are_bounded {A} (request_func : M A) st :
  quiet request_func ->
  let st' := snd (_make_request_with_retry (counted request_func) st) in
  let attempts := (calls st' - calls st)%nat in
  same_pool (self st) (self st')
  /\ (calls st <= calls st')%nat
  /\ (attempts <= Z.to_nat (max_retries (self st) + 1))%nat
  /\ exists sleeps,
      sleep_log st' = (sleep_log st ++ sleeps)%list
      /\ (length sleeps <= attempts - 1)%nat
      /\ Forall (policy_delay (self st)) sleeps.
Proof.
  intros Hq. cbv zeta. unfold _make_request_with_retry, bind, get_self.
  destruct (retry_loop_bounded request_func Hq
              (Z.to_nat (max_retries (self st) + 1)) 0 st)
    as (P & l & L1 & L2 & L3 & L4 & L5 & _).
  { destruct (Z.to_nat (max_retries (self st) + 1)) eqn:E; [left; reflexivity|].
    right. lia. }
  split; [exact P|]. split; [exact L3|]. split; [exact L4|].
  exists l. auto.
Qed.




















(* ================================================================ *)
(** ** Further properties of the request functions *)
(* ================================================================ *)

Lemma upload_completes path st key data resp c t upload_response :
  _get_current_api_key st = (Return key, st) ->
  Py.assoc path (files st) = Some data ->
  transport (length (http_log st)) (start_request_of path key data) = inr resp ->
  headers_get "X-Goog-Upload-URL" (resp_headers resp) = Some (String c t) ->
  transport (S (length (http_log st)))
            (transfer_request_of (String c t) key data) = inr upload_response ->
  _upload_image_to_gemini path st
  = (Return (file_uri_of upload_response),
     with_post (transfer_request_of (String c t) key data)
       (with_post (start_request_of path key data) st)).
Proof.
  intros Hk Hd Ht Hh Hu.
  unfold _upload_image_to_gemini, try_except, bind, os_path_getsize.
  rewrite Hd, Hk. unfold requests_post at 1.
  unfold start_request_of, transfer_request_of in *.
  rewrite Ht, Hh. unfold read_file. cbn [files with_post]. rewrite Hd.
  unfold _get_current_api_key, bind, get_self, lift in Hk |- *.
  cbn [self with_post].
  destruct (Py.list_getitem (api_keys (self st)) (current_key_index (self st)))
    as [key'|e']; inversion Hk; subst key'.
  unfold requests_post. cbn [http_log with_post].
  rewrite length_app, Nat.add_1_r. rewrite Hu.
  unfold file_uri_of.
  destruct (resp_json upload_response) as [info|]; [|reflexivity].
  destruct (Py.dict_get info "file" (JObj [])) as [f|]; [|reflexivity].
  destruct (Py.dict_get f "uri" JNull); reflexivity.
Qed.

Lemma upload_missing_file path st :
  missing st path ->
  _upload_image_to_gemini path st = (Return JNull, st).
Proof.
  intros [Hf Hd]. unfold _upload_image_to_gemini, try_except, bind, os_path_getsize.
  rewrite Hf, Hd. reflexivity.
Qed.

Lemma key_after_posts st key r1 r2 :
  _get_current_api_key st = (Return key, st) ->
  _get_current_api_key (with_post r2 (with_post r1 st))
  = (Return key, with_post r2 (with_post r1 st)).
Proof.
  unfold _get_current_api_key, bind, get_self, lift. cbn [self with_post].
  intros H.
  destruct (Py.list_getitem (api_keys (self st)) (current_key_index (self st)));
    inversion H; subst. reflexivity.
Qed.

(** X5.  A complete analysis.  When the start post is answered with an
    upload target, the transfer post with a file reference and the
    analysis post with a candidate, [analyze_image_with_prompt] returns
    the trimmed text after exactly these three posts, in this order and
    with one credential, without sleeping or touching the client or
    the files.  The transfer post goes to the target of the start
    response, carries the bytes of the file and the length the start
    post announced; the analysis post carries the reference of the
    transfer response and the MIME type the start post announced. *)
Theorem analysis_takes_three_posts
        path prompt st key data r1 c t r2 r3 result text :
  0 <= max_retries (self st) ->
  _get_current_api_key st = (Return key, st) ->
  Py.assoc path (files st) = Some data ->
  let start := start_request_of path key data in
  let transfer := transfer_request_of (String c t) key data in
  let analysis :=
    analysis_request key (_get_mime_type path) (file_uri_of r2) prompt in
  transport (length (http_log st)) start = inr r1 ->
  headers_get "X-Goog-Upload-URL" (resp_headers r1) = Some (String c t) ->
  transport (S (length (http_log st))) transfer = inr r2 ->
  Py.truthy (file_uri_of r2) = true ->
  transport (S (S (length (http_log st)))) analysis = inr r3 ->
  resp_json r3 = Return result ->
  first_candidate_text result = Return text ->
  exists st',
    analyze_image_with_prompt path prompt st = (Return text, st')
    /\ http_log st' = (http_log st ++ [start; transfer; analysis])%list
    /\ self st' = self st
    /\ sleep_log st' = sleep_log st
    /\ files st' = files st
    /\ req_url transfer = String c t
    /\ req_body transfer = BodyData data
    /\ headers_get "Content-Length" (req_headers transfer)
       = headers_get "X-Goog-Upload-Header-Content-Length" (req_headers start)
    /\ headers_get "X-Goog-Upload-Header-Content-Type" (req_headers start)
       = Some (_get_mime_type path).
Proof.
  intros Hm Hk Hd start transfer analysis H1 Hh H2 Hu H3 Hj Hf.
  eexists. split.
  - apply make_request_returns; [exact Hm|].
    unfold _analyze_image_with_prompt_request. unfold bind at 1.
    rewrite (upload_completes path st key data r1 c t r2 Hk Hd H1 Hh H2).
    rewrite Hu. cbn [negb]. unfold bind at 1.
    rewrite (key_after_posts st key _ _ Hk).
    unfold bind at 1. unfold requests_post. cbn [http_log with_post].
    rewrite !length_app. cbn [length].
    replace (length (http_log st) + 1 + 1)%nat with (S (S (length (http_log st))))
      by lia.
    fold start transfer analysis. rewrite H3.
    unfold bind, lift. rewrite Hj, Hf. reflexivity.
  - cbn [http_log self sleep_log files with_post].
    rewrite <- !app_assoc. repeat split.
Qed.

(** X6.  A path that names nothing, neither a file nor a directory:
    [analyze_image_with_prompt] raises [UploadFailed] without posting
    anything, sleeping or touching the client. *)
Theorem missing_image_fails_without_post path prompt st :
  0 <= max_retries (self st) ->
  missing st path ->
  analyze_image_with_prompt path prompt st = (Raise UploadFailed, st).
Proof.
  intros Hm Hd. apply analyze_upload_failed; [exact Hm|].
  apply upload_missing_file. exact Hd.
Qed.

(** X7.  A transfer response without a usable file reference (no JSON
    body, no ["file"] member that is an object, no ["uri"] in it, or a
    reference that is null or empty): [analyze_image_with_prompt]
    raises [UploadFailed] after the start and the transfer post, and
    the analysis post is never made. *)
Theorem missing_file_reference_fails_after_upload
        path prompt st key data r1 c t r2 :
  0 <= max_retries (self st) ->
  _get_current_api_key st = (Return key, st) ->
  Py.assoc path (files st) = Some data ->
  let start := start_request_of path key data in
  let transfer := transfer_request_of (String c t) key data in
  transport (length (http_log st)) start = inr r1 ->
  headers_get "X-Goog-Upload-URL" (resp_headers r1) = Some (String c t) ->
  transport (S (length (http_log st))) transfer = inr r2 ->
  Py.truthy (file_uri_of r2) = false ->
  exists st',
    analyze_image_with_prompt path prompt st = (Raise UploadFailed, st')
    /\ http_log st' = (http_log st ++ [start; transfer])%list
    /\ self st' = self st
    /\ sleep_log st' = sleep_log st.
Proof.
  intros Hm Hk Hd start transfer H1 Hh H2 Hu.
  eexists. split.
  - apply make_request_fails_fast; [exact Hm | | reflexivity].
    unfold _analyze_image_with_prompt_request. unfold bind at 1.
    rewrite (upload_completes path st key data r1 c t r2 Hk Hd H1 Hh H2).
    rewrite Hu. reflexivity.
  - cbn [http_log self sleep_log with_post]. rewrite <- app_assoc. repeat split.
Qed.




Lemma getitem_error j k e :
  In k ["candidates"; "content"; "parts"; "text"] ->
  Py.getitem j k = Raise e -> recognized (exn_msg e) = false.
Proof.
  intros Hk H. unfold Py.getitem in H.
  destruct j; try (inversion H; subst; reflexivity).
  destruct (Py.assoc k members); [discriminate|].
  inversion H; subst. simpl in Hk.
  destruct Hk as [<- | [<- | [<- | [<- | []]]]]; reflexivity.
Qed.

Lemma getitem0_error j e :
  Py.getitem0 j = Raise e -> recognized (exn_msg e) = false.
Proof.
  unfold Py.getitem0. intros H.
  destruct j as [| | |[|c s]|[|x l]|]; try discriminate;
    inversion H; subst; reflexivity.
Qed.

Lemma str_strip_error j e :
  Py.str_strip j = Raise e -> recognized (exn_msg e) = false.
Proof.
  unfold Py.str_strip. intros H.
  destruct j; try discriminate; inversion H; subst; reflexivity.
Qed.

(** No error of the parse of a text response carries a retry signal. *)
Lemma first_candidate_text_error result e :
  first_candidate_text result = Raise e -> recognized (exn_msg e) = false.
Proof.
  unfold first_candidate_text, obind. intros H.
  destruct (Py.getitem result "candidates") as [a1|e1] eqn:E1;
    [|inversion H; subst; eapply getitem_error; [|exact E1]; simpl; tauto].
  destruct (Py.getitem0 a1) as [a2|e2] eqn:E2;
    [|inversion H; subst; eapply getitem0_error; exact E2].
  destruct (Py.getitem a2 "content") as [a3|e3] eqn:E3;
    [|inversion H; subst; eapply getitem_error; [|exact E3]; simpl; tauto].
  destruct (Py.getitem a3 "parts") as [a4|e4] eqn:E4;
    [|inversion H; subst; eapply getitem_error; [|exact E4]; simpl; tauto].
  destruct (Py.getitem0 a4) as [a5|e5] eqn:E5;
    [|inversion H; subst; eapply getitem0_error; exact E5].
  destruct (Py.getitem a5 "text") as [a6|e6] eqn:E6;
    [|inversion H; subst; eapply getitem_error; [|exact E6]; simpl; tauto].
  eapply str_strip_error. exact H.
Qed.

(** X9.  A text response that passed the status check but has no
    first candidate text (no ["candidates"], an empty list, a missing
    member on the way, a text that is not a string) makes
    [generate_text] raise the lookup error of the parse after a single
    post: the error carries no retry signal, so nothing is retried. *)
Theorem malformed_text_response_fails_fast prompt st key resp result e :
  0 <= max_retries (self st) ->
  _get_current_api_key st = (Return key, st) ->
  transport (length (http_log st)) (text_request key prompt) = inr resp ->
  resp_json resp = Return result ->
  first_candidate_text result = Raise e ->
  generate_text prompt st = (Raise e, with_post (text_request key prompt) st)
  /\ recognized (exn_msg e) = false
  /\ (result = JObj [] -> e = Py.KeyError "'candidates'")
  /\ (result = JObj [("candidates", JArr [])] -> e = Py.IndexError "list").
Proof.
  intros Hm Hk Ht Hj Hf.
  pose proof (first_candidate_text_error result e Hf) as Hu.
  split; [|split; [exact Hu|split]].
  - apply make_request_fails_fast; [exact Hm | | exact Hu].
    unfold _generate_text_request, bind. rewrite Hk.
    unfold requests_post. rewrite Ht. unfold lift. rewrite Hj, Hf. reflexivity.
  - intros ->. inversion Hf. reflexivity.
  - intros ->. inversion Hf. reflexivity.
Qed.

(* ================================================================ *)
(** ** The credentials of the environment *)
(* ================================================================ *)

Lemma str_of_Z_inj a b : PyStr.str_of_Z a = PyStr.str_of_Z b -> a = b.
Proof.
  unfold PyStr.str_of_Z. intros H.
  assert (N : forall z, Z.to_int z <> Decimal.Pos Decimal.Nil
                        /\ Z.to_int z <> Decimal.Neg Decimal.Nil).
  { intros z. split; intros E; pose proof (DecimalZ.of_to z) as O;
      rewrite E in O; simpl in O; subst z; discriminate. }
  apply DecimalZ.to_int_inj.
  assert (S : Some (Z.to_int a) = Some (Z.to_int b)).
  { rewrite <- (NilZero.isi (Z.to_int a)) by apply N.
    rewrite <- (NilZero.isi (Z.to_int b)) by apply N.
    rewrite H. reflexivity. }
  inversion S. reflexivity.
Qed.

Lemma append_inj_l (p s t : string) : p ++ s = p ++ t -> s = t.
Proof. induction p as [|a p IH]; simpl; intros H; [exact H | inversion H; auto]. Qed.

Lemma key_variable_inj i j : key_variable i = key_variable j -> i = j.
Proof. unfold key_variable. intros H. apply append_inj_l in H. apply str_of_Z_inj, H. Qed.

Lemma assoc_in {V} k (l : list (string * V)) v :
  Py.assoc k l = Some v -> In k (map fst l).
Proof.
  induction l as [|[k' v'] l IH]; simpl; [discriminate|].
  destruct (String.eqb k k') eqn:E.
  - apply String.eqb_eq in E. subst. auto.
  - auto.
Qed.

Lemma numbered_from_set env keys :
  forall i, numbered_from env i keys -> set_from env i keys.
Proof.
  induction keys as [|k rest IH]; intros i H; simpl; [exact I|].
  destruct H as (H1 & H2 & H3). auto.
Qed.

Lemma set_from_in env keys :
  forall i, set_from env i keys ->
    incl (map (fun j => key_variable (i + Z.of_nat j)) (seq 0 (length keys)))
         (map fst env).
Proof.
  induction keys as [|k rest IH]; intros i H; simpl.
  - intros x [].
  - destruct H as (_ & Hk & Hrest). intros x [<- | Hx].
    + rewrite Z.add_0_r. eapply assoc_in, Hk.
    + rewrite <- seq_shift, map_map in Hx.
      apply (IH (i + 1) Hrest).
      erewrite map_ext; [exact Hx|].
      intros j. simpl. f_equal. lia.
Qed.

(** The numbered variables that are set are bindings of the
    environment, each under another name: they are no more than the
    bindings. *)
Lemma set_from_length env i keys :
  set_from env i keys -> (length keys <= length env)%nat.
Proof.
  intros H.
  assert (L : (length (map (fun j => key_variable (i + Z.of_nat j))
                           (seq 0 (length keys)))
               <= length (map fst env))%nat).
  { apply NoDup_incl_length; [|apply set_from_in, H].
    apply NoDup_map_NoDup_ForallPairs; [|apply seq_NoDup].
    intros a b _ _ E. apply key_variable_inj in E. lia. }
  rewrite !length_map, length_seq in L. exact L.
Qed.

Lemma load_numbered_keys_run env keys :
  forall fuel i acc,
    numbered_from env i keys ->
    (length keys < fuel)%nat ->
    load_numbered_keys env fuel i acc = (acc ++ keys)%list.
Proof.
  induction keys as [|k rest IH]; intros fuel i acc H Hf.
  - destruct fuel as [|fuel]; [simpl in Hf; lia|].
    cbn [load_numbered_keys]. rewrite app_nil_r.
    cbn [numbered_from] in H. unfold unset, key_variable in H.
    destruct H as [-> | ->]; reflexivity.
  - destruct fuel as [|fuel]; [simpl in Hf; lia|].
    destruct H as (Hne & Hk & Hrest). cbn [load_numbered_keys].
    unfold key_variable in Hk. rewrite Hk.
    destruct k as [|c t]; [congruence|].
    rewrite (IH fuel (i + 1) (acc ++ [String c t])%list Hrest) by (simpl in Hf; lia).
    rewrite <- app_assoc. reflexivity.
Qed.

(** The scan describes every environment. *)
Lemma scan_within env :
  forall fuel i, exists keys,
    numbered_from env i keys \/ (length keys = fuel /\ set_from env i keys).
Proof.
  induction fuel as [|fuel IH]; intros i.
  - exists []. right. split; [reflexivity | exact I].
  - destruct (os_getenv env (key_variable i)) as [[|c t]|] eqn:E.
    + exists []. left. right. exact E.
    + destruct (IH (i + 1)) as (rest & Hr).
      exists (String c t :: rest).
      destruct Hr as [Hr | [Hl Hr]].
      * left. split; [discriminate|]. split; [exact E | exact Hr].
      * right. split; [simpl; lia|].
        split; [discriminate|]. split; [exact E | exact Hr].
    + exists []. left. left. exact E.
Qed.

Lemma numbered_from_exists env i : exists keys, numbered_from env i keys.
Proof.
  destruct (scan_within env (S (length env)) i) as (keys & [H | [Hl H]]).
  - exists keys. exact H.
  - apply set_from_length in H. lia.
Qed.

Lemma numbered_from_unique env keys :
  forall i keys', numbered_from env i keys -> numbered_from env i keys' ->
                  keys = keys'.
Proof.
  induction keys as [|k rest IH]; intros i [|k' rest'] H H'; simpl in *.
  - reflexivity.
  - destruct H' as (Hne & Hk & _). unfold unset in H.
    destruct H as [H | H]; rewrite H in Hk; [discriminate|].
    inversion Hk. congruence.
  - destruct H as (Hne & Hk & _). unfold unset in H'.
    destruct H' as [H' | H']; rewrite H' in Hk; [discriminate|].
    inversion Hk. congruence.
  - destruct H as (_ & Hk & Hr). destruct H' as (_ & Hk' & Hr').
    rewrite Hk in Hk'. inversion Hk'; subst. f_equal. eapply IH; eassumption.
Qed.

Lemma set_from_nonempty env keys :
  forall i, set_from env i keys -> Forall (fun k => k <> EmptyString) keys.
Proof.
  induction keys as [|k rest IH]; intros i H; constructor.
  - apply H.
  - apply (IH (i + 1)). apply H.
Qed.

Lemma numbered_keys_scan env :
  exists keys,
    numbered_from env 1 keys
    /\ (forall keys', numbered_from env 1 keys' -> keys' = keys)
    /\ (forall fuel, (length env < fuel)%nat ->
          load_numbered_keys env fuel 1 [] = keys)
    /\ (keys <> [] -> _load_api_keys env = keys)
    /\ (keys = [] -> _load_api_keys env = single_key env)
    /\ Forall (fun k => k <> EmptyString) (_load_api_keys env).
Proof.
  destruct (numbered_from_exists env 1) as (keys & H).
  exists keys.
  assert (Hl : (length keys <= length env)%nat)
    by (eapply set_from_length, numbered_from_set, H).
  assert (Hrun : forall fuel, (length env < fuel)%nat ->
                   load_numbered_keys env fuel 1 [] = keys).
  { intros fuel Hf. rewrite (load_numbered_keys_run env keys fuel 1 [] H) by lia.
    reflexivity. }
  assert (E1 : keys <> [] -> _load_api_keys env = keys).
  { intros Hne. unfold _load_api_keys. rewrite Hrun by lia.
    destruct keys; [congruence | reflexivity]. }
  assert (E2 : keys = [] -> _load_api_keys env = single_key env).
  { intros ->. unfold _load_api_keys. rewrite Hrun by lia. reflexivity. }
  split; [exact H|].
  split; [intros keys' H'; symmetry; eapply numbered_from_unique; eassumption|].
  split; [exact Hrun|]. split; [exact E1|]. split; [exact E2|].
  destruct keys as [|k rest].
  - rewrite E2 by reflexivity. unfold single_key.
    destruct (os_getenv env "GEMINI_API_KEY") as [[|c t]|]; repeat constructor.
    discriminate.
  - rewrite E1 by discriminate.
    eapply set_from_nonempty, numbered_from_set, H.
Qed.

(** X10.  In every environment the scan of [_load_api_keys] ends: there
    is exactly one list [keys] such that the variables
    [GEMINI_API_KEY_1], [GEMINI_API_KEY_2], ... hold its strings, none
    empty, and the next variable is unset or empty.  The loop finds
    that list whenever it may iterate more often than the environment
    has bindings, so variables behind the first gap are never read.
    [_load_api_keys] returns the list, or, when it is empty, the
    single credential [GEMINI_API_KEY] if that one is set and not
    empty.  No key it returns is empty. *)
Theorem numbered_keys_are_scanned_in_order env :
  exists keys,
    numbered_from env 1 keys
    /\ (forall keys', numbered_from env 1 keys' -> keys' = keys)
    /\ (forall fuel, (length env < fuel)%nat ->
          load_numbered_keys env fuel 1 [] = keys)
    /\ (keys <> [] -> _load_api_keys env = keys)
    /\ (keys = [] -> _load_api_keys env = single_key env)
    /\ Forall (fun k => k <> EmptyString) (_load_api_keys env).
Proof. exact (numbered_keys_scan env). Qed.

Lemma load_api_keys_empty env :
  _load_api_keys env = [] <->
  unset env (key_variable 1) /\ unset env "GEMINI_API_KEY".
Proof.
  destruct (numbered_keys_scan env) as (keys & H & _ & _ & E1 & E2 & _).
  destruct keys as [|k rest].
  - rewrite E2 by reflexivity. cbn [numbered_from] in H.
    unfold single_key. unfold unset at 2.
    destruct (os_getenv env "GEMINI_API_KEY") as [[|c t]|].
    + split; [intros _; split; [exact H | right; reflexivity] | reflexivity].
    + split; [discriminate | intros [_ [K | K]]; discriminate].
    + split; [intros _; split; [exact H | left; reflexivity] | reflexivity].
  - rewrite E1 by discriminate. destruct H as (Hne & Hk & _).
    split; [discriminate|].
    intros [[K | K] _]; rewrite K in Hk; inversion Hk; congruence.
Qed.

Lemma load_api_keys_nonempty_keys env :
  Forall (fun k => k <> EmptyString) (_load_api_keys env).
Proof. destruct (numbered_keys_scan env) as (keys & H). apply H. Qed.

(** X11.  Construction from the environment.  A client that is
    constructed holds the loaded keys, none empty, starts at index 0
    and is well formed; an integer variable that is not set takes its
    default (3 retries, delays of 2000, 3000 and 2000 ms).
    Construction fails exactly when an integer does not parse or
    neither [GEMINI_API_KEY_1] nor [GEMINI_API_KEY] is set to a string
    that is not empty; with the four integers unset the failure is the
    [ValueError] of the missing keys. *)
Theorem client_of_environment py_int env :
  (forall c,
      gemini_client py_int env = Return c ->
      api_keys c = _load_api_keys env
      /\ Forall (fun k => k <> EmptyString) (api_keys c)
      /\ current_key_index c = 0
      /\ wf_client c
      /\ (os_getenv env "MAX_RETRIES" = None -> max_retries c = 3)
      /\ (os_getenv env "RETRY_DELAY_429" = None -> retry_delay_429 c = 2000)
      /\ (os_getenv env "RETRY_DELAY_503" = None -> retry_delay_503 c = 3000)
      /\ (os_getenv env "RETRY_DELAY_500" = None -> retry_delay_500 c = 2000))
  /\ (unset env (key_variable 1) -> unset env "GEMINI_API_KEY" ->
      exists e, gemini_client py_int env = Raise e)
  /\ (unset env (key_variable 1) -> unset env "GEMINI_API_KEY" ->
      os_getenv env "MAX_RETRIES" = None ->
      os_getenv env "RETRY_DELAY_429" = None ->
      os_getenv env "RETRY_DELAY_503" = None ->
      os_getenv env "RETRY_DELAY_500" = None ->
      gemini_client py_int env
      = Raise (Exn "ValueError" "No Gemini API keys found in environment variables"))
  /\ ((exists mr d1 d2 d3,
          getenv_int py_int env "MAX_RETRIES" 3 = Return mr
          /\ getenv_int py_int env "RETRY_DELAY_429" 2000 = Return d1
          /\ getenv_int py_int env "RETRY_DELAY_503" 3000 = Return d2
          /\ getenv_int py_int env "RETRY_DELAY_500" 2000 = Return d3) ->
      ~ (unset env (key_variable 1) /\ unset env "GEMINI_API_KEY") ->
      exists c, gemini_client py_int env = Return c).
Proof.
  split; [|split; [|split]].
  - intros c H. unfold gemini_client, obind, getenv_int in H.
    destruct (os_getenv env "MAX_RETRIES") as [s1|];
      destruct (os_getenv env "RETRY_DELAY_429") as [s2|];
      destruct (os_getenv env "RETRY_DELAY_503") as [s3|];
      destruct (os_getenv env "RETRY_DELAY_500") as [s4|];
      repeat match type of H with
             | match py_int ?s with _ => _ end = _ =>
                 destruct (py_int s); [|discriminate]
             end;
      unfold __init__ in H;
      pose proof (load_api_keys_nonempty_keys env) as Hne;
      destruct (_load_api_keys env) as [|k ks] eqn:E; try discriminate;
      inversion H; subst c; clear H; cbn;
      (split; [reflexivity|]); (split; [exact Hne|]); (split; [reflexivity|]);
      (split; [split; [discriminate | unfold valid_index; simpl; lia]|]);
      repeat split; intros; try reflexivity; discriminate.
  - intros H1 H2.
    assert (E : _load_api_keys env = []) by (apply load_api_keys_empty; auto).
    unfold gemini_client, obind. rewrite E.
    destruct (getenv_int py_int env "MAX_RETRIES" 3); [|eauto].
    destruct (getenv_int py_int env "RETRY_DELAY_429" 2000); [|eauto].
    destruct (getenv_int py_int env "RETRY_DELAY_503" 3000); [|eauto].
    destruct (getenv_int py_int env "RETRY_DELAY_500" 2000); [|eauto].
    simpl. eauto.
  - intros H1 H2 M1 M2 M3 M4.
    assert (E : _load_api_keys env = []) by (apply load_api_keys_empty; auto).
    unfold gemini_client, obind, getenv_int. rewrite E, M1, M2, M3, M4.
    reflexivity.
  - intros (mr & d1 & d2 & d3 & M1 & M2 & M3 & M4) Hk.
    unfold gemini_client, obind. rewrite M1, M2, M3, M4.
    destruct (_load_api_keys env) as [|k ks] eqn:E.
    + exfalso. apply Hk. apply load_api_keys_empty. exact E.
    + simpl. eauto.
Qed.

(* ================================================================ *)
(** ** Callers of the client *)
(* ================================================================ *)

Lemma posts_only_refl P st : posts_only P st st.
Proof. exists []. rewrite app_nil_r. split; [reflexivity | constructor]. Qed.

Lemma posts_only_trans P a b c :
  posts_only P a b -> posts_only P b c -> posts_only P a c.
Proof.
  intros (l1 & H1 & F1) (l2 & H2 & F2). exists (l1 ++ l2)%list.
  rewrite H2, H1, app_assoc. split; [reflexivity|].
  apply Forall_app. split; assumption.
Qed.

Lemma posts_only_sleep P st ms : posts_only P st (with_sleep ms st).
Proof. exact (posts_only_refl P st). Qed.

Lemma posts_only_file P st path data : posts_only P st (with_file path data st).
Proof. exact (posts_only_refl P st). Qed.

Lemma posts_only_rotate P st :
  api_keys (self st) <> [] ->
  posts_only P st (with_index (rotate (Z.of_nat (length (api_keys (self st))))
                                      (current_key_index (self st))) st).
Proof. intros _. exact (posts_only_refl P st). Qed.

Lemma posts_only_post (P : Request -> Prop) req :
  P req -> preserves (posts_only P) (requests_post req).
Proof.
  intros HP st. unfold requests_post.
  destruct (transport _ _); simpl; exists [req];
    (split; [reflexivity | constructor; [exact HP | constructor]]).
Qed.

Lemma image_request_posts_to_imagen prompt sc filename ar :
  preserves (posts_only to_imagen) (_generate_image_request prompt sc filename ar).
Proof.
  unfold _generate_image_request.
  apply preserves_bind; [apply posts_only_trans | |intros key].
  { apply preserves_current_key; [apply posts_only_refl | apply posts_only_trans]. }
  apply preserves_bind; [apply posts_only_trans | |intros response].
  { apply posts_only_post. reflexivity. }
  apply preserves_bind; [apply posts_only_trans | |intros result].
  { apply preserves_lift, posts_only_refl. }
  apply preserves_bind; [apply posts_only_trans | |intros predictions].
  { apply preserves_lift, posts_only_refl. }
  apply preserves_bind; [apply posts_only_trans | |intros items].
  { apply preserves_lift, posts_only_refl. }
  apply preserves_bind; [apply posts_only_trans | |intros paths].
  { apply preserves_save_images;
      [apply posts_only_refl | apply posts_only_trans | apply posts_only_file]. }
  destruct (sc =? 1).
  - apply preserves_bind; [apply posts_only_trans | |intros p].
    + apply preserves_lift, posts_only_refl.
    + apply preserves_ret, posts_only_refl.
  - apply preserves_ret, posts_only_refl.
Qed.

Lemma generate_image_posts_to_imagen prompt sc filename ar :
  preserves (posts_only to_imagen) (generate_image prompt sc filename ar).
Proof.
  apply preserves_make_request;
    [ apply posts_only_refl | apply posts_only_trans | apply posts_only_sleep
    | apply posts_only_rotate | apply image_request_posts_to_imagen ].
Qed.

Lemma pattern_image_of_run culture details filename sc ar st :
  pattern_image_of culture details filename sc ar st
  = match generate_image (pattern_prompt culture details) sc
                         (Some (pattern_filename culture filename)) ar st with
    | (Return result, st') => (Return (Some result), st')
    | (Raise _, st') => (Return None, st')
    end.
Proof.
  unfold pattern_image_of, try_except, bind, ret.
  destruct (generate_image _ _ _ _ st) as [[r|e] st']; reflexivity.
Qed.

Lemma culture_details_returns culture st :
  exists details,
    generate_culture_details culture st
    = (Return details, snd (generate_text (culture_prompt culture) st)).
Proof.
  unfold generate_culture_details, try_except, bind, ret.
  destruct (generate_text (culture_prompt culture) st) as [[d|e] st1]; simpl; eauto.
Qed.

(** X12.  For a culture named in ASCII, [generate_pattern_image]
    never raises.  It takes the details of the culture from the cache,
    under the name in lower case, or, when the cache has none, from
    [generate_culture_details], and then stores them under that name;
    after that it is [generate_image] on the prompt made of these
    details, in the state the details left: its paths, or [None] when
    [generate_image] raises.  The cache keeps its earlier entries.
    When the cache already has the details, every post of the call
    goes to the image endpoint.  So after a first call, whatever its
    outcome (also when the details came back empty because the text
    generation failed), no later call for the same culture, in any
    case of letters, generates the details again. *)
Theorem pattern_details_are_generated_once cache culture filename sc ar st :
  PyStr.is_ascii culture = true ->
  exists details s1 cache',
    match Py.assoc (PyStr.lower culture) cache with
    | Some d => details = d /\ s1 = st /\ cache' = cache
    | None => generate_culture_details culture st = (Return details, s1)
              /\ cache' = (PyStr.lower culture, details) :: cache
    end
    /\ generate_pattern_image cache culture filename sc ar st
       = match generate_image (pattern_prompt culture details) sc
                 (Some (pattern_filename culture filename)) ar s1 with
         | (Return paths, st') => (Return (Some paths, cache'), st')
         | (Raise _, st') => (Return (None, cache'), st')
         end
    /\ Py.assoc (PyStr.lower culture) cache' = Some details
    /\ (forall k v, Py.assoc k cache = Some v -> Py.assoc k cache' = Some v)
    /\ ((exists d, Py.assoc (PyStr.lower culture) cache = Some d) ->
        posts_only to_imagen st
          (snd (generate_pattern_image cache culture filename sc ar st)))
    /\ (forall culture2 filename2 sc2 ar2 s,
          PyStr.is_ascii culture2 = true ->
          PyStr.lower culture2 = PyStr.lower culture ->
          let second := generate_pattern_image cache' culture2 filename2 sc2 ar2 s in
          posts_only to_imagen s (snd second)
          /\ exists result2, fst second = Return (result2, cache')).
Proof.
  intros _.
  assert (Hit : forall c details culture1 filename1 sc1 ar1 s,
            Py.assoc (PyStr.lower culture1) c = Some details ->
            generate_pattern_image c culture1 filename1 sc1 ar1 s
            = match generate_image (pattern_prompt culture1 details) sc1
                      (Some (pattern_filename culture1 filename1)) ar1 s with
              | (Return paths, s') => (Return (Some paths, c), s')
              | (Raise _, s') => (Return (None, c), s')
              end).
  { intros c details culture1 filename1 sc1 ar1 s Hc.
    unfold generate_pattern_image. rewrite Hc.
    unfold bind at 1. unfold ret at 1. cbn [fst snd].
    unfold bind. rewrite pattern_image_of_run.
    destruct (generate_image _ _ _ _ s) as [[r|e] s']; reflexivity. }
  assert (Posts : forall c details culture1 filename1 sc1 ar1 s,
            Py.assoc (PyStr.lower culture1) c = Some details ->
            posts_only to_imagen s
              (snd (generate_pattern_image c culture1 filename1 sc1 ar1 s))
            /\ exists result,
                fst (generate_pattern_image c culture1 filename1 sc1 ar1 s)
                = Return (result, c)).
  { intros c details culture1 filename1 sc1 ar1 s Hc.
    rewrite (Hit c details culture1 filename1 sc1 ar1 s Hc).
    pose proof (generate_image_posts_to_imagen
                  (pattern_prompt culture1 details) sc1
                  (Some (pattern_filename culture1 filename1)) ar1 s) as P.
    destruct (generate_image _ _ _ _ s) as [[r|e] s']; simpl in *;
      (split; [exact P | eexists; reflexivity]). }
  assert (Second : forall c details,
            Py.assoc (PyStr.lower culture) c = Some details ->
            forall culture2 filename2 sc2 ar2 s,
              PyStr.is_ascii culture2 = true ->
              PyStr.lower culture2 = PyStr.lower culture ->
              let second := generate_pattern_image c culture2 filename2 sc2 ar2 s in
              posts_only to_imagen s (snd second)
              /\ exists result2, fst second = Return (result2, c)).
  { intros c details Hc culture2 filename2 sc2 ar2 s _ Hl. cbv zeta.
    rewrite <- Hl in Hc. eapply Posts, Hc. }
  destruct (Py.assoc (PyStr.lower culture) cache) as [d|] eqn:Hc.
  - exists d, st, cache.
    split; [repeat split|]. split; [apply Hit, Hc|]. split; [exact Hc|].
    split; [auto|]. split; [|eapply Second, Hc].
    intros _. eapply Posts, Hc.
  - destruct (culture_details_returns culture st) as (details & Hd).
    set (s1 := snd (generate_text (culture_prompt culture) st)) in *.
    set (c1 := (PyStr.lower culture, details) :: cache).
    assert (H1 : Py.assoc (PyStr.lower culture) c1 = Some details).
    { unfold c1. simpl. rewrite String.eqb_refl. reflexivity. }
    exists details, s1, c1.
    split; [split; [exact Hd | reflexivity]|]. split; [|split; [exact H1|split]].
    + unfold generate_pattern_image. rewrite Hc.
      unfold bind at 1. unfold bind at 1. rewrite Hd. unfold ret at 1.
      cbn [fst snd]. unfold bind. rewrite pattern_image_of_run. fold c1.
      destruct (generate_image _ _ _ _ s1) as [[r|e] s']; reflexivity.
    + intros k v Hk. unfold c1. simpl.
      destruct (String.eqb k (PyStr.lower culture)) eqn:E; [|exact Hk].
      apply String.eqb_eq in E. subst k. congruence.
    + split; [intros (d & Hd'); discriminate | eapply Second, H1].
Qed.

Lemma make_request_no_attempt {A} (request_func : M A) st :
  max_retries (self st) < 0 ->
  _make_request_with_retry request_func st
  = (Raise (ExhaustedRetries (max_retries (self st))), st).
Proof.
  intros Hm. unfold _make_request_with_retry, bind, get_self.
  replace (Z.to_nat (max_retries (self st) + 1)) with O by lia.
  reflexivity.
Qed.

(** X13.  For a culture named in ASCII, [generate_cultural_note]
    never raises.  The note is the text of [generate_text], which has
    no white space at either end, or, when [generate_text] raises, the
    placeholder that quotes the message of the error and names the
    culture in title case; with a negative retry limit it is the
    placeholder of the exhausted retries and nothing is posted. *)
Theorem cultural_note_never_raises culture st :
  PyStr.is_ascii culture = true ->
  exists note st',
    generate_cultural_note culture st = (Return note, st')
    /\ (generate_text (note_prompt culture) st = (Return note, st')
        /\ PyStr.strip note = note /\ trimmed note
        \/ exists e,
            generate_text (note_prompt culture) st = (Raise e, st')
            /\ note = "[Gemini API error: " ++ exn_msg e
                      ++ "] Placeholder note for " ++ PyStr.title culture ++ ".")
    /\ (max_retries (self st) < 0 ->
        st' = st
        /\ note = "[Gemini API error: Failed after "
                  ++ PyStr.str_of_Z (max_retries (self st))
                  ++ " retry attempts] Placeholder note for "
                  ++ PyStr.title culture ++ ".").
Proof.
  intros _. unfold generate_cultural_note, try_except.
  destruct (generate_text (note_prompt culture) st) as [[note|e] st1] eqn:G.
  - exists note, st1. split; [reflexivity|]. split.
    + left. split; [reflexivity|].
      split; [eapply generate_text_stripped, G | eapply generate_text_trimmed, G].
    + intros Hm. unfold generate_text in G.
      rewrite make_request_no_attempt in G by exact Hm. discriminate.
  - eexists _, st1. split; [reflexivity|]. split.
    + right. exists e. split; reflexivity.
    + intros Hm. unfold generate_text in G.
      rewrite make_request_no_attempt in G by exact Hm.
      inversion G; subst. split; [reflexivity|].
      unfold ExhaustedRetries. cbn [exn_msg]. rewrite !append_assoc. reflexivity.
Qed.

(* ---------------------------------------------------------------- *)
(** *** The culture generator *)
(* ---------------------------------------------------------------- *)

Lemma from_first_absent c s :
  PyStr.mem_char c s = false -> from_first c s = None.
Proof.
  induction s as [|a t IH]; simpl; [reflexivity|].
  intros H. apply Bool.orb_false_iff in H as [H1 H2].
  rewrite Ascii.eqb_sym, H1. apply IH, H2.
Qed.

Lemma from_first_app c pre rest :
  PyStr.mem_char c pre = false ->
  from_first c (pre ++ String c rest) = Some (String c rest).
Proof.
  induction pre as [|a t IH]; simpl.
  - intros _. rewrite Ascii.eqb_refl. reflexivity.
  - intros H. apply Bool.orb_false_iff in H as [H1 H2].
    rewrite Ascii.eqb_sym, H1. apply IH, H2.
Qed.

Lemma upto_last_absent c s :
  PyStr.mem_char c s = false -> upto_last c s = None.
Proof.
  induction s as [|a t IH]; simpl; [reflexivity|].
  intros H. apply Bool.orb_false_iff in H as [H1 H2].
  rewrite (IH H2), Ascii.eqb_sym, H1. reflexivity.
Qed.

Lemma upto_last_app c mid post :
  PyStr.mem_char c post = false ->
  upto_last c (mid ++ String c post) = Some (mid ++ String c EmptyString).
Proof.
  intros H. induction mid as [|a t IH]; simpl.
  - rewrite (upto_last_absent c post H), Ascii.eqb_refl. reflexivity.
  - rewrite IH. reflexivity.
Qed.

Lemma re_search_span_found o c pre mid post :
  PyStr.mem_char o pre = false ->
  PyStr.mem_char c post = false ->
  re_search_span o c (pre ++ String o (mid ++ String c post))
  = Some (String o (mid ++ String c EmptyString)).
Proof.
  intros Ho Hc. unfold re_search_span.
  rewrite (from_first_app o pre _ Ho), (upto_last_app c mid post Hc).
  reflexivity.
Qed.

Lemma re_search_span_unclosed o c pre post :
  PyStr.mem_char o pre = false ->
  PyStr.mem_char c post = false ->
  re_search_span o c (pre ++ String o post) = None.
Proof.
  intros Ho Hc. unfold re_search_span.
  rewrite (from_first_app o pre _ Ho), (upto_last_absent c post Hc).
  reflexivity.
Qed.

Lemma re_search_span_unopened o c text :
  PyStr.mem_char o text = false -> re_search_span o c text = None.
Proof.
  intros Ho. unfold re_search_span. rewrite (from_first_absent o text Ho).
  reflexivity.
Qed.

(** X14.  [_extract_json_array] parses the text from the first [[] of
    the reply to its last []], whatever stands before, between and
    after: for a reply [pre ++ "[" ++ mid ++ "]" ++ post] with no [[]
    in [pre] and no []] in [post], the result is that of [json.loads]
    on ["[" ++ mid ++ "]"], with [None] instead of a
    [JSONDecodeError]; so two arrays in one reply are parsed as one
    text.  A reply without [[], or with no []] after its first [[],
    gives [None] and [json.loads] is not consulted. *)
Theorem json_array_runs_from_first_to_last_bracket json_loads pre mid post :
  PyStr.mem_char "[" pre = false ->
  PyStr.mem_char "]" post = false ->
  _extract_json_array json_loads (pre ++ "[" ++ mid ++ "]" ++ post)
  = match json_loads ("[" ++ mid ++ "]") with
    | Return v => Return (Some v)
    | Raise e => if String.eqb (exn_class e) "JSONDecodeError"
                 then Return None else Raise e
    end
  /\ _extract_json_array json_loads (pre ++ "[" ++ post) = Return None
  /\ _extract_json_array json_loads pre = Return None.
Proof.
  intros Ho Hc. unfold _extract_json_array. repeat split.
  - change (pre ++ "[" ++ mid ++ "]" ++ post)
      with (pre ++ String "[" (mid ++ String "]" post)).
    rewrite (re_search_span_found _ _ pre mid post Ho Hc). reflexivity.
  - change (pre ++ "[" ++ post) with (pre ++ String "[" post).
    rewrite (re_search_span_unclosed _ _ pre post Ho Hc). reflexivity.
  - rewrite (re_search_span_unopened _ _ pre Ho). reflexivity.
Qed.

Lemma analyze_missing_image path prompt st :
  missing st path ->
  exists e, analyze_image_with_prompt path prompt st = (Raise e, st).
Proof.
  intros Hd. destruct (Z_lt_le_dec (max_retries (self st)) 0) as [Hm|Hm].
  - eexists. apply make_request_no_attempt, Hm.
  - eexists. apply analyze_upload_failed; [exact Hm|].
    apply upload_missing_file, Hd.
Qed.

Lemma fallback_fonts_truthy culture : Py.truthy (_get_fallback_fonts culture) = true.
Proof. reflexivity. Qed.

Lemma generate_culture_fonts_run json_loads culture image_path st :
  exists fonts st',
    generate_culture_fonts json_loads culture image_path st = (Return fonts, st')
    /\ st' = snd (analyze_image_with_prompt image_path (fonts_prompt culture) st)
    /\ Py.truthy fonts = true
    /\ (fonts = _get_fallback_fonts culture
        \/ exists response,
            analyze_image_with_prompt image_path (fonts_prompt culture) st
            = (Return response, st')
            /\ _extract_json_array json_loads response = Return (Some fonts)).
Proof.
  unfold generate_culture_fonts, try_except. unfold bind at 1.
  destruct (analyze_image_with_prompt image_path (fonts_prompt culture) st)
    as [[response|e] st1] eqn:G; cbn [snd].
  - destruct (PyStr.is_empty response); cbn [negb].
    + exists (_get_fallback_fonts culture), st1. unfold ret. auto.
    + unfold bind, lift, ret.
      destruct (_extract_json_array json_loads response) as [[v|]|e] eqn:E.
      * destruct (Py.truthy v) eqn:T.
        -- exists v, st1. repeat split; [exact T|]. right. exists response. auto.
        -- exists (_get_fallback_fonts culture), st1. auto.
      * exists (_get_fallback_fonts culture), st1. auto.
      * exists (_get_fallback_fonts culture), st1. auto.
  - exists (_get_fallback_fonts culture), st1. unfold ret. auto.
Qed.

(** X15.  The fonts of a culture are never missing:
    [generate_culture_fonts] and [get_culture_specific_fonts] never
    raise and never return an empty or null value.  The fonts are the
    four fallback fonts, or the non-empty array that
    [_extract_json_array] found in the reply of
    [analyze_image_with_prompt].  For a path that names nothing
    (neither a file nor a directory), [generate_culture_fonts] returns
    the fallback without posting anything;
    [get_culture_specific_fonts] does so too, and also without a path
    or with an empty one, and is [generate_culture_fonts] on a path
    that exists, be it a file or a directory. *)
Theorem culture_fonts_are_never_empty json_loads culture image_path st :
  (exists fonts st',
     generate_culture_fonts json_loads culture image_path st = (Return fonts, st')
     /\ Py.truthy fonts = true
     /\ (fonts = _get_fallback_fonts culture
         \/ exists response,
             analyze_image_with_prompt image_path (fonts_prompt culture) st
             = (Return response, st')
             /\ _extract_json_array json_loads response = Return (Some fonts))
     /\ (missing st image_path ->
         fonts = _get_fallback_fonts culture /\ st' = st))
  /\ (forall path : option string,
        exists fonts st',
          get_culture_specific_fonts json_loads culture path st = (Return fonts, st')
          /\ Py.truthy fonts = true
          /\ (match path with
              | Some p => PyStr.is_empty p = true \/ missing st p
              | None => True
              end -> fonts = _get_fallback_fonts culture /\ st' = st)
          /\ (forall p,
                path = Some p -> PyStr.is_empty p = false ->
                ~ missing st p ->
                generate_culture_fonts json_loads culture p st = (Return fonts, st'))).
Proof.
  split.
  - destruct (generate_culture_fonts_run json_loads culture image_path st)
      as (fonts & st' & Hr & Hs & Ht & Hf).
    exists fonts, st'.
    split; [exact Hr|]. split; [exact Ht|]. split; [exact Hf|].
    intros Hd.
    destruct (analyze_missing_image image_path (fonts_prompt culture) st Hd)
      as (e & He).
    split; [|rewrite He in Hs; exact Hs].
    unfold generate_culture_fonts, try_except in Hr. unfold bind at 1 in Hr.
    rewrite He in Hr. unfold ret in Hr. inversion Hr; reflexivity.
  - intros path. unfold get_culture_specific_fonts, try_except.
    destruct path as [[|c t]|].
    + eexists _, st. unfold ret.
      split; [reflexivity|]. split; [reflexivity|].
      split; [intros _; split; reflexivity
             | intros p Hp He; inversion Hp; subst p; discriminate].
    + unfold bind, os_path_exists.
      destruct (Py.assoc (String c t) (files st)) as [data|] eqn:Hf;
        [|destruct (Py.assoc (String c t) (dirs st)) as [size|] eqn:Hd].
      * destruct (generate_culture_fonts_run json_loads culture (String c t) st)
          as (fonts & st' & Hr & Hs & Ht & Hg).
        rewrite Hr. exists fonts, st'.
        split; [reflexivity|]. split; [exact Ht|]. split.
        -- intros [H|[H _]]; [discriminate | congruence].
        -- intros p Hp _ _. inversion Hp; subst p. exact Hr.
      * destruct (generate_culture_fonts_run json_loads culture (String c t) st)
          as (fonts & st' & Hr & Hs & Ht & Hg).
        rewrite Hr. exists fonts, st'.
        split; [reflexivity|]. split; [exact Ht|]. split.
        -- intros [H|[_ H]]; [discriminate | congruence].
        -- intros p Hp _ _. inversion Hp; subst p. exact Hr.
      * eexists _, st. unfold ret.
        split; [reflexivity|]. split; [reflexivity|].
        split; [intros _; split; reflexivity|].
        intros p Hp _ Hm. inversion Hp; subst p. exfalso. apply Hm.
        split; assumption.
    + eexists _, st. unfold ret.
      split; [reflexivity|]. split; [reflexivity|].
      split; [intros _; split; reflexivity | intros p Hp; discriminate].
Qed.

(* ---------------------------------------------------------------- *)
(** *** The colour palette *)
(* ---------------------------------------------------------------- *)

Lemma int_16_hex_of_Z n : int_16 (hex_of_Z n) = Some n.
Proof.
  unfold int_16, hex_of_Z.
  rewrite HexadecimalString.NilZero.isi.
  - simpl. rewrite HexadecimalZ.of_to. reflexivity.
  - intros E. pose proof (HexadecimalZ.of_to n) as O.
    rewrite E in O. simpl in O. subst n. discriminate.
  - intros E. pose proof (HexadecimalZ.of_to n) as O.
    rewrite E in O. simpl in O. subst n. discriminate.
Qed.

Lemma channel_enumerated (check : Z -> bool) :
  forallb (fun k => check (Z.of_nat k)) (seq 0 256) = true ->
  forall n, channel n = true -> check n = true.
Proof.
  intros H n Hn. unfold channel in Hn.
  apply andb_true_iff in Hn as [H0 H1].
  apply Z.leb_le in H0. apply Z.ltb_lt in H1.
  rewrite forallb_forall in H.
  rewrite <- (Z2Nat.id n) by exact H0. apply H.
  apply in_seq. lia.
Qed.

Lemma percent_02x_channel n :
  channel n = true ->
  exists a b,
    percent_02x n = String a (String b EmptyString)
    /\ hex_digit a = true /\ hex_digit b = true
    /\ int_16 (String a (String b EmptyString)) = Some n.
Proof.
  intros Hn.
  pose (check := fun n =>
    match percent_02x n with
    | String a (String b EmptyString) =>
        hex_digit a && hex_digit b
        && match int_16 (String a (String b EmptyString)) with
           | Some m => m =? n
           | None => false
           end
    | _ => false
    end).
  assert (H : check n = true).
  { apply channel_enumerated; [|exact Hn]. vm_compute. reflexivity. }
  unfold check in H.
  destruct (percent_02x n) as [|a [|b [|c t]]]; try discriminate.
  exists a, b.
  apply andb_true_iff in H as [H H3]. apply andb_true_iff in H as [H1 H2].
  destruct (int_16 (String a (String b EmptyString))) as [m|]; [|discriminate].
  apply Z.eqb_eq in H3. subst m. auto.
Qed.

Lemma mem_char_in c s : PyStr.mem_char c s = true -> In c (list_ascii_of_string s).
Proof.
  induction s as [|d t IH]; simpl; [discriminate|].
  intros H. apply orb_true_iff in H as [H|H].
  - left. apply Ascii.eqb_eq in H. congruence.
  - right. apply IH, H.
Qed.

Lemma two_hex_digits_channel a b n :
  hex_digit a = true -> hex_digit b = true ->
  int_16 (String a (String b EmptyString)) = Some n ->
  channel n = true.
Proof.
  intros Ha Hb.
  pose (digits := list_ascii_of_string "0123456789abcdef").
  assert (H : forallb (fun a =>
                forallb (fun b =>
                  match int_16 (String a (String b EmptyString)) with
                  | Some m => channel m
                  | None => false
                  end) digits) digits = true) by (vm_compute; reflexivity).
  rewrite forallb_forall in H.
  specialize (H a (mem_char_in _ _ Ha)). rewrite forallb_forall in H.
  specialize (H b (mem_char_in _ _ Hb)).
  intros E. rewrite E in H. exact H.
Qed.

Lemma one_hex_digit_channel a n :
  int_16 (String a EmptyString) = Some n -> 0 <= n -> channel n = true.
Proof.
  intros E Hn.
  destruct a as [[] [] [] [] [] [] [] []]; vm_compute in E;
    try discriminate; inversion E; subst n; try reflexivity;
    exfalso; lia.
Qed.

(** X16.  The colours of the palette read back.  For a triple of
    channels between 0 and 255, [hex_color] is a [#] followed by six
    lower-case hexadecimal digits, two for each channel in the order
    red, green, blue, and reading the three pairs in base 16 gives the
    triple back: two colours have the same text only when they are the
    same colour.  A channel outside that range never gives two
    hexadecimal digits. *)
Theorem palette_colours_read_back r g b :
  rgb (r, g, b) = true ->
  (exists digits,
     hex_color (r, g, b) = String "#" digits
     /\ String.length digits = 6%nat
     /\ all_chars hex_digit digits = true)
  /\ parse_hex_color (hex_color (r, g, b)) = Some (r, g, b)
  /\ (forall n,
        String.length (percent_02x n) = 2%nat ->
        all_chars hex_digit (percent_02x n) = true ->
        channel n = true).
Proof.
  unfold rgb. intros H.
  apply andb_true_iff in H as [H Hb]. apply andb_true_iff in H as [Hr Hg].
  destruct (percent_02x_channel r Hr) as (r1 & r2 & Er & Dr1 & Dr2 & Ir).
  destruct (percent_02x_channel g Hg) as (g1 & g2 & Eg & Dg1 & Dg2 & Ig).
  destruct (percent_02x_channel b Hb) as (b1 & b2 & Eb & Db1 & Db2 & Ib).
  split; [|split].
  - eexists. unfold hex_color. rewrite Er, Eg, Eb. cbn [append].
    split; [reflexivity|]. split; [reflexivity|].
    cbn [all_chars]. rewrite Dr1, Dr2, Dg1, Dg2, Db1, Db2. reflexivity.
  - unfold hex_color. rewrite Er, Eg, Eb. cbn [append].
    unfold parse_hex_color. cbn [PyStr.take PyStr.drop].
    rewrite Ir, Ig, Ib. reflexivity.
  - clear. intros n L D. unfold percent_02x in *.
    pose proof (int_16_hex_of_Z n) as I.
    destruct (hex_of_Z n) as [|a [|c [|d t]]] eqn:E; cbn [String.length] in *.
    + vm_compute in I. discriminate.
    + cbn [Nat.ltb Nat.leb append all_chars] in *.
      apply andb_true_iff in D as [_ D]. apply andb_true_iff in D as [D _].
      apply (one_hex_digit_channel a); [exact I|].
      destruct (Z_lt_le_dec n 0) as [Hn|Hn]; [|exact Hn].
      exfalso. unfold hex_of_Z in E. destruct n as [|p|p]; try lia.
      simpl in E. destruct (Pos.to_hex_uint p); simpl in E; inversion E; subst a;
        discriminate.
    + cbn [Nat.ltb Nat.leb all_chars] in *.
      apply andb_true_iff in D as [D1 D]. apply andb_true_iff in D as [D2 _].
      apply (two_hex_digits_channel a c); assumption.
    + cbn [Nat.ltb Nat.leb] in L. simpl in L. discriminate.
Qed.


Lemma rfind_drop_none c s i :
  PyStr.rfind c s = Some i -> PyStr.rfind c (PyStr.drop (S i) s) = None.
Proof.
  revert i. induction s as [|a t IH]; intros i H; simpl in H; [discriminate|].
  destruct (PyStr.rfind c t) as [j|] eqn:R.
  - inversion H; subst i. cbn [PyStr.drop]. apply IH. reflexivity.
  - destruct (Ascii.eqb a c); inversion H; subst i.
    cbn [PyStr.drop]. destruct t; exact R.
Qed.

Lemma rfind_drop_head c s i :
  PyStr.rfind c s = Some i -> exists t, PyStr.drop i s = String c t.
Proof.
  revert i. induction s as [|a t IH]; intros i H; simpl in H; [discriminate|].
  destruct (PyStr.rfind c t) as [j|] eqn:R.
  - inversion H; subst i. cbn [PyStr.drop]. apply IH. reflexivity.
  - destruct (Ascii.eqb a c) eqn:E; inversion H; subst i.
    apply Ascii.eqb_eq in E. subst a. exists t. reflexivity.
Qed.

Lemma rfind_take_none c s n :
  PyStr.rfind c s = None -> PyStr.rfind c (PyStr.take n s) = None.
Proof.
  revert n. induction s as [|a t IH]; intros n H; [destruct n; reflexivity|].
  simpl in H. destruct (PyStr.rfind c t) eqn:R; [discriminate|].
  destruct (Ascii.eqb a c) eqn:E; [discriminate|].
  destruct n; [reflexivity|]. cbn [PyStr.take PyStr.rfind].
  rewrite (IH n eq_refl), E. reflexivity.
Qed.

Lemma take_drop n s : PyStr.take n s ++ PyStr.drop n s = s.
Proof.
  revert n. induction s as [|a t IH]; intros [|n]; try reflexivity.
  cbn [PyStr.take PyStr.drop append]. rewrite IH. reflexivity.
Qed.

Lemma rfind_app_none_both c s t :
  PyStr.rfind c s = None -> PyStr.rfind c t = None ->
  PyStr.rfind c (s ++ t) = None.
Proof. intros Hs Ht. rewrite rfind_app_none by exact Ht. exact Hs. Qed.

Lemma basename_no_sep p : PyStr.rfind PosixPath.sep (PosixPath.basename p) = None.
Proof.
  unfold PosixPath.basename.
  destruct (PyStr.rfind PosixPath.sep p) as [i|] eqn:R; cbn [PyStr.index_of].
  - replace (Z.to_nat (Z.of_nat i + 1)) with (S i) by lia.
    apply rfind_drop_none, R.
  - simpl. destruct p; exact R.
Qed.

(** [splitext] cuts its argument in two; the second part is empty or
    starts with a dot. *)
Lemma splitext_parts q :
  exists ext,
    q = fst (PosixPath.splitext q) ++ ext
    /\ (ext = EmptyString \/ exists t, ext = String "." t)
    /\ (PyStr.rfind PosixPath.sep q = None ->
        PyStr.rfind PosixPath.sep (fst (PosixPath.splitext q)) = None).
Proof.
  unfold PosixPath.splitext.
  destruct (_ && _) eqn:C; cbn [fst].
  - apply andb_true_iff in C as [C _].
    destruct (PyStr.rfind PosixPath.extsep q) as [i|] eqn:R.
    + cbn [PyStr.index_of]. rewrite Nat2Z.id.
      exists (PyStr.drop i q). split; [symmetry; apply take_drop|]. split.
      * right. apply rfind_drop_head, R.
      * intros H. apply rfind_take_none, H.
    + exfalso. cbn [PyStr.index_of] in C. apply Z.gtb_lt in C.
      destruct (PyStr.rfind PosixPath.sep q); simpl in C; lia.
  - exists EmptyString. split; [symmetry; apply append_nil_r|]. split; auto.
Qed.

Lemma is_sep_eqb c : is_sep c = Ascii.eqb c PosixPath.sep.
Proof. unfold is_sep. simpl. apply orb_false_r. Qed.

Lemma eqb_seps s :
  String.eqb s (PosixPath.seps (String.length s)) = all_chars is_sep s.
Proof.
  induction s as [|a t IH]; [reflexivity|].
  cbn [String.length PosixPath.seps String.eqb all_chars].
  rewrite is_sep_eqb, IH. destruct (Ascii.eqb a PosixPath.sep); reflexivity.
Qed.

Lemma all_chars_last p s :
  all_chars p s = true ->
  match PyStr.last_char s with Some c => p c = true | None => s = EmptyString end.
Proof.
  induction s as [|a s IH]; simpl; [reflexivity|].
  intros H. apply andb_true_iff in H as [Ha Hs]. specialize (IH Hs).
  destruct s as [|b u]; [exact Ha|].
  change (PyStr.last_char (String a (String b u)))
    with (PyStr.last_char (String b u)).
  destruct (PyStr.last_char (String b u)); [exact IH | discriminate].
Qed.

Lemma rfind_last c s :
  PyStr.endswith_char c s = true ->
  PyStr.rfind c s = Some (pred (String.length s)).
Proof.
  unfold PyStr.endswith_char.
  induction s as [|a s IH]; [discriminate|].
  destruct s as [|b u].
  - simpl. intros ->. reflexivity.
  - intros H. change (PyStr.last_char (String a (String b u)))
      with (PyStr.last_char (String b u)) in H.
    cbn [PyStr.rfind] in *. specialize (IH H).
    cbn [PyStr.rfind] in IH. rewrite IH. reflexivity.
Qed.

Lemma dirname_closed p : closed_dir (PosixPath.dirname p).
Proof.
  unfold PosixPath.dirname, closed_dir. cbv zeta.
  set (h := PyStr.take _ p). rewrite eqb_seps.
  destruct (all_chars is_sep h) eqn:A.
  - rewrite andb_false_r. left. exact A.
  - destruct h as [|a t] eqn:H; [discriminate|]. cbn [PyStr.is_empty negb andb].
    unfold PyStr.rstrip_chars. fold is_sep.
    destruct (rstrip_by_not_all is_sep (String a t) A) as [R1 R2].
    right. split; [exact R1|]. unfold PyStr.endswith_char.
    destruct (PyStr.last_char _) as [c|]; [|contradiction].
    rewrite <- is_sep_eqb. exact R2.
Qed.

(** A file name joined to a directory of [dirname] has that directory
    and that name. *)
Lemma join_closed_dir d name :
  closed_dir d ->
  PyStr.rfind PosixPath.sep name = None ->
  PosixPath.basename (PosixPath.join d [name]) = name
  /\ PosixPath.dirname (PosixPath.join d [name]) = d.
Proof.
  intros Hd Hn. unfold PosixPath.join. cbn [fold_left]. unfold PosixPath.join2.
  rewrite (startswith_sep_none name Hn).
  destruct d as [|a t].
  - cbn [PyStr.is_empty orb append].
    unfold PosixPath.basename, PosixPath.dirname. rewrite Hn. cbn [PyStr.index_of].
    simpl. destruct name; auto.
  - cbn [PyStr.is_empty orb]. set (d := String a t) in *.
    destruct Hd as [A|[A E]].
    + assert (E : PyStr.endswith_char PosixPath.sep d = true).
      { pose proof (all_chars_last is_sep d A) as L. unfold PyStr.endswith_char.
        destruct (PyStr.last_char d) as [c|]; [|discriminate].
        rewrite <- is_sep_eqb. exact L. }
      rewrite E.
      assert (R : PyStr.rfind PosixPath.sep (d ++ name)
                  = Some (pred (String.length d))).
      { rewrite rfind_app_none by exact Hn. apply rfind_last, E. }
      unfold PosixPath.basename, PosixPath.dirname. rewrite R. cbn [PyStr.index_of].
      replace (Z.to_nat (Z.of_nat (pred (String.length d)) + 1))
        with (String.length d) by (unfold d; simpl; lia).
      rewrite drop_app, take_app. split; [reflexivity|].
      rewrite eqb_seps, A, andb_false_r. reflexivity.
    + rewrite E.
      assert (R : PyStr.rfind PosixPath.sep (d ++ "/" ++ name)
                  = Some (String.length d + 0)%nat).
      { apply rfind_app_some. simpl. rewrite Hn. reflexivity. }
      unfold PosixPath.basename, PosixPath.dirname. rewrite R. cbn [PyStr.index_of].
      replace (Z.to_nat (Z.of_nat (String.length d + 0) + 1))
        with (String.length (d ++ "/")) by (rewrite length_append; simpl; lia).
      replace (d ++ "/" ++ name) with ((d ++ "/") ++ name)
        by (rewrite append_assoc; reflexivity).
      rewrite drop_app, take_app. split; [reflexivity|].
      rewrite eqb_seps, all_chars_app, A. cbn [andb negb].
      replace (PyStr.is_empty (d ++ "/")) with false by (unfold d; reflexivity).
      cbn [negb]. unfold PyStr.rstrip_chars. fold is_sep.
      rewrite rstrip_by_app by reflexivity.
      apply rstrip_by_keeps. unfold PyStr.endswith_char in E.
      destruct (PyStr.last_char d) as [c|]; [|exact I].
      rewrite is_sep_eqb. exact E.
Qed.

Lemma palette_name_no_sep image_path :
  PyStr.rfind PosixPath.sep (palette_name image_path) = None.
Proof.
  unfold palette_name.
  destruct (splitext_parts (PosixPath.basename image_path)) as (ext & _ & _ & H).
  apply rfind_app_none_both; [apply H, basename_no_sep | reflexivity].
Qed.

Lemma palette_name_differs image_path :
  palette_name image_path <> PosixPath.basename image_path.
Proof.
  unfold palette_name.
  destruct (splitext_parts (PosixPath.basename image_path)) as (ext & E & S & _).
  intros H. rewrite E in H at 2. apply append_inj_l in H.
  destruct S as [->|(t & ->)]; discriminate.
Qed.

Lemma assoc_with_file_other path data st p :
  p <> path ->
  Py.assoc p (files (with_file path data st)) = Py.assoc p (files st).
Proof.
  intros H. cbn [files with_file]. simpl.
  destruct (String.eqb p path) eqn:E; [|reflexivity].
  apply String.eqb_eq in E. contradiction.
Qed.

(** X17.  [extract_palette] on a path that names nothing (neither a
    file nor a directory) raises [FileNotFoundError] ([Image not
    found: ...]) before ColorThief is consulted, and writes nothing.  On an image that is on disk, when
    ColorThief returns a palette and the output file can be opened,
    with no output name (or an empty one) the palette file is written
    in the directory of the image under the name of the image without
    its extension followed by [_palette.json]; the returned path is
    never the path of the image, so the image is not overwritten, and
    the returned colours are those of the palette, one text each, in
    order. *)
Theorem palette_file_lies_beside_the_image
        color_thief open_w image_path palette_size output_name st :
  (missing st image_path ->
   extract_palette color_thief open_w image_path palette_size output_name st
   = (Raise (ImageNotFound image_path), st))
  /\ (forall data palette,
        Py.assoc image_path (files st) = Some data ->
        color_thief data palette_size = Return palette ->
        output_name = None \/ output_name = Some EmptyString ->
        let output_path :=
          PosixPath.join (PosixPath.dirname image_path) [palette_name image_path] in
        open_w output_path = None ->
        extract_palette color_thief open_w image_path palette_size output_name st
        = (Return (map hex_color palette, output_path),
           with_file output_path (dump_palette (map hex_color palette)) st)
        /\ PosixPath.dirname output_path = PosixPath.dirname image_path
        /\ PosixPath.basename output_path = palette_name image_path
        /\ output_path <> image_path
        /\ Py.assoc image_path
             (files (with_file output_path (dump_palette (map hex_color palette)) st))
           = Some data).
Proof.
  split.
  - intros [Hf Hd]. unfold extract_palette, bind, os_path_exists.
    rewrite Hf, Hd. reflexivity.
  - intros data palette Hd Hp Ho output_path Hw.
    destruct (join_closed_dir (PosixPath.dirname image_path) (palette_name image_path)
                (dirname_closed image_path) (palette_name_no_sep image_path))
      as [Hb Hdir].
    fold output_path in Hb, Hdir.
    assert (Hne : output_path <> image_path).
    { intros E. rewrite E in Hb. symmetry in Hb.
      exact (palette_name_differs image_path Hb). }
    split; [|split; [exact Hdir | split; [exact Hb | split; [exact Hne|]]]].
    + unfold extract_palette, bind, os_path_exists, read_file, lift.
      rewrite Hd. cbv beta iota. cbn [negb]. cbv beta iota. rewrite Hd.
      cbv beta iota. rewrite Hp. cbv beta iota zeta.
      assert (En : match output_name with
                   | Some (String c t) => String c t
                   | _ => fst (PosixPath.splitext (PosixPath.basename image_path))
                          ++ "_palette.json"
                   end = palette_name image_path).
      { destruct Ho as [->| ->]; reflexivity. }
      rewrite En. fold output_path. unfold write_text. rewrite Hw. reflexivity.
    + rewrite assoc_with_file_other by (intros E; apply Hne; symmetry; exact E).
      exact Hd.
Qed.

(* ---------------------------------------------------------------- *)
(** *** The export formats *)
(* ---------------------------------------------------------------- *)

Lemma hashed_eqb_eq a b : hashed_eqb a b = true <-> a = b.
Proof.
  destruct a, b; simpl; split; intros H; try discriminate; try reflexivity.
  - apply Z.eqb_eq in H. congruence.
  - inversion H. apply Z.eqb_refl.
  - apply String.eqb_eq in H. congruence.
  - inversion H. apply String.eqb_refl.
Qed.

Lemma existsb_hashed k seen : existsb (hashed_eqb k) seen = true <-> In k seen.
Proof.
  rewrite existsb_exists. split.
  - intros (x & Hx & E). apply hashed_eqb_eq in E. subst x. exact Hx.
  - intros H. exists k. split; [exact H | apply hashed_eqb_eq; reflexivity].
Qed.

Lemma subsequence_refl {A} (l : list A) : subsequence l l.
Proof. induction l; constructor; assumption. Qed.

Lemma subsequence_in {A} (u l : list A) :
  subsequence u l -> forall a, In a u -> In a l.
Proof.
  induction 1; intros x Hx; simpl in *; [contradiction | | right; auto].
  destruct Hx as [->|Hx]; [left; reflexivity | right; auto].
Qed.

Lemma NoDup_snoc {A} (l : list A) x : NoDup l -> ~ In x l -> NoDup (l ++ [x]).
Proof.
  induction 1 as [|a l Ha Hl IH]; intros Hx; simpl.
  - constructor; [intros [] | constructor].
  - constructor.
    + rewrite in_app_iff. intros [H|[H|[]]]; [exact (Ha H)|].
      apply Hx. left. symmetry. exact H.
    + apply IH. intros H. apply Hx. right. exact H.
Qed.

(** The loop from a set [seen] that holds the colours of the list so
    far. *)
Lemma unique_loop_spec colors :
  forall seen acc u,
    (forall k, In k seen <-> In (Return k) (map py_hash acc)) ->
    NoDup (map py_hash acc) ->
    unique_loop colors seen acc = Return u ->
    exists ext,
      u = (acc ++ ext)%list
      /\ subsequence ext colors
      /\ NoDup (map py_hash u)
      /\ (forall c, In c colors -> exists k, py_hash c = Return k)
      /\ (forall c, In c colors -> In (py_hash c) (map py_hash u))
      /\ (forall pre c post,
            colors = (pre ++ c :: post)%list ->
            ~ In (py_hash c) (map py_hash (acc ++ pre)) ->
            In c ext).
Proof.
  induction colors as [|c rest IH]; intros seen acc u Hseen Hnd H.
  - simpl in H. inversion H; subst u. exists []. rewrite app_nil_r.
    split; [reflexivity|]. split; [constructor|]. split; [exact Hnd|].
    split; [intros ? []|]. split; [intros ? []|].
    intros [|? ?] ? ? E; discriminate.
  - cbn [unique_loop] in H. unfold obind in H.
    destruct (py_hash c) as [k|e] eqn:K; [|discriminate].
    destruct (existsb (hashed_eqb k) seen) eqn:E; cbn [negb] in H.
    + apply existsb_hashed in E. pose proof (proj1 (Hseen k) E) as Hin.
      destruct (IH seen acc u Hseen Hnd H) as (ext & -> & Hs & Hn & Hh & Hc & Hf).
      exists ext. split; [reflexivity|]. split; [constructor; exact Hs|].
      split; [exact Hn|]. split; [|split].
      * intros x [<-|Hx]; [exists k; exact K | apply Hh, Hx].
      * intros x [<-|Hx]; [|apply Hc, Hx].
        rewrite K, map_app. apply in_or_app. left. exact Hin.
      * intros pre x post Eq Hno. destruct pre as [|p pre].
        -- simpl in Eq. inversion Eq; subst x post. exfalso. apply Hno.
           rewrite app_nil_r, K. exact Hin.
        -- simpl in Eq. inversion Eq; subst p rest.
           apply (Hf pre x post eq_refl). intros Hx. apply Hno.
           rewrite map_app in *. apply in_app_or in Hx. apply in_or_app.
           destruct Hx as [Hx|Hx]; [left; exact Hx | right; right; exact Hx].
    + assert (Hnew : ~ In (Return k) (map py_hash acc)).
      { intros Hin. apply Hseen, existsb_hashed in Hin. congruence. }
      assert (Hseen' : forall k', In k' (k :: seen)
                                  <-> In (Return k') (map py_hash (acc ++ [c]))).
      { intros k'. rewrite map_app, in_app_iff. simpl. rewrite K, Hseen.
        split.
        - intros [->|Hk]; [right; left; reflexivity | left; exact Hk].
        - intros [Hk|[Hk|[]]]; [right; exact Hk | left; congruence]. }
      assert (Hnd' : NoDup (map py_hash (acc ++ [c]))).
      { rewrite map_app. simpl. rewrite K. apply NoDup_snoc; assumption. }
      destruct (IH (k :: seen) (acc ++ [c])%list u Hseen' Hnd' H)
        as (ext & -> & Hs & Hn & Hh & Hc & Hf).
      exists (c :: ext). rewrite <- app_assoc. simpl.
      split; [reflexivity|]. split; [constructor; exact Hs|].
      rewrite <- app_assoc in Hn. simpl in Hn.
      split; [exact Hn|]. split; [|split].
      * intros x [<-|Hx]; [exists k; exact K | apply Hh, Hx].
      * intros x [<-|Hx].
        -- rewrite map_app. apply in_or_app. right. left. reflexivity.
        -- specialize (Hc x Hx). rewrite <- app_assoc in Hc. exact Hc.
      * intros pre x post Eq Hno. destruct pre as [|p pre].
        -- simpl in Eq. inversion Eq; subst x post. left. reflexivity.
        -- simpl in Eq. inversion Eq; subst p rest. right.
           apply (Hf pre x post eq_refl). rewrite <- app_assoc. exact Hno.
Qed.

Lemma unique_loop_returns colors :
  (forall c, In c colors -> exists k, py_hash c = Return k) ->
  forall seen acc, exists u, unique_loop colors seen acc = Return u.
Proof.
  induction colors as [|c rest IH]; intros Hh seen acc; [eexists; reflexivity|].
  cbn [unique_loop]. destruct (Hh c (or_introl eq_refl)) as (k & K).
  rewrite K. unfold obind.
  destruct (negb _); apply IH; intros x Hx; apply Hh; right; exact Hx.
Qed.

Lemma unique_loop_raises pre c post e :
  (forall d, In d pre -> exists k, py_hash d = Return k) ->
  py_hash c = Raise e ->
  forall seen acc, unique_loop (pre ++ c :: post) seen acc = Raise e.
Proof.
  intros Hh He. induction pre as [|d pre IH]; intros seen acc.
  - cbn [app unique_loop]. rewrite He. reflexivity.
  - cbn [app unique_loop]. destruct (Hh d (or_introl eq_refl)) as (k & K).
    rewrite K. unfold obind.
    destruct (negb _); apply IH; intros x Hx; apply Hh; right; exact Hx.
Qed.

Lemma unique_loop_distinct colors :
  forall seen acc,
    NoDup (map py_hash colors) ->
    (forall c, In c colors -> exists k, py_hash c = Return k /\ ~ In k seen) ->
    unique_loop colors seen acc = Return (acc ++ colors)%list.
Proof.
  induction colors as [|c rest IH]; intros seen acc Hnd Hh.
  - simpl. rewrite app_nil_r. reflexivity.
  - cbn [unique_loop]. destruct (Hh c (or_introl eq_refl)) as (k & K & Hk).
    rewrite K. unfold obind.
    replace (existsb (hashed_eqb k) seen) with false.
    + cbn [negb]. simpl in Hnd. inversion Hnd as [|x l Hx Hl]; subst x l.
      rewrite IH; [rewrite <- app_assoc; reflexivity | exact Hl |].
      intros x Hin. destruct (Hh x (or_intror Hin)) as (k' & K' & Hk').
      exists k'. split; [exact K'|]. intros [E|E]; [|exact (Hk' E)].
      apply Hx. rewrite K, E, <- K'. apply in_map, Hin.
    + symmetry. apply not_true_is_false. intros E. apply existsb_hashed in E.
      exact (Hk E).
Qed.

Lemma py_hash_error j e : py_hash j = Raise e -> exn_class e = "TypeError".
Proof. destruct j; simpl; intros H; inversion H; reflexivity. Qed.

(** X18.  The colours of an exported kit, as [create_figma_plugin_data]
    and [create_canva_template_data] filter them: the result has the
    colours of the list in their order, each one once (as a [set] tells
    them apart, so [True] and [1] are one colour), and of equal colours
    the first is the one that stays; filtering the result again changes
    nothing.  The loop returns exactly when every colour can be hashed;
    a colour that is a list or a dict raises [TypeError] at its
    turn. *)
Theorem unique_colors_keep_first_occurrences colors :
  (forall u,
     unique_colors colors = Return u ->
     subsequence u colors
     /\ NoDup (map py_hash u)
     /\ (forall c, In c colors -> In (py_hash c) (map py_hash u))
     /\ (forall pre c post,
           colors = (pre ++ c :: post)%list ->
           ~ In (py_hash c) (map py_hash pre) ->
           In c u)
     /\ unique_colors u = Return u)
  /\ ((forall c, In c colors -> exists k, py_hash c = Return k) <->
      exists u, unique_colors colors = Return u)
  /\ (forall pre c post e,
        colors = (pre ++ c :: post)%list ->
        (forall d, In d pre -> exists k, py_hash d = Return k) ->
        py_hash c = Raise e ->
        unique_colors colors = Raise e /\ exn_class e = "TypeError").
Proof.
  assert (S : forall u, unique_colors colors = Return u ->
            exists ext,
              u = ([] ++ ext)%list
              /\ subsequence ext colors
              /\ NoDup (map py_hash u)
              /\ (forall c, In c colors -> exists k, py_hash c = Return k)
              /\ (forall c, In c colors -> In (py_hash c) (map py_hash u))
              /\ (forall pre c post,
                    colors = (pre ++ c :: post)%list ->
                    ~ In (py_hash c) (map py_hash ([] ++ pre)) ->
                    In c ext)).
  { intros u H. apply (unique_loop_spec colors [] [] u); [|constructor|exact H].
    intros k. simpl. tauto. }
  split; [|split].
  - intros u H. destruct (S u H) as (ext & E & Hs & Hn & Hh & Hc & Hf).
    simpl in E. subst ext. simpl in Hf.
    split; [exact Hs|]. split; [exact Hn|]. split; [exact Hc|].
    split; [exact Hf|].
    unfold unique_colors. rewrite unique_loop_distinct; [reflexivity | exact Hn |].
    intros c Hin. destruct (Hh c (subsequence_in _ _ Hs c Hin)) as (k & K).
    exists k. split; [exact K | intros []].
  - split.
    + intros Hh. apply unique_loop_returns, Hh.
    + intros (u & H). destruct (S u H) as (ext & _ & _ & _ & Hh & _). exact Hh.
  - intros pre c post e -> Hh He. split.
    + apply unique_loop_raises; assumption.
    + apply (py_hash_error c), He.
Qed.

End Client.

(* ================================================================== *)
(** ** The properties on concrete worlds *)
(* ================================================================== *)



(** C2, as stated, fails.  The upload-start post fails with a 503
    error, a transient class, and three retries are allowed; yet
    [analyze_image_with_prompt] raises [UploadFailed] after that single
    post, without sleeping: the failure is not retried at the level of
    the operation. *)
Lemma upload_failure_is_not_retried :
  let run := analyze_image_with_prompt (Scenarios.always Scenarios.http_503)
               "uploads/kente.PNG" "describe" Scenarios.st0 in
  classify (exn_msg Scenarios.http_503) = ServiceUnavailable
  /\ max_retries (self Scenarios.st0) = 3
  /\ fst run = Raise UploadFailed
  /\ length (http_log (snd run)) = 1%nat
  /\ sleep_log (snd run) = [].
Proof. vm_compute. repeat split. Qed.

(** The amended C2 when the start post fails with a 503 error. *)
Lemma failed_start_post_ends_analysis :
  exists st',
    _analyze_image_with_prompt_request (Scenarios.always Scenarios.http_503)
      "uploads/kente.PNG" "describe" Scenarios.st0 = (Raise UploadFailed, st')
    /\ analyze_image_with_prompt (Scenarios.always Scenarios.http_503)
         "uploads/kente.PNG" "describe" Scenarios.st0 = (Raise UploadFailed, st')
    /\ http_log st'
       = (http_log Scenarios.st0
          ++ [start_request_of "uploads/kente.PNG" "AIza-first" "PNG-bytes"])%list
    /\ sleep_log st' = sleep_log Scenarios.st0
    /\ self st' = self Scenarios.st0.
Proof.
  apply (proj1 (upload_failure_surfaces_once (Scenarios.always Scenarios.http_503)
                  "uploads/kente.PNG" "describe" Scenarios.st0
                  "AIza-first" "PNG-bytes"
                  ltac:(vm_compute; discriminate) eq_refl eq_refl)
               Scenarios.http_503 eq_refl).
Defined.

(** C3, as stated, fails.  Three images are asked for and the response
    is successful, but its second prediction was filtered and carries
    no payload: two paths come back, and they are numbered 1 and 3. *)
Lemma fewer_paths_than_samples :
  fst (generate_image
         (Scenarios.answers
            (Scenarios.image_answer
               [Scenarios.with_image "aW1nMQ=="; Scenarios.filtered;
                Scenarios.with_image "aW1nMw=="]))
         Scenarios.decode Scenarios.writable Scenarios.clock Scenarios.dir
         "kente cloth" 3 (Some "kente.png") "1:1" Scenarios.st0)
  = Return (Paths ["/srv/mvp_ai/assets/kente_1.png";
                   "/srv/mvp_ai/assets/kente_3.png"]).
Proof. vm_compute. reflexivity. Qed.

(** The amended C3 on a response with three payloads. *)
Lemma three_payloads_three_names :
  exists st',
    generate_image
      (Scenarios.answers
         (Scenarios.image_answer
            [Scenarios.with_image "aW1nMQ=="; Scenarios.with_image "aW1nMg==";
             Scenarios.with_image "aW1nMw=="]))
      Scenarios.decode Scenarios.writable Scenarios.clock Scenarios.dir
      "kente cloth" 3 (Some "kente.png") "1:1" Scenarios.st0
    = (Return (Paths ["/srv/mvp_ai/assets/kente_1.png";
                      "/srv/mvp_ai/assets/kente_2.png";
                      "/srv/mvp_ai/assets/kente_3.png"]), st')
    /\ length ["/srv/mvp_ai/assets/kente_1.png";
               "/srv/mvp_ai/assets/kente_2.png";
               "/srv/mvp_ai/assets/kente_3.png"] = 3%nat
    /\ self st' = self Scenarios.st0.
Proof.
  pose proof
    (image_paths_follow_hint
       (Scenarios.answers
          (Scenarios.image_answer
             [Scenarios.with_image "aW1nMQ=="; Scenarios.with_image "aW1nMg==";
              Scenarios.with_image "aW1nMw=="]))
       Scenarios.decode Scenarios.writable Scenarios.clock Scenarios.dir
       "kente cloth" "1:1" Scenarios.st0 "AIza-first"
       [Scenarios.with_image "aW1nMQ=="; Scenarios.with_image "aW1nMg==";
        Scenarios.with_image "aW1nMw=="]
       ltac:(vm_compute; discriminate) eq_refl eq_refl) as (_ & H & _).
  apply (H 3 "kente").
  - discriminate.
  - do 3 eexists. repeat split; reflexivity.
  - vm_compute. reflexivity.
  - intros p _. reflexivity.
Defined.


(** C5 on the error [foo]: one attempt, no sleep, the client as it
    was. *)
Lemma foo_fails_after_one_attempt :
  _make_request_with_retry
    (counted (_generate_text_request (Scenarios.always Scenarios.foo) "hi"))
    Scenarios.st0
  = (Raise Scenarios.foo,
     with_post (text_request "AIza-first" "hi") (tick Scenarios.st0))
  /\ calls (with_post (text_request "AIza-first" "hi") (tick Scenarios.st0)) = 1%nat
  /\ sleep_log (with_post (text_request "AIza-first" "hi") (tick Scenarios.st0)) = []
  /\ self (with_post (text_request "AIza-first" "hi") (tick Scenarios.st0))
     = self Scenarios.st0.
Proof.
  apply (proj1 (unclassified_error_fails_fast
                  (Scenarios.always Scenarios.foo)
                  Scenarios.decode Scenarios.writable Scenarios.clock Scenarios.dir)
               string
               (_generate_text_request (Scenarios.always Scenarios.foo) "hi")
               Scenarios.st0 Scenarios.foo).
  - vm_compute. discriminate.
  - apply quiet_text_request.
  - reflexivity.
  - reflexivity.
Defined.

(** C6 on a start response without the upload-target header. *)
Lemma start_without_target_ends_analysis :
  exists st',
    analyze_image_with_prompt (Scenarios.answers Scenarios.start_without_target)
      "uploads/kente.PNG" "describe" Scenarios.st0 = (Raise UploadFailed, st')
    /\ http_log st'
       = (http_log Scenarios.st0
          ++ [start_request_of "uploads/kente.PNG" "AIza-first" "PNG-bytes"])%list
    /\ (forall req, In req (http_log st') ->
          In req (http_log Scenarios.st0) \/ req_url req <> image_url)
    /\ sleep_log st' = sleep_log Scenarios.st0
    /\ self st' = self Scenarios.st0.
Proof.
  apply (missing_upload_url_fails_without_analysis
           (Scenarios.answers Scenarios.start_without_target)
           "uploads/kente.PNG" "describe" Scenarios.st0 "AIza-first" "PNG-bytes"
           Scenarios.start_without_target).
  - vm_compute. discriminate.
  - reflexivity.
  - reflexivity.
  - reflexivity.
  - left. reflexivity.
Defined.

(** C7 from the last index of a pool of three: back to 0. *)
Lemma rotation_from_last_index_wraps :
  exists st',
    _switch_api_key (with_index 2 Scenarios.st0) = (Return tt, st')
    /\ current_key_index (self st') = (2 + 1) mod 3
    /\ valid_index (self st')
    /\ api_keys (self st') = api_keys (self Scenarios.st0).
Proof.
  apply (proj1 (rotation_lands_on_valid_index
                  (Scenarios.always Scenarios.foo)
                  Scenarios.decode Scenarios.writable Scenarios.clock Scenarios.dir)
               (with_index 2 Scenarios.st0)).
  - simpl. lia.
  - unfold valid_index. simpl. lia.
Defined.

(** C8 on [uploads/kente.PnG]. *)
Lemma mime_type_of_upper_case_png :
  snd (PosixPath.splitext "uploads/kente.PnG") = ".PnG"
  /\ _get_mime_type "uploads/kente.PnG" = "image/png".
Proof.
  destruct (proj2 mime_type_by_extension "uploads/" "k"%char "ente" "PnG"
              eq_refl eq_refl eq_refl eq_refl eq_refl) as (H1 & _ & H2 & _).
  split; [exact H1 | apply H2; reflexivity].
Defined.

(** C9 on a response whose only prediction was filtered. *)
Lemma filtered_single_image_raises :
  generate_image
    (Scenarios.answers (Scenarios.image_answer [Scenarios.filtered]))
    Scenarios.decode Scenarios.writable Scenarios.clock Scenarios.dir
    "kente cloth" 1 (Some "kente.png") "1:1" Scenarios.st0
  = (Raise (Py.IndexError "list"),
     with_post (image_request "AIza-first" "kente cloth" 1 "1:1") Scenarios.st0)
  /\ exn_msg (Py.IndexError "list") = "list index out of range".
Proof.
  apply (single_image_without_payload_raises
           (Scenarios.answers (Scenarios.image_answer [Scenarios.filtered]))
           Scenarios.decode Scenarios.writable Scenarios.clock Scenarios.dir
           "kente cloth" (Some "kente.png") "1:1" Scenarios.st0 "AIza-first"
           [Scenarios.filtered]).
  - vm_compute. discriminate.
  - reflexivity.
  - do 3 eexists. repeat split; reflexivity.
  - reflexivity.
Defined.

(** C10 on an answer padded with blanks: the details come back
    without the blanks. *)
Lemma padded_details_come_back_trimmed :
  generate_culture_details
    (Scenarios.answers (Scenarios.text_answer "  Adinkra symbols.  "))
    "ashanti" Scenarios.st0
  = (Return "Adinkra symbols.",
     with_post (text_request "AIza-first" (culture_prompt "ashanti")) Scenarios.st0)
  /\ trims_to "  Adinkra symbols.  " "Adinkra symbols.".
Proof.
  destruct (culture_details_never_raises
              (Scenarios.answers (Scenarios.text_answer "  Adinkra symbols.  "))
              "ashanti" Scenarios.st0) as (text & H1 & H2 & _ & H4).
  vm_compute in H2. destruct H2 as [_ H2]. subst text. split.
  - etransitivity; [exact H1|]. vm_compute. reflexivity.
  - apply (H4 "AIza-first" (Scenarios.text_answer "  Adinkra symbols.  ")
              (JObj [("candidates",
                 JArr [JObj [("content",
                   JObj [("parts",
                     JArr [JObj [("text", JStr "  Adinkra symbols.  ")]])])]])])
              "  Adinkra symbols.  ").
    + simpl. lia.
    + reflexivity.
    + reflexivity.
    + reflexivity.
    + reflexivity.
    + reflexivity.
Defined.

(* ================================================================== *)
(** ** The model on small inputs *)
(* ================================================================== *)

Example splitext_hidden_file :
  PosixPath.splitext "a/b.c/.hidden" = ("a/b.c/.hidden", "").
Proof. reflexivity. Qed.

Example splitext_last_dot :
  PosixPath.splitext "a/b.c/..x.tar.GZ" = ("a/b.c/..x.tar", ".GZ").
Proof. reflexivity. Qed.

Example mime_of_bmp_is_default : _get_mime_type "scan.bmp" = "image/jpeg".
Proof. reflexivity. Qed.

Example title_of_words :
  PyStr.title "yoruba aDIRE-cloth" = "Yoruba Adire-Cloth".
Proof. reflexivity. Qed.

Example strip_of_padded : PyStr.strip "  Adinkra symbols.  " = "Adinkra symbols.".
Proof. reflexivity. Qed.

(** [rstrip('.png')] removes trailing characters of the set, so more
    than the suffix may go. *)
Example rstrip_png_takes_a_character_set :
  PyStr.rstrip_chars ".png" "spring.png" = "spri"
  /\ PyStr.rstrip_chars ".png" "kente.png" = "kente".
Proof. split; reflexivity. Qed.

(** The rate-limit signal comes first in the table. *)
Example classify_precedence :
  classify "503 Service Unavailable (upstream answered 429)" = RateLimit
  /\ classify "503 Service Unavailable" = ServiceUnavailable
  /\ classify "HTTP 500" = InternalError
  /\ classify "Read Timeout" = TimedOut
  /\ classify (exn_msg UploadFailed) = Unclassified.
Proof. repeat split; reflexivity. Qed.

(** With a negative limit the loop has no iteration: the request
    function is never called and the raise after the loop is reached. *)
Example negative_limit_makes_no_attempt :
  generate_text (Scenarios.always Scenarios.http_503) "hi"
    (mkSt (mkClient ["AIza-first"] 0 (-1) 2000 3000 2000) [] [] [] [] 0)
  = (Raise (ExhaustedRetries (-1)),
     mkSt (mkClient ["AIza-first"] 0 (-1) 2000 3000 2000) [] [] [] [] 0).
Proof. reflexivity. Qed.

(** A full analysis: start, transfer, then the content-analysis post. *)
Example analysis_in_three_posts :
  let transport n (_ : Request) :=
    match n with
    | O => inr (mkResponse [("x-goog-upload-url", "https://upload.example/1")]
                           (Return JNull))
    | S O => inr (mkResponse []
                   (Return (JObj [("file", JObj [("uri", JStr "files/abc")])])))
    | _ => inr (Scenarios.text_answer " a woven band ")
    end in
  let run := analyze_image_with_prompt transport "uploads/kente.PNG" "describe"
               Scenarios.st0 in
  fst run = Return "a woven band"
  /\ map req_url (http_log (snd run))
     = [upload_url; "https://upload.example/1"; image_url].
Proof. split; vm_compute; reflexivity. Qed.

(* ================================================================== *)
(** ** The further properties on concrete worlds *)
(* ================================================================== *)

(** X1 on a text request whose posts all fail with a 503 error. *)
Lemma bounded_retries_on_503 :
  let f := _generate_text_request (Scenarios.always Scenarios.http_503) "hi" in
  let st' := snd (_make_request_with_retry (counted f) Scenarios.st0) in
  let attempts := (calls st' - calls Scenarios.st0)%nat in
  same_pool (self Scenarios.st0) (self st')
  /\ (calls Scenarios.st0 <= calls st')%nat
  /\ (attempts <= Z.to_nat (max_retries (self Scenarios.st0) + 1))%nat
  /\ exists sleeps,
      sleep_log st' = (sleep_log Scenarios.st0 ++ sleeps)%list
      /\ (length sleeps <= attempts - 1)%nat
      /\ Forall (policy_delay (self Scenarios.st0)) sleeps.
Proof.
  apply (retries_are_bounded Scenarios.decode Scenarios.writable Scenarios.dir
           (_generate_text_request (Scenarios.always Scenarios.http_503) "hi")
           Scenarios.st0).
  apply quiet_text_request.
Defined.




(** X5 on the image of [Scenarios]: start, transfer, analysis. *)
Lemma kente_is_analysed_in_three_posts :
  let transport := Scenarios.by_url Scenarios.file_answer
                     (inr (Scenarios.text_answer " a woven band ")) in
  let start := start_request_of "uploads/kente.PNG" "AIza-first" "PNG-bytes" in
  let transfer :=
    transfer_request_of Scenarios.upload_target "AIza-first" "PNG-bytes" in
  let analysis :=
    analysis_request "AIza-first" "image/png" (JStr "files/abc") "describe" in
  exists st',
    analyze_image_with_prompt transport "uploads/kente.PNG" "describe" Scenarios.st0
    = (Return "a woven band", st')
    /\ http_log st' = (http_log Scenarios.st0 ++ [start; transfer; analysis])%list
    /\ self st' = self Scenarios.st0
    /\ sleep_log st' = sleep_log Scenarios.st0
    /\ files st' = files Scenarios.st0
    /\ req_url transfer = Scenarios.upload_target
    /\ req_body transfer = BodyData "PNG-bytes"
    /\ headers_get "Content-Length" (req_headers transfer)
       = headers_get "X-Goog-Upload-Header-Content-Length" (req_headers start)
    /\ headers_get "X-Goog-Upload-Header-Content-Type" (req_headers start)
       = Some "image/png".
Proof.
  apply (analysis_takes_three_posts
           (Scenarios.by_url Scenarios.file_answer
              (inr (Scenarios.text_answer " a woven band ")))
           "uploads/kente.PNG" "describe" Scenarios.st0 "AIza-first" "PNG-bytes"
           Scenarios.start_answer "h"%char "ttps://upload.example/1"
           Scenarios.file_answer (Scenarios.text_answer " a woven band ")
           (JObj [("candidates",
              JArr [JObj [("content",
                JObj [("parts", JArr [JObj [("text", JStr " a woven band ")]])])]])])
           "a woven band").
  - simpl. lia.
  - reflexivity.
  - reflexivity.
  - reflexivity.
  - reflexivity.
  - reflexivity.
  - reflexivity.
  - reflexivity.
  - reflexivity.
  - reflexivity.
Defined.

(** X6 on an image that is not among the files. *)
Lemma missing_adire_is_not_posted :
  analyze_image_with_prompt (Scenarios.answers Scenarios.file_answer)
    "uploads/adire.png" "describe" Scenarios.st0
  = (Raise UploadFailed, Scenarios.st0).
Proof.
  apply (missing_image_fails_without_post (Scenarios.answers Scenarios.file_answer)
           "uploads/adire.png" "describe" Scenarios.st0).
  - simpl. lia.
  - split; reflexivity.
Defined.

(** X7 on a transfer answered with an empty object. *)
Lemma transfer_without_file_ends_analysis :
  let transport := Scenarios.by_url Scenarios.no_file_answer
                     (inr (Scenarios.text_answer " a woven band ")) in
  exists st',
    analyze_image_with_prompt transport "uploads/kente.PNG" "describe" Scenarios.st0
    = (Raise UploadFailed, st')
    /\ http_log st'
       = (http_log Scenarios.st0
          ++ [start_request_of "uploads/kente.PNG" "AIza-first" "PNG-bytes";
              transfer_request_of Scenarios.upload_target "AIza-first" "PNG-bytes"])%list
    /\ self st' = self Scenarios.st0
    /\ sleep_log st' = sleep_log Scenarios.st0.
Proof.
  apply (missing_file_reference_fails_after_upload
           (Scenarios.by_url Scenarios.no_file_answer
              (inr (Scenarios.text_answer " a woven band ")))
           "uploads/kente.PNG" "describe" Scenarios.st0 "AIza-first" "PNG-bytes"
           Scenarios.start_answer "h"%char "ttps://upload.example/1"
           Scenarios.no_file_answer).
  - simpl. lia.
  - reflexivity.
  - reflexivity.
  - reflexivity.
  - reflexivity.
  - reflexivity.
  - reflexivity.
Defined.


(** X9 on a response that is an empty object. *)
Lemma empty_object_is_a_key_error :
  generate_text (Scenarios.answers Scenarios.no_file_answer) "hi" Scenarios.st0
  = (Raise (Py.KeyError "'candidates'"),
     with_post (text_request "AIza-first" "hi") Scenarios.st0)
  /\ recognized (exn_msg (Py.KeyError "'candidates'")) = false
  /\ (JObj [] = JObj [] -> Py.KeyError "'candidates'" = Py.KeyError "'candidates'")
  /\ (JObj [] = JObj [("candidates", JArr [])] ->
      Py.KeyError "'candidates'" = Py.IndexError "list").
Proof.
  apply (malformed_text_response_fails_fast
           (Scenarios.answers Scenarios.no_file_answer)
           Scenarios.decode Scenarios.writable Scenarios.dir
           "hi" Scenarios.st0 "AIza-first" Scenarios.no_file_answer (JObj [])
           (Py.KeyError "'candidates'")).
  - simpl. lia.
  - reflexivity.
  - reflexivity.
  - reflexivity.
  - reflexivity.
Defined.

(** X14 on a reply with words around the array. *)
Lemma array_between_words_is_parsed :
  _extract_json_array Scenarios.loads "Sure: [1, 2] (two fonts)"
  = Return (Some (JArr [JInt 1; JInt 2]))
  /\ _extract_json_array Scenarios.loads "Sure: [ (two fonts)" = Return None
  /\ _extract_json_array Scenarios.loads "Sure: " = Return None.
Proof.
  apply (json_array_runs_from_first_to_last_bracket
           Scenarios.loads "Sure: " "1, 2" " (two fonts)").
  - reflexivity.
  - reflexivity.
Defined.

(** X16 on the first fallback colour. *)
Lemma saddle_brown_reads_back :
  parse_hex_color (hex_color (139, 69, 19)) = Some (139, 69, 19).
Proof.
  apply (proj1 (proj2 (palette_colours_read_back 139 69 19 eq_refl))).
Defined.

(* ================================================================== *)
(** ** The further models on small inputs *)
(* ================================================================== *)

Example dirname_of_paths :
  PosixPath.dirname "/srv/assets//kente.png" = "/srv/assets"
  /\ PosixPath.dirname "kente.png" = ""
  /\ PosixPath.dirname "/kente.png" = "/"
  /\ PosixPath.dirname "//kente.png" = "//"
  /\ PosixPath.dirname "/srv/assets/" = "/srv/assets".
Proof. repeat split; reflexivity. Qed.

Example percent_02x_of_channels :
  percent_02x 5 = "05" /\ percent_02x 255 = "ff"
  /\ percent_02x 256 = "100" /\ percent_02x (-1) = "-1".
Proof. repeat split; reflexivity. Qed.

(** The palette of an image is written beside it. *)
Example palette_of_kente :
  let color_thief (_ : string) (n : Z) :=
    Return (firstn (Z.to_nat n) [(139, 69, 19); (210, 105, 30); (205, 133, 63)]) in
  let run := extract_palette color_thief Scenarios.writable
               "uploads/kente.PNG" 2 None Scenarios.st0 in
  fst run = Return (["#8b4513"; "#d2691e"], "uploads/kente_palette.json")
  /\ Py.assoc "uploads/kente_palette.json" (files (snd run))
     = Some (dump_palette ["#8b4513"; "#d2691e"])
  /\ String.length (dump_palette ["#8b4513"; "#d2691e"]) = 51%nat.
Proof. repeat split; vm_compute; reflexivity. Qed.

(** [True] and [1] are one colour; the first of them stays. *)
Example unique_colors_of_mixed_values :
  unique_colors [JStr "#8b4513"; JInt 1; JStr "#d2691e"; JBool true; JStr "#8b4513"]
  = Return [JStr "#8b4513"; JInt 1; JStr "#d2691e"]
  /\ unique_colors [JBool true; JInt 1] = Return [JBool true]
  /\ unique_colors [JStr "#8b4513"; JArr [JInt 139; JInt 69; JInt 19]]
     = Raise (Py.TypeError "unhashable type: 'list'").
Proof. repeat split; reflexivity. Qed.

(** The fonts of a reply with words around the array, and of an image
    that is not on disk. *)
Example fonts_of_a_reply :
  let transport := Scenarios.by_url Scenarios.file_answer
                     (inr (Scenarios.text_answer "Sure: [1, 2] (two fonts)")) in
  fst (generate_culture_fonts transport Scenarios.loads "ashanti"
         "uploads/kente.PNG" Scenarios.st0)
  = Return (JArr [JInt 1; JInt 2])
  /\ get_culture_specific_fonts transport Scenarios.loads "ashanti"
       (Some "uploads/adire.png") Scenarios.st0
     = (Return (_get_fallback_fonts "ashanti"), Scenarios.st0).
Proof. split; vm_compute; reflexivity. Qed.

(** The keys of an environment with a gap in the numbering, and of one
    with the single key only. *)
Example keys_of_environments :
  _load_api_keys [("GEMINI_API_KEY_1", "AIza-first");
                  ("GEMINI_API_KEY_2", "AIza-second");
                  ("GEMINI_API_KEY_4", "AIza-fourth");
                  ("GEMINI_API_KEY", "AIza-single")]
  = ["AIza-first"; "AIza-second"]
  /\ _load_api_keys [("GEMINI_API_KEY_2", "AIza-second");
                     ("GEMINI_API_KEY", "AIza-single")]
     = ["AIza-single"]
  /\ _load_api_keys [("GEMINI_API_KEY_1", "")] = [].
Proof. repeat split; reflexivity. Qed.

(** A second pattern for a culture posts to the image endpoint only,
    also when the first call could not get the details. *)
Example details_are_not_asked_twice :
  let transport := Scenarios.always Scenarios.foo in
  let first := generate_pattern_image transport Scenarios.decode Scenarios.writable
                 Scenarios.clock Scenarios.dir [] "Yoruba" None 1 "1:1"
                 Scenarios.st0 in
  let cache := match fst first with Return (_, c) => c | Raise _ => [] end in
  let second := generate_pattern_image transport Scenarios.decode Scenarios.writable
                  Scenarios.clock Scenarios.dir cache "YORUBA" None 1 "1:1"
                  (snd first) in
  cache = [("yoruba", "")]
  /\ map req_url (http_log (snd first)) = [text_url; imagen_url]
  /\ map req_url (http_log (snd second)) = [text_url; imagen_url; imagen_url]
  /\ fst second = Return (None, cache).
Proof. repeat split; vm_compute; reflexivity. Qed.

(** X12 on a first call that finds no details: the empty details are
    cached under the name in lower case, and the image is asked for
    once. *)
Lemma yoruba_details_are_cached :
  generate_pattern_image (Scenarios.always Scenarios.foo) Scenarios.decode
    Scenarios.writable Scenarios.clock Scenarios.dir
    [] "Yoruba" None 1 "1:1" Scenarios.st0
  = (Return (None, [("yoruba", "")]),
     with_post (image_request "AIza-first" (pattern_prompt "Yoruba" "") 1 "1:1")
       (with_post (text_request "AIza-first" (culture_prompt "Yoruba"))
          Scenarios.st0)).
Proof.
  destruct (pattern_details_are_generated_once
              (Scenarios.always Scenarios.foo) Scenarios.decode
              Scenarios.writable Scenarios.clock Scenarios.dir
              [] "Yoruba" None 1 "1:1" Scenarios.st0 eq_refl)
    as (details & s1 & cache' & Hd & Heq & _).
  cbn [Py.assoc] in Hd. destruct Hd as [Hd Hc].
  assert (E : generate_culture_details (Scenarios.always Scenarios.foo) "Yoruba"
                Scenarios.st0
              = (Return EmptyString,
                 with_post (text_request "AIza-first" (culture_prompt "Yoruba"))
                   Scenarios.st0))
    by (vm_compute; reflexivity).
  rewrite E in Hd. inversion Hd. subst details s1 cache'.
  etransitivity; [exact Heq|]. vm_compute. reflexivity.
Defined.

(** X13 on a text generation that fails: the note quotes the error
    and names the culture in title case. *)
Lemma note_of_a_failed_generation :
  generate_cultural_note (Scenarios.always Scenarios.foo) "yoruba aDIRE"
    Scenarios.st0
  = (Return "[Gemini API error: foo] Placeholder note for Yoruba Adire.",
     with_post (text_request "AIza-first" (note_prompt "yoruba aDIRE"))
       Scenarios.st0).
Proof.
  destruct (cultural_note_never_raises (Scenarios.always Scenarios.foo)
              "yoruba aDIRE" Scenarios.st0 eq_refl)
    as (note & st' & H1 & H2 & _).
  assert (E : generate_text (Scenarios.always Scenarios.foo)
                (note_prompt "yoruba aDIRE") Scenarios.st0
              = (Raise Scenarios.foo,
                 with_post (text_request "AIza-first" (note_prompt "yoruba aDIRE"))
                   Scenarios.st0))
    by (vm_compute; reflexivity).
  rewrite E in H2. destruct H2 as [[H _] | (e & H & Hn)]; [discriminate|].
  inversion H. subst e st' note. exact H1.
Defined.

(** The range of [time.sleep]: the largest delay that is slept, and
    the first that is not. *)
Example sleep_at_the_limit :
  time_sleep_ms 9223372036854 Scenarios.st0
  = (Return tt, with_sleep 9223372036854 Scenarios.st0)
  /\ time_sleep_ms 9223372036855 Scenarios.st0
     = (Raise (OverflowError "timestamp too large to convert to C _PyTime_t"),
        Scenarios.st0)
  /\ time_sleep_ms (-1) Scenarios.st0
     = (Raise (Exn "ValueError" "sleep length must be non-negative"),
        Scenarios.st0).
Proof. repeat split; vm_compute; reflexivity. Qed.

(** A delay beyond the range of [time.sleep] ends the operation at the
    first retry: one post, no sleep, and the error is that of the
    sleep, not the 503 error of the transport. *)
Example oversized_delay_ends_after_one_attempt :
  let st := mkSt (mkClient ["AIza-first"] 0 3 2000 100000000000000 2000)
                 [] [] [] [] 0 in
  let run := generate_text (Scenarios.always Scenarios.http_503) "hi" st in
  fst run = Raise (OverflowError "timestamp too large to convert to C _PyTime_t")
  /\ length (http_log (snd run)) = 1%nat
  /\ sleep_log (snd run) = [].
Proof. repeat split; vm_compute; reflexivity. Qed.

(** A path that is a directory exists and has a size, so the start
    request is posted before the open fails; the analysis ends with
    [UploadFailed] after that one post. *)
Example directory_is_posted_once :
  let transport := Scenarios.by_url Scenarios.file_answer
                     (inr (Scenarios.text_answer " a woven band ")) in
  let run := analyze_image_with_prompt transport "uploads" "describe"
               Scenarios.st0 in
  fst run = Raise UploadFailed
  /\ http_log (snd run)
     = [upload_start_request "AIza-first" 4096 "image/jpeg" "uploads"]
  /\ fst (os_path_exists "uploads" Scenarios.st0) = Return true
  /\ fst (read_file "uploads" Scenarios.st0) = Raise (IsADirectoryError "uploads")
  /\ fst (os_path_exists "uploads/adire.png" Scenarios.st0) = Return false.
Proof. repeat split; vm_compute; reflexivity. Qed.
